(** * Blogging API: a shallow embedding of the controllers and their checks

    The development follows the layout of the repository:

    - [utils/calculateReadingTime.js]  the reading-time estimator;
    - [models/Blog.js], [models/User.js]  the two document schemas;
    - [middleware/errorHandler.js]  the mapping of thrown errors to responses;
    - [controllers/blogController.js]  create / list / fetch / update / delete;
    - [controllers/authController.js], [middleware/auth.js]  login and the
      verification of identity tokens.

    Conventions.  A JavaScript string is the sequence of its code units, here
    [string] (code units below 256).  A member of a request body is a JSON
    value, [json], whatever its documented type; a parameter of a query
    string, named once and without brackets, is a string.  A JavaScript number is a
    [number]: a whole double, written as the integer it is, an infinity or
    NaN; [to_Number] rounds an integer to the nearest double.  The only
    divisions in the code, [wordCount / 200] and [totalBlogs / limit], have
    a count as dividend; they are kept as exact rationals and rounded by
    [Math_ceil], which agrees with the IEEE double computation for every
    count below 2^53 (the quotient, when not an integer, is further than
    its rounding error from the nearest integer).  The database, the
    object mapper, the password hash and the token library are
    collaborators of the code: the part of their contract that the
    controllers rely on is written out as executable definitions, and what
    is theirs to decide (the order of documents with equal sort keys, the
    cast of a value to a type it does not have, the pattern language
    beyond literals, how a hash or a signature is computed) is a
    parameter. *)

From Stdlib Require Import ZArith List Bool Ascii String QArith Qround Lia.
From Stdlib Require Import Sorted Permutation.
Import ListNotations.

Open Scope string_scope.
Open Scope Z_scope.

(* ================================================================= *)
(** ** JavaScript values and strings *)

(** The values a caller can hand to [calculateReadingTime]. *)
Inductive jsval : Type :=
  | JUndefined
  | JNull
  | JBool (b : bool)
  | JNum (n : Z)
  | JNaN
  | JStr (s : string)
  | JObject.

(** [typeof v]. *)
Definition typeof (v : jsval) : string :=
  match v with
  | JUndefined => "undefined"
  | JNull => "object"
  | JBool _ => "boolean"
  | JNum _ | JNaN => "number"
  | JStr _ => "string"
  | JObject => "object"
  end.

(** ToBoolean: the falsy values are undefined, null, false, 0, NaN and "". *)
Definition truthy (v : jsval) : bool :=
  match v with
  | JUndefined | JNull | JNaN => false
  | JBool b => b
  | JNum n => negb (n =? 0)
  | JStr s => negb (s =? "")%string
  | JObject => true
  end.

Definition chars (s : string) : list ascii := list_ascii_of_string s.

(** White space of the language (WhiteSpace and LineTerminator) among the
    code units below 256: TAB, LF, VT, FF, CR, SP and NBSP.  The same class
    is used by [String.prototype.trim], by [\s] and by [parseInt]. *)
Definition isWhiteSpace (c : ascii) : bool :=
  let n := nat_of_ascii c in
  ((9 <=? n)%nat && (n <=? 13)%nat) || (n =? 32)%nat || (n =? 160)%nat.

Fixpoint trimStart (s : list ascii) : list ascii :=
  match s with
  | [] => []
  | c :: s' => if isWhiteSpace c then trimStart s' else s
  end.

Fixpoint trimEnd (s : list ascii) : list ascii :=
  match s with
  | [] => []
  | c :: s' =>
      match trimEnd s' with
      | [] => if isWhiteSpace c then [] else [c]
      | t => c :: t
      end
  end.

(** [s.trim()]. *)
Definition trim (s : list ascii) : list ascii := trimEnd (trimStart s).

(** [s.split(/\s+/)], following the loop of [RegExp.prototype[Symbol.split]]:
    [cur] holds (reversed) the code units since the end [p] of the last
    match; a white-space unit met outside a separator starts a match of
    [\s+] at [q], which cannot be empty, so the piece [S[p..q)] is pushed;
    the greedy [+] then swallows the white space that follows ([in_sep]);
    when the input is exhausted the last piece [S[p..size)] is pushed.  On
    the empty string the result is the one-element array [[""]], as [\s+]
    does not match the empty string. *)
Fixpoint split_ws_from (cur : list ascii) (in_sep : bool) (rest : list ascii)
  : list (list ascii) :=
  match rest with
  | [] => [rev cur]
  | c :: rest' =>
      if isWhiteSpace c then
        if in_sep then split_ws_from cur true rest'
        else rev cur :: split_ws_from [] true rest'
      else split_ws_from (c :: cur) false rest'
  end.

Definition split_ws (s : list ascii) : list (list ascii) :=
  split_ws_from [] false s.

(** [a / b] of two integers, exactly. *)
Definition js_div (a b : Z) : Q := (inject_Z a / inject_Z b)%Q.

(** [Math.ceil] of an exact quotient. *)
Definition Math_ceil (q : Q) : Z := Qceiling q.

(** [x || d] on numbers: [d] replaces a falsy [x], that is 0 (NaN does not
    arise from the integer operands used here). *)
Definition num_or (x d : Z) : Z := if x =? 0 then d else x.

(* ================================================================= *)
(** ** utils/calculateReadingTime.js *)

Definition wordsPerMinute : Z := 200.

Definition calculateReadingTime (text : jsval) : Z :=
  if negb (truthy text) || negb (typeof text =? "string")%string then 0
  else
    match text with
    | JStr s =>
        let words := split_ws (trim (chars s)) in
        let wordCount := Z.of_nat (List.length words) in
        let readingTime := js_div wordCount wordsPerMinute in
        num_or (Math_ceil readingTime) 1
    | _ => 0
    end.

(** The specification's reading of the same function: the words of a text
    are its maximal runs of non-white-space code units. *)
Definition startsWord (s : list ascii) : bool :=
  match s with
  | [] => false
  | c :: _ => negb (isWhiteSpace c)
  end.

Fixpoint words (s : list ascii) : list (list ascii) :=
  match s with
  | [] => []
  | c :: s' =>
      if isWhiteSpace c then words s'
      else if startsWord s' then
        match words s' with
        | w :: ws => (c :: w) :: ws
        | [] => [[c]]
        end
      else [c] :: words s'
  end.

Definition wordCount (s : string) : Z := Z.of_nat (List.length (words (chars s))).

(** [max(1, ceil(wordCount / 200))], the ceiling written with integer
    division. *)
Definition spec_reading_time (s : string) : Z :=
  Z.max 1 ((wordCount s + 199) / 200).

(** [n] copies of [w] joined by single spaces. *)
Fixpoint join_copies (n : nat) (w : string) : string :=
  match n with
  | O => ""
  | S O => w
  | S n' => w ++ " " ++ join_copies n' w
  end.

(** ['word '.repeat(n)] of the test-suite. *)
Fixpoint repeat_string (n : nat) (w : string) : string :=
  match n with
  | O => ""
  | S n' => w ++ repeat_string n' w
  end.

(* ================================================================= *)
(** ** JSON values: the members of [req.body]

    [express.json()] hands the controllers whatever JSON the client sent:
    a member documented as a string may hold a number, an array or an
    object.  A member that is absent reads as [undefined], here [None]. *)

Unset Elimination Schemes.

Inductive json : Type :=
  | JsNull
  | JsBool (b : bool)
  | JsNumber (q : Q)
  | JsString (s : string)
  | JsArray (items : list json)
  | JsObject (members : list (string * json)).

Set Elimination Schemes.

(** A member as a value of the language, as far as [typeof] and the
    truthiness tests can tell: a number is looked at only through its
    being zero, which its numerator decides. *)
Definition jsv (v : option json) : jsval :=
  match v with
  | None => JUndefined
  | Some JsNull => JNull
  | Some (JsBool b) => JBool b
  | Some (JsNumber q) => JNum (Qnum q)
  | Some (JsString s) => JStr s
  | Some (JsArray _) | Some (JsObject _) => JObject
  end.

(** Induction on a JSON value through the items of its arrays. *)
Section JsonInduction.

Variable P : json -> Prop.
Hypothesis P_null : P JsNull.
Hypothesis P_bool : forall b, P (JsBool b).
Hypothesis P_number : forall q, P (JsNumber q).
Hypothesis P_string : forall s, P (JsString s).
Hypothesis P_array : forall items, Forall P items -> P (JsArray items).
Hypothesis P_object : forall members, P (JsObject members).

Fixpoint json_items_ind (v : json) : P v :=
  match v with
  | JsNull => P_null
  | JsBool b => P_bool b
  | JsNumber q => P_number q
  | JsString s => P_string s
  | JsArray items =>
      P_array items
        ((fix all (l : list json) : Forall P l :=
            match l with
            | [] => Forall_nil P
            | x :: l' => Forall_cons x (json_items_ind x) (all l')
            end) items)
  | JsObject members => P_object members
  end.

End JsonInduction.

(** The own member [key] of an object; the last occurrence wins in
    [JSON.parse]. *)
Definition own_member (key : string) (members : list (string * json))
  : option json :=
  match find (fun m => (fst m =? key)%string) (rev members) with
  | Some m => Some (snd m)
  | None => None
  end.

(* ================================================================= *)
(** ** Numbers

    The numbers of the controllers come from [parseInt] and from counts:
    they are whole doubles, infinities or NaN. *)

Inductive number : Type :=
  | NaN
  | Num (z : Z)
  | Infinity (negative : bool).

(** The double nearest to the integer [n], ties to the even significand:
    exact below 2^53; above, the 53 leading bits are kept and the rest
    rounds them; from 2^1024 - 2^970 on the result is an infinity. *)
Definition to_Number (n : Z) : number :=
  let a := Z.abs n in
  if a <? 2 ^ 53 then Num n
  else
    let e := Z.log2 a - 52 in
    let q := Z.shiftr a e in
    let r := a - Z.shiftl q e in
    let half := Z.shiftl 1 (e - 1) in
    let q' :=
      if r <? half then q
      else if half <? r then q + 1
      else if Z.even q then q else q + 1 in
    let m := Z.shiftl q' e in
    if 2 ^ 1024 <=? m then Infinity (n <? 0) else Num (Z.sgn n * m).

(** [a - b] and [a * b] on such numbers. *)
Definition js_sub (a b : number) : number :=
  match a, b with
  | Num x, Num y => to_Number (x - y)
  | Infinity s, Num _ => Infinity s
  | Num _, Infinity s => Infinity (negb s)
  | Infinity s, Infinity t => if Bool.eqb s t then NaN else Infinity s
  | NaN, _ | _, NaN => NaN
  end.

Definition js_mul (a b : number) : number :=
  match a, b with
  | Num x, Num y => to_Number (x * y)
  | Infinity s, Num y | Num y, Infinity s =>
      if y =? 0 then NaN else Infinity (xorb s (y <? 0))
  | Infinity s, Infinity t => Infinity (xorb s t)
  | NaN, _ | _, NaN => NaN
  end.

(** [Math.ceil(count / n)] for a count. *)
Definition ceil_div (count : Z) (n : number) : number :=
  match n with
  | NaN => NaN
  | Num 0 => if count =? 0 then NaN else Infinity (count <? 0)
  | Num d => Num (Math_ceil (js_div count d))
  | Infinity _ => Num 0
  end.

(** [x || d] on numbers: NaN and 0 are falsy. *)
Definition number_or (x : number) (d : Z) : number :=
  match x with
  | NaN | Num 0 => Num d
  | _ => x
  end.

(* ================================================================= *)
(** ** More of the language: [parseInt], [toLowerCase], [split(" ")] *)

Definition digit_value (c : ascii) : option Z :=
  let n := Z.of_nat (nat_of_ascii c) in
  if (48 <=? n) && (n <=? 57) then Some (n - 48)
  else if (97 <=? n) && (n <=? 122) then Some (n - 87)
  else if (65 <=? n) && (n <=? 90) then Some (n - 55)
  else None.

(** The longest prefix of digits in radix [R], read as a number; [None]
    when that prefix is empty. *)
Fixpoint parse_digits (R : Z) (acc : option Z) (s : list ascii) : option Z :=
  match s with
  | [] => acc
  | c :: s' =>
      match digit_value c with
      | Some d =>
          if d <? R
          then parse_digits R (Some (match acc with Some a => a * R + d | None => d end)) s'
          else acc
      | None => acc
      end
  end.

(** The integer that [parseInt(v)], with no radix argument, reads in [v];
    [None] when it reads none.  A missing query parameter is [undefined],
    whose string form ["undefined"] has no digit prefix. *)
Definition mathInt (v : option string) : option Z :=
  match v with
  | None => None
  | Some str =>
      let input := trimStart (chars str) in
      let '(sign, input) :=
        match input with
        | "-"%char :: rest => (-1, rest)
        | "+"%char :: rest => (1, rest)
        | _ => (1, input)
        end in
      let '(R, input) :=
        match input with
        | "0"%char :: "x"%char :: rest => (16, rest)
        | "0"%char :: "X"%char :: rest => (16, rest)
        | _ => (10, input)
        end in
      match parse_digits R None input with
      | None => None
      | Some mathInt => Some (sign * mathInt)
      end
  end.

(** [parseInt(v)]: NaN when no integer is read, otherwise the number for
    the integer read. *)
Definition parseInt (v : option string) : number :=
  match mathInt v with
  | None => NaN
  | Some n => to_Number n
  end.

(** [parseInt(v) || d]. *)
Definition parseInt_or (v : option string) (d : Z) : number :=
  number_or (parseInt v) d.

(** [v || d] on an optional string: [undefined] and [""] are falsy. *)
Definition str_or (v : option string) (d : string) : string :=
  match v with
  | Some s => if (s =? "")%string then d else s
  | None => d
  end.

(** An optional string as a value of the language. *)
Definition js (v : option string) : jsval :=
  match v with
  | Some s => JStr s
  | None => JUndefined
  end.

Definition lower_char (c : ascii) : ascii :=
  let n := nat_of_ascii c in
  if ((65 <=? n) && (n <=? 90))%nat
     || ((192 <=? n) && (n <=? 222) && negb (n =? 215))%nat
  then ascii_of_nat (n + 32) else c.

(** [s.toLowerCase()] on code units below 256. *)
Definition toLowerCase (s : string) : string :=
  string_of_list_ascii (map lower_char (chars s)).

(** [s.split(c)] for a one-character separator. *)
Fixpoint split_on_from (sep : ascii) (cur : list ascii) (rest : list ascii)
  : list string :=
  match rest with
  | [] => [string_of_list_ascii (rev cur)]
  | c :: rest' =>
      if Ascii.eqb c sep
      then string_of_list_ascii (rev cur) :: split_on_from sep [] rest'
      else split_on_from sep (c :: cur) rest'
  end.

Definition split_on (sep : ascii) (s : string) : list string :=
  split_on_from sep [] (chars s).

(* ================================================================= *)
(** ** Responses and thrown errors *)

(** An [ObjectId] is represented by its rendering [toString()], 24
    hexadecimal digits; two identifiers are equal exactly when their
    renderings are. *)
Definition ObjectId : Type := string.

(** models/Blog.js: the schema.  [state] is restricted by [enum]; a missing
    or [null] description is [None]. *)
Module Blog.
Inductive State : Type := draft | published.

Record t : Type := mk {
  _id : ObjectId;
  title : string;
  description : option string;
  author : ObjectId;
  state : State;
  read_count : Z;
  reading_time : Z;
  tags : list string;
  body : string;
  timestamp : Z;
  updatedAt : Z
}.

Definition state_eqb (a b : State) : bool :=
  match a, b with
  | draft, draft | published, published => true
  | _, _ => false
  end.
End Blog.

(** models/User.js: the schema; [password] holds the salted hash. *)
Module User.
Record t : Type := mk {
  _id : ObjectId;
  first_name : string;
  last_name : string;
  email : string;
  password : string;
  createdAt : Z
}.
End User.

Record pagination : Type := mkPagination {
  currentPage : number;
  totalPages : number;
  totalBlogs : Z;
  limit : number
}.

(** The [data] member of a response body. *)
Inductive payload : Type :=
  | NoData
  | BlogData (blog : Blog.t)
  | BlogsData (blogs : list Blog.t) (pages : pagination).

(** [res.status(status).json({success, message, data})]. *)
Record response : Type := mkResponse {
  status : Z;
  success : bool;
  message : option string;
  data : payload
}.

Definition failure (code : Z) (msg : string) : response :=
  mkResponse code false (Some msg) NoData.

(** The members of a thrown error that the handlers look at. *)
Record js_error : Type := mkError {
  err_name : string;
  err_message : string;
  err_statusCode : option Z;
  err_code : option Z;
  err_errors : list string;
  err_keyPattern : list string
}.

(** Errors raised by the object mapper and the database. *)
Definition CastError (value : string) : js_error :=
  mkError "CastError" ("Cast to ObjectId failed for value " ++ value)
          None None [] [].

Definition ValidationError (messages : list string) : js_error :=
  mkError "ValidationError"
          ("Blog validation failed: " ++ String.concat ", " messages)
          None None messages [].

Definition DuplicateKeyError (field : string) : js_error :=
  mkError "MongoServerError" ("E11000 duplicate key error: " ++ field)
          None (Some 11000) [] [field].

Definition ServerError (msg : string) : js_error :=
  mkError "MongoServerError" msg None None [] [].

(** Errors raised by the language and by the hash library. *)
Definition TypeError (msg : string) : js_error :=
  mkError "TypeError" msg None None [] [].

Definition IllegalArguments (s hash : string) : js_error :=
  mkError "Error" ("Illegal arguments: " ++ s ++ ", " ++ hash) None None [] [].

(* ================================================================= *)
(** ** middleware/errorHandler.js

    The logger call and the [stack] member added in development mode are
    left out. *)

Definition errorHandler (err : js_error) : response :=
  let statusCode :=
    match err_statusCode err with
    | Some c => num_or c 500
    | None => 500
    end in
  let message :=
    if (err_message err =? "")%string then "Internal Server Error"
    else err_message err in
  let '(statusCode, message) :=
    if (err_name err =? "ValidationError")%string
    then (400, String.concat ", " (err_errors err))
    else (statusCode, message) in
  let '(statusCode, message) :=
    match err_code err with
    | Some 11000 =>
        let field := hd "undefined" (err_keyPattern err) in
        (400, field ++ " already exists")
    | _ => (statusCode, message)
    end in
  let '(statusCode, message) :=
    if (err_name err =? "CastError")%string
    then (400, "Invalid ID format") else (statusCode, message) in
  let '(statusCode, message) :=
    if (err_name err =? "JsonWebTokenError")%string
    then (401, "Invalid token") else (statusCode, message) in
  let '(statusCode, message) :=
    if (err_name err =? "TokenExpiredError")%string
    then (401, "Token expired") else (statusCode, message) in
  failure statusCode message.

(* ================================================================= *)
(** ** The database behind the object mapper

    A collection is the list of its documents in insertion order.  An
    operation of the mapper either returns or throws. *)

Inductive result (A : Type) : Type :=
  | Ok (a : A)
  | Throw (error : js_error).

Arguments Ok {A} a.
Arguments Throw {A} error.

(** What the server decides: [pcre], the pattern engine on the patterns
    that are not interpreted below, which either rejects a pattern or
    yields its matcher; [fold_high], how the engine folds the case of the
    code units from 128 up; and [beyond], what the server does with a
    [skip] or a [limit] that is not one of its 64-bit integers, which is
    to refuse the query or to apply a skip and a limit of its own. *)
Record server : Type := mkServer {
  pcre : string -> option (string -> bool);
  fold_high : ascii -> ascii;
  beyond : number -> number -> result (nat * nat)
}.

(** *** Regular expressions: [{ $regex: pattern, $options: 'i' }]

    The pattern language of the server is PCRE.  Two kinds of atoms are
    interpreted here: a character that PCRE takes literally, compared
    without regard to case, and the dot, which stands for any character
    but a line feed.  The case of the letters of ASCII is folded here,
    that of the other characters by [fold_high].  A pattern made of such
    atoms matches a subject when it matches at some offset.  Every other
    pattern is handed to [pcre]. *)

Inductive atom : Type :=
  | Lit (c : ascii)
  | AnyChar.

Definition fold_case (S : server) (c : ascii) : ascii :=
  let n := nat_of_ascii c in
  if ((65 <=? n) && (n <=? 90))%nat then ascii_of_nat (n + 32)
  else if (n <=? 127)%nat then c
  else fold_high S c.

Definition is_meta (c : ascii) : bool :=
  existsb (Ascii.eqb c) (chars "\^$.[]|()?*+{}").

Definition is_plain (c : ascii) : bool :=
  negb (Ascii.eqb c "000"%char) && negb (is_meta c).

Definition atom_of (c : ascii) : option atom :=
  if Ascii.eqb c "."%char then Some AnyChar
  else if is_plain c then Some (Lit c)
  else None.

Fixpoint simple_pattern (p : list ascii) : option (list atom) :=
  match p with
  | [] => Some []
  | c :: p' =>
      match atom_of c, simple_pattern p' with
      | Some a, Some l => Some (a :: l)
      | _, _ => None
      end
  end.

Definition atom_matches (S : server) (a : atom) (c : ascii) : bool :=
  match a with
  | Lit x => Ascii.eqb (fold_case S x) (fold_case S c)
  | AnyChar => negb (Ascii.eqb c "010"%char)
  end.

Fixpoint matches_here (S : server) (p : list atom) (s : list ascii) : bool :=
  match p, s with
  | [], _ => true
  | _ :: _, [] => false
  | a :: p', c :: s' => atom_matches S a c && matches_here S p' s'
  end.

Fixpoint matches_somewhere (S : server) (p : list atom) (s : list ascii)
  : bool :=
  matches_here S p s ||
  match s with
  | [] => false
  | _ :: s' => matches_somewhere S p s'
  end.

Definition regex_i (S : server) (pattern : string) : option (string -> bool) :=
  match simple_pattern (chars pattern) with
  | Some atoms => Some (fun subject => matches_somewhere S atoms (chars subject))
  | None => pcre S pattern
  end.

(** *** Filters: [{ state, $or: [{title: regex}, {tags: regex}] }] *)

Record blog_query : Type := mkQuery {
  q_state : option Blog.State;
  q_or_regex : option string
}.

Definition compile_filter (S : server) (query : blog_query)
  : result (Blog.t -> bool) :=
  let by_state (b : Blog.t) :=
    match q_state query with
    | Some s => Blog.state_eqb (Blog.state b) s
    | None => true
    end in
  match q_or_regex query with
  | None => Ok by_state
  | Some pattern =>
      match regex_i S pattern with
      | None => Throw (ServerError "Regular expression is invalid")
      | Some re =>
          Ok (fun b => by_state b && (re (Blog.title b) || existsb re (Blog.tags b)))
      end
  end.

(** *** Sorting: [{ [field]: 1 | -1 }]

    Values are compared in the order of the storage format: an empty array
    first, then a missing value, numbers, strings, identifiers, dates.  An
    array is represented by its least element when ascending and by its
    greatest when descending.  A path outside the schema is missing from
    every document. *)

Inductive sort_key : Type :=
  | KEmptyArray
  | KNull
  | KNum (n : Z)
  | KStr (s : string)
  | KId (i : ObjectId)
  | KDate (t : Z).

Definition key_rank (k : sort_key) : Z :=
  match k with
  | KEmptyArray => 0
  | KNull => 1
  | KNum _ => 2
  | KStr _ => 3
  | KId _ => 4
  | KDate _ => 5
  end.

Definition key_leb (a b : sort_key) : bool :=
  match a, b with
  | KNum x, KNum y => x <=? y
  | KDate x, KDate y => x <=? y
  | KStr x, KStr y => String.leb x y
  | KId x, KId y => String.leb x y
  | _, _ => key_rank a <=? key_rank b
  end.

Fixpoint extreme (pick : string -> string -> string) (x : string) (l : list string)
  : string :=
  match l with
  | [] => x
  | y :: l' => extreme pick (pick x y) l'
  end.

Definition str_min (x y : string) : string := if String.leb x y then x else y.
Definition str_max (x y : string) : string := if String.leb x y then y else x.

Definition state_string (s : Blog.State) : string :=
  match s with
  | Blog.draft => "draft"
  | Blog.published => "published"
  end.

Definition field_key (field : string) (direction : Z) (b : Blog.t) : sort_key :=
  if (field =? "_id")%string then KId (Blog._id b)
  else if (field =? "title")%string then KStr (Blog.title b)
  else if (field =? "description")%string then
    match Blog.description b with Some d => KStr d | None => KNull end
  else if (field =? "author")%string then KId (Blog.author b)
  else if (field =? "state")%string then KStr (state_string (Blog.state b))
  else if (field =? "read_count")%string then KNum (Blog.read_count b)
  else if (field =? "reading_time")%string then KNum (Blog.reading_time b)
  else if (field =? "tags")%string then
    match Blog.tags b with
    | [] => KEmptyArray
    | t :: ts => KStr (extreme (if direction =? 1 then str_min else str_max) t ts)
    end
  else if (field =? "body")%string then KStr (Blog.body b)
  else if (field =? "timestamp")%string then KDate (Blog.timestamp b)
  else if (field =? "updatedAt")%string then KDate (Blog.updatedAt b)
  else KNull.

(** [a] may stay in front of [b].  The server promises no order among
    documents with equal keys, and the order it takes may differ from one
    query to the next: it is an input of the query, [ties], the rank that
    the server gives a document among its equals. *)
Definition in_order (ties : Blog.t -> Z) (field : string) (direction : Z)
  (a b : Blog.t) : bool :=
  let ka := field_key field direction a in
  let kb := field_key field direction b in
  if key_leb ka kb && key_leb kb ka then ties a <=? ties b
  else if direction =? 1 then key_leb ka kb else key_leb kb ka.

Fixpoint insert_sorted (le : Blog.t -> Blog.t -> bool) (x : Blog.t)
  (l : list Blog.t) : list Blog.t :=
  match l with
  | [] => [x]
  | y :: l' => if le x y then x :: l else y :: insert_sorted le x l'
  end.

Fixpoint sort_blogs (le : Blog.t -> Blog.t -> bool) (l : list Blog.t)
  : list Blog.t :=
  match l with
  | [] => []
  | x :: l' => insert_sorted le x (sort_blogs le l')
  end.

(** [.skip(skip).limit(limit)] on the sorted matches.  The server refuses
    a negative [skip]; the driver sends a negative [limit] as its absolute
    value; a [limit] of 0 is no limit.  A [skip] or [limit] outside the
    64-bit integers is left to the server. *)
Definition window (S : server) (skip limit : number) (sorted : list Blog.t)
  : result (list Blog.t) :=
  let server's :=
    match beyond S skip limit with
    | Throw e => Throw e
    | Ok (s, l) => Ok (firstn l (skipn s sorted))
    end in
  match skip, limit with
  | Num s, Num l =>
      if s <? 0 then Throw (ServerError "Skip value must be non-negative")
      else if (s <? 2 ^ 63) && (Z.abs l <? 2 ^ 63) then
        let rest := skipn (Z.to_nat s) sorted in
        Ok (if l =? 0 then rest else firstn (Z.to_nat (Z.abs l)) rest)
      else server's
  | _, _ => server's
  end.

(** [Blog.find(query).sort(sort).skip(skip).limit(limit)]. *)
Definition Blog_find (S : server) (ties : Blog.t -> Z)
  (query : blog_query) (sort : string * Z) (skip limit : number)
  (db : list Blog.t) : result (list Blog.t) :=
  match compile_filter S query with
  | Throw e => Throw e
  | Ok keep =>
      window S skip limit
        (sort_blogs (in_order ties (fst sort) (snd sort)) (filter keep db))
  end.

(** [Blog.countDocuments(query)]. *)
Definition Blog_countDocuments (S : server)
  (query : blog_query) (db : list Blog.t) : result Z :=
  match compile_filter S query with
  | Throw e => Throw e
  | Ok keep => Ok (Z.of_nat (List.length (filter keep db)))
  end.

Definition has_id (i : ObjectId) (b : Blog.t) : bool := (Blog._id b =? i)%string.

(** [Blog.findById(id)] once [id] has been cast. *)
Definition Blog_findById (i : ObjectId) (db : list Blog.t) : option Blog.t :=
  find (has_id i) db.

(** [Blog.findOne({ _id: id, state: 'published' })] once [id] has been cast. *)
Definition Blog_findOne_published (i : ObjectId) (db : list Blog.t)
  : option Blog.t :=
  find (fun b => has_id i b && Blog.state_eqb (Blog.state b) Blog.published) db.

(** [Blog.findByIdAndDelete(id)]: the first document with that identifier
    is removed. *)
Fixpoint Blog_findByIdAndDelete (i : ObjectId) (db : list Blog.t)
  : list Blog.t :=
  match db with
  | [] => []
  | b :: db' => if has_id i b then db' else b :: Blog_findByIdAndDelete i db'
  end.

(** The filter [{ author, state }] of the owner's listing; [state] is set
    only when the request names one of the two states. *)
Record owner_query : Type := mkOwnerQuery {
  oq_author : ObjectId;
  oq_state : option Blog.State
}.

Definition owner_keep (query : owner_query) (b : Blog.t) : bool :=
  (Blog.author b =? oq_author query)%string
  && match oq_state query with
     | Some s => Blog.state_eqb (Blog.state b) s
     | None => true
     end.

(** [Blog.find(query).sort(sort).skip(skip).limit(limit)] for such a
    filter. *)
Definition Blog_find_owner (S : server) (ties : Blog.t -> Z)
  (query : owner_query) (sort : string * Z)
  (skip limit : number) (db : list Blog.t) : result (list Blog.t) :=
  window S skip limit
    (sort_blogs (in_order ties (fst sort) (snd sort))
       (filter (owner_keep query) db)).

Definition Blog_countDocuments_owner (query : owner_query) (db : list Blog.t)
  : result Z :=
  Ok (Z.of_nat (List.length (filter (owner_keep query) db))).

(* ================================================================= *)
(** ** models/Blog.js: setters, validation, hooks and methods *)

Definition trim_string (s : string) : string :=
  string_of_list_ascii (trim (chars s)).

(** The string held by an optional field; [required] does not tell a
    missing string from an empty one, so neither does this. *)
Definition the (v : option string) : string :=
  match v with
  | Some s => s
  | None => ""
  end.

(** Assignments to the paths of a document; [title] and [description] are
    declared with [trim: true]. *)
Definition set_title (v : string) (b : Blog.t) : Blog.t :=
  Blog.mk (Blog._id b) (trim_string v) (Blog.description b) (Blog.author b)
          (Blog.state b) (Blog.read_count b) (Blog.reading_time b)
          (Blog.tags b) (Blog.body b) (Blog.timestamp b) (Blog.updatedAt b).

Definition set_description (v : string) (b : Blog.t) : Blog.t :=
  Blog.mk (Blog._id b) (Blog.title b) (Some (trim_string v)) (Blog.author b)
          (Blog.state b) (Blog.read_count b) (Blog.reading_time b)
          (Blog.tags b) (Blog.body b) (Blog.timestamp b) (Blog.updatedAt b).

Definition set_tags (v : list string) (b : Blog.t) : Blog.t :=
  Blog.mk (Blog._id b) (Blog.title b) (Blog.description b) (Blog.author b)
          (Blog.state b) (Blog.read_count b) (Blog.reading_time b)
          v (Blog.body b) (Blog.timestamp b) (Blog.updatedAt b).

Definition set_body (v : string) (b : Blog.t) : Blog.t :=
  Blog.mk (Blog._id b) (Blog.title b) (Blog.description b) (Blog.author b)
          (Blog.state b) (Blog.read_count b) (Blog.reading_time b)
          (Blog.tags b) v (Blog.timestamp b) (Blog.updatedAt b).

Definition set_reading_time (v : Z) (b : Blog.t) : Blog.t :=
  Blog.mk (Blog._id b) (Blog.title b) (Blog.description b) (Blog.author b)
          (Blog.state b) (Blog.read_count b) v
          (Blog.tags b) (Blog.body b) (Blog.timestamp b) (Blog.updatedAt b).

Definition set_state (v : Blog.State) (b : Blog.t) : Blog.t :=
  Blog.mk (Blog._id b) (Blog.title b) (Blog.description b) (Blog.author b)
          v (Blog.read_count b) (Blog.reading_time b)
          (Blog.tags b) (Blog.body b) (Blog.timestamp b) (Blog.updatedAt b).

Definition set_read_count (v : Z) (b : Blog.t) : Blog.t :=
  Blog.mk (Blog._id b) (Blog.title b) (Blog.description b) (Blog.author b)
          (Blog.state b) v (Blog.reading_time b)
          (Blog.tags b) (Blog.body b) (Blog.timestamp b) (Blog.updatedAt b).

Definition set_updatedAt (v : Z) (b : Blog.t) : Blog.t :=
  Blog.mk (Blog._id b) (Blog.title b) (Blog.description b) (Blog.author b)
          (Blog.state b) (Blog.read_count b) (Blog.reading_time b)
          (Blog.tags b) (Blog.body b) (Blog.timestamp b) v.

(** [new Blog({ title, description, tags, body, author, reading_time,
    state })]: the identifier is generated, [read_count] takes its default
    0, and both dates default to [Date.now]. *)
Definition new_Blog (fresh : ObjectId) (now : Z)
  (title description : option string) (tags : list string)
  (body : option string) (author : ObjectId) (reading_time : Z)
  (state : Blog.State) : Blog.t :=
  Blog.mk fresh (trim_string (the title))
          (match description with
           | Some d => Some (trim_string d)
           | None => None
           end)
          author state 0 reading_time tags (the body) now now.

(** The [required] validators of the schema, with their messages. *)
Definition validate (doc : Blog.t) : list string :=
  ((if (Blog.title doc =? "")%string then ["Title is required"] else []) ++
   (if (Blog.body doc =? "")%string then ["Blog body is required"] else []))%list.

(** What validation reports at [save]: first the casts that failed when
    paths of the document were assigned, each under its path, then the
    validators of the paths whose cast did not fail. *)
Definition failed (path : string) (casts : list (string * string)) : bool :=
  existsb (fun c => (fst c =? path)%string) casts.

Definition failures (casts : list (string * string)) (doc : Blog.t)
  : list string :=
  (map snd casts ++
   ((if failed "title" casts then []
     else if (Blog.title doc =? "")%string then ["Title is required"] else []) ++
    (if failed "body" casts then []
     else if (Blog.body doc =? "")%string then ["Blog body is required"] else [])))%list.

Definition same_title (doc b : Blog.t) : bool :=
  (Blog.title b =? Blog.title doc)%string.

(** [doc.save()] for a document made by [new Blog], [casts] being the
    casts that failed in its making: validation, the pre-save hook that
    refreshes [updatedAt], then the insertion, which the unique indexes on
    [_id] and [title] may refuse. *)
Definition save_new_with (casts : list (string * string)) (now : Z)
  (doc : Blog.t) (db : list Blog.t) : result (list Blog.t * Blog.t) :=
  match failures casts doc with
  | (_ :: _) as messages => Throw (ValidationError messages)
  | [] =>
      let doc := set_updatedAt now doc in
      if existsb (has_id (Blog._id doc)) db then Throw (DuplicateKeyError "_id")
      else if existsb (same_title doc) db then Throw (DuplicateKeyError "title")
      else Ok ((db ++ [doc])%list, doc)
  end.

(** [doc.save()] for a document [original] read from the collection and
    since modified into [doc], [casts] being the casts that failed in the
    assignments: validation, the pre-save hook, then the write of the
    modified paths, which the unique index on [title] refuses when the
    title was changed to that of another document. *)
Definition save_existing_with (casts : list (string * string)) (now : Z)
  (original doc : Blog.t) (db : list Blog.t) : result (list Blog.t * Blog.t) :=
  match failures casts doc with
  | (_ :: _) as messages => Throw (ValidationError messages)
  | [] =>
      let doc := set_updatedAt now doc in
      if negb (Blog.title doc =? Blog.title original)%string
         && existsb (fun b => negb (has_id (Blog._id doc) b) && same_title doc b) db
      then Throw (DuplicateKeyError "title")
      else Ok (map (fun b => if has_id (Blog._id doc) b then doc else b) db, doc)
  end.

(** The same when no cast has failed. *)
Definition save_new (now : Z) (doc : Blog.t) (db : list Blog.t)
  : result (list Blog.t * Blog.t) :=
  save_new_with [] now doc db.

Definition save_existing (now : Z) (original doc : Blog.t) (db : list Blog.t)
  : result (list Blog.t * Blog.t) :=
  save_existing_with [] now original doc db.

(** [blogSchema.methods.incrementReadCount]. *)
Definition incrementReadCount (now : Z) (this : Blog.t) (db : list Blog.t)
  : result (list Blog.t * Blog.t) :=
  let this' := set_read_count (Blog.read_count this + 1) this in
  save_existing now this this' db.

(* ================================================================= *)
(** ** Values that do not have the type asked for

    What the language and the object mapper make of a value that is not of
    the type a path or an operator asks for is theirs: [number_string] is
    the string form of a number; [less_than v n] is [v < n] for a [v] that
    is not a number; [cast_string] is the mapper's cast to [String] of a
    value that is not a string, and [cast_strings] its cast to [[String]]
    of a value that is not an array of strings, [None] when the cast
    fails; [cast_message] is the message of the failed cast of a value at
    a path. *)
Record library : Type := mkLibrary {
  number_string : Q -> string;
  less_than : json -> Z -> bool;
  cast_string : json -> option string;
  cast_strings : json -> option (list string);
  cast_message : string -> json -> string
}.

(** ToString.  An array is the join of its elements, [null] counting as
    empty; an object is ["[object Object]"] unless it has a member
    [toString] of its own, which is not callable and leaves it without a
    primitive value. *)
Fixpoint ToString (L : library) (v : json) : result string :=
  match v with
  | JsNull => Ok "null"
  | JsBool b => Ok (if b then "true" else "false")
  | JsNumber q => Ok (number_string L q)
  | JsString s => Ok s
  | JsArray items =>
      let fix each (l : list json) : result (list string) :=
        match l with
        | [] => Ok []
        | e :: l' =>
            match (match e with JsNull => Ok "" | _ => ToString L e end) with
            | Throw error => Throw error
            | Ok s =>
                match each l' with
                | Throw error => Throw error
                | Ok ss => Ok (s :: ss)
                end
            end
        end in
      match each items with
      | Throw error => Throw error
      | Ok ss => Ok (String.concat "," ss)
      end
  | JsObject members =>
      match own_member "toString" members with
      | Some _ => Throw (TypeError "Cannot convert object to primitive value")
      | None => Ok "[object Object]"
      end
  end.

(** [v.length < n] for a truthy [v]: a string and an array have a length,
    an object has the member [length] it was given, a boolean and a
    number have none, and [undefined < n] is false. *)
Definition length_below (L : library) (v : json) (n : Z) : bool :=
  match v with
  | JsString s => Z.of_nat (String.length s) <? n
  | JsArray items => Z.of_nat (List.length items) <? n
  | JsObject members =>
      match own_member "length" members with
      | None => false
      | Some (JsNumber q) => negb (Qle_bool (inject_Z n) q)
      | Some w => less_than L w n
      end
  | JsNull | JsBool _ | JsNumber _ => false
  end.

(** The cast of a member to the type [String] of a path. *)
Definition cast_String (L : library) (v : json) : option string :=
  match v with
  | JsString s => Some s
  | _ => cast_string L v
  end.

Fixpoint strings_of (items : list json) : option (list string) :=
  match items with
  | [] => Some []
  | JsString s :: items' =>
      match strings_of items' with
      | Some l => Some (s :: l)
      | None => None
      end
  | _ :: _ => None
  end.

(** The cast of a member to the type [[String]] of a path. *)
Definition cast_Strings (L : library) (v : json) : option (list string) :=
  match v with
  | JsArray items =>
      match strings_of items with
      | Some l => Some l
      | None => cast_strings L v
      end
  | _ => cast_strings L v
  end.

(** Assignments of members to the paths of a document.  A document comes
    with the casts that failed in its assignments, each under its path; a
    failed cast leaves the path as it was.  [null] is kept by the casts
    and reads as a missing value. *)
Definition assigned : Type := (Blog.t * list (string * string))%type.

Definition cast_failed (L : library) (path : string) (v : json)
  (p : assigned) : assigned :=
  (fst p, (snd p ++ [(path, cast_message L path v)])%list).

Definition assign_title (L : library) (v : json) (p : assigned) : assigned :=
  match v with
  | JsNull => (set_title "" (fst p), snd p)
  | _ =>
      match cast_String L v with
      | Some s => (set_title s (fst p), snd p)
      | None => cast_failed L "title" v p
      end
  end.

Definition clear_description (b : Blog.t) : Blog.t :=
  Blog.mk (Blog._id b) (Blog.title b) None (Blog.author b)
          (Blog.state b) (Blog.read_count b) (Blog.reading_time b)
          (Blog.tags b) (Blog.body b) (Blog.timestamp b) (Blog.updatedAt b).

Definition assign_description (L : library) (v : json) (p : assigned)
  : assigned :=
  match v with
  | JsNull => (clear_description (fst p), snd p)
  | _ =>
      match cast_String L v with
      | Some s => (set_description s (fst p), snd p)
      | None => cast_failed L "description" v p
      end
  end.

Definition assign_tags (L : library) (v : json) (p : assigned) : assigned :=
  match v with
  | JsNull => (set_tags [] (fst p), snd p)
  | _ =>
      match cast_Strings L v with
      | Some l => (set_tags l (fst p), snd p)
      | None => cast_failed L "tags" v p
      end
  end.

Definition assign_body (L : library) (v : json) (p : assigned) : assigned :=
  match v with
  | JsNull => (set_body "" (fst p), snd p)
  | _ =>
      match cast_String L v with
      | Some s => (set_body s (fst p), snd p)
      | None => cast_failed L "body" v p
      end
  end.

(** An assignment of a member that may be absent: [undefined] leaves the
    path alone. *)
Definition when_given (assign : json -> assigned -> assigned)
  (v : option json) (p : assigned) : assigned :=
  match v with
  | Some w => assign w p
  | None => p
  end.

(** [new Blog({ title, description, tags, body, author, reading_time,
    state })] on members as they come: the identifier is generated,
    [read_count] takes its default 0, both dates default to [Date.now],
    and the members are assigned in this order. *)
Definition new_Blog_from (L : library) (fresh : ObjectId) (now : Z)
  (title description tags body : option json) (author : ObjectId)
  (reading_time : Z) (state : Blog.State) : assigned :=
  when_given (assign_body L) body
    (when_given (assign_tags L) tags
       (when_given (assign_description L) description
          (when_given (assign_title L) title
             (Blog.mk fresh "" None author state 0 reading_time [] "" now now,
              [])))).

(* ================================================================= *)
(** ** controllers/blogController.js

    A controller takes the request and the collection and returns the
    collection after the request together with the response.  An error
    thrown inside [try] is passed to [next] and answered by
    [errorHandler].  [populate], which only decorates the author of the
    returned document, and the logger are left out. *)

(** [req.body] of the blog routes. *)
Record blog_request : Type := mkBlogRequest {
  req_title : option json;
  req_description : option json;
  req_tags : option json;
  req_body : option json;
  req_state : option json
}.

(** [req.query] of the public listing. *)
Record list_query : Type := mkListQuery {
  query_page : option string;
  query_limit : option string;
  query_search : option string;
  query_orderBy : option string;
  query_order : option string
}.

Definition createBlog (L : library) (fresh : ObjectId) (now : Z)
  (user : User.t) (req : blog_request) (db : list Blog.t)
  : list Blog.t * response :=
  let title := req_title req in
  let description := req_description req in
  let tags := req_tags req in
  let body := req_body req in
  if negb (truthy (jsv title)) || negb (truthy (jsv body)) then
    (db, failure 400 "Title and body are required")
  else
    let reading_time := calculateReadingTime (jsv body) in
    let blog :=
      new_Blog_from L fresh now title description
                    (if truthy (jsv tags) then tags else Some (JsArray []))
                    body (User._id user) reading_time Blog.draft in
    match save_new_with (snd blog) now (fst blog) db with
    | Throw error => (db, errorHandler error)
    | Ok (db', blog) =>
        (db', mkResponse 201 true (Some "Blog created successfully") (BlogData blog))
    end.

Definition getAllPublishedBlogs (S : server) (ties : Blog.t -> Z)
  (query : list_query) (db : list Blog.t) : response :=
  let page := parseInt_or (query_page query) 1 in
  let limit := parseInt_or (query_limit query) 20 in
  let search := str_or (query_search query) "" in
  let orderBy := str_or (query_orderBy query) "timestamp" in
  let order :=
    match query_order query with
    | Some o => if (o =? "asc")%string then 1 else -1
    | None => -1
    end in
  let skip := js_mul (js_sub page (Num 1)) limit in
  let query :=
    mkQuery (Some Blog.published)
            (if truthy (JStr search) then Some search else None) in
  let sort := (orderBy, order) in
  match Blog_find S ties query sort skip limit db with
  | Throw error => errorHandler error
  | Ok blogs =>
      match Blog_countDocuments S query db with
      | Throw error => errorHandler error
      | Ok totalBlogs =>
          let totalPages := ceil_div totalBlogs limit in
          mkResponse 200 true None
            (BlogsData blogs (mkPagination page totalPages totalBlogs limit))
      end
  end.

(** [req.query] of the owner's listing. *)
Record user_blogs_query : Type := mkUserBlogsQuery {
  uq_page : option string;
  uq_limit : option string;
  uq_state : option string
}.

Definition getUserBlogs (S : server) (ties : Blog.t -> Z) (user : User.t)
  (query : user_blogs_query) (db : list Blog.t) : response :=
  let page := parseInt_or (uq_page query) 1 in
  let limit := parseInt_or (uq_limit query) 20 in
  let state := uq_state query in
  let skip := js_mul (js_sub page (Num 1)) limit in
  let query :=
    mkOwnerQuery (User._id user)
      (if truthy (js state)
          && existsb (String.eqb (the state)) ["draft"; "published"]
       then Some (if (the state =? "draft")%string
                  then Blog.draft else Blog.published)
       else None) in
  match Blog_find_owner S ties query ("timestamp", -1) skip limit db with
  | Throw error => errorHandler error
  | Ok blogs =>
      match Blog_countDocuments_owner query db with
      | Throw error => errorHandler error
      | Ok totalBlogs =>
          let totalPages := ceil_div totalBlogs limit in
          mkResponse 200 true None
            (BlogsData blogs (mkPagination page totalPages totalBlogs limit))
      end
  end.

Section ById.

(** The cast of a route parameter to an identifier, [None] when the
    mapper refuses the string. *)
Variable castObjectId : string -> option ObjectId.

Definition getBlogById (now : Z) (id : string) (db : list Blog.t)
  : list Blog.t * response :=
  match castObjectId id with
  | None => (db, errorHandler (CastError id))
  | Some i =>
      match Blog_findOne_published i db with
      | None => (db, failure 404 "Blog not found")
      | Some blog =>
          match incrementReadCount now blog db with
          | Throw error => (db, errorHandler error)
          | Ok (db', blog) => (db', mkResponse 200 true None (BlogData blog))
          end
      end
  end.

Definition updateBlog (L : library) (now : Z) (user : User.t) (id : string)
  (req : blog_request) (db : list Blog.t) : list Blog.t * response :=
  let title := req_title req in
  let description := req_description req in
  let tags := req_tags req in
  let state := req_state req in
  let body := req_body req in
  match castObjectId id with
  | None => (db, errorHandler (CastError id))
  | Some i =>
      match Blog_findById i db with
      | None => (db, failure 404 "Blog not found")
      | Some original =>
          if negb (Blog.author original =? User._id user)%string then
            (db, failure 403 "You are not authorized to update this blog")
          else
            let blog : assigned := (original, []) in
            let blog :=
              if truthy (jsv title)
              then when_given (assign_title L) title blog else blog in
            let blog := when_given (assign_description L) description blog in
            let blog :=
              if truthy (jsv tags)
              then when_given (assign_tags L) tags blog else blog in
            let blog :=
              if truthy (jsv body)
              then
                let blog := when_given (assign_body L) body blog in
                (set_reading_time (calculateReadingTime (jsv body)) (fst blog),
                 snd blog)
              else blog in
            let blog :=
              match state with
              | Some (JsString s) =>
                  if truthy (JStr s)
                     && existsb (String.eqb s) ["draft"; "published"]
                  then (set_state (if (s =? "draft")%string
                                   then Blog.draft else Blog.published)
                                  (fst blog), snd blog)
                  else blog
              | _ => blog
              end in
            match save_existing_with (snd blog) now original (fst blog) db with
            | Throw error => (db, errorHandler error)
            | Ok (db', blog) =>
                (db', mkResponse 200 true (Some "Blog updated successfully")
                                 (BlogData blog))
            end
      end
  end.

Definition deleteBlog (user : User.t) (id : string) (db : list Blog.t)
  : list Blog.t * response :=
  match castObjectId id with
  | None => (db, errorHandler (CastError id))
  | Some i =>
      match Blog_findById i db with
      | None => (db, failure 404 "Blog not found")
      | Some blog =>
          if negb (Blog.author blog =? User._id user)%string then
            (db, failure 403 "You are not authorized to delete this blog")
          else
            let db' := Blog_findByIdAndDelete i db in
            (db', mkResponse 200 true (Some "Blog deleted successfully") NoData)
      end
  end.

End ById.

(** The textual form of an identifier: 24 hexadecimal digits, kept in
    lower case. *)
Definition is_hex (c : ascii) : bool :=
  match digit_value c with
  | Some d => d <? 16
  | None => false
  end.

Definition castObjectId_hex (s : string) : option ObjectId :=
  if (String.length s =? 24)%nat && forallb is_hex (chars s)
  then Some (toLowerCase s) else None.

(** *** Requests whose members have their documented types

    A body with strings for [title], [description], [body] and [state] and
    an array of strings for [tags], each of them possibly absent.  On such
    a body no cast can fail, and [createBlog] and [updateBlog] compute
    [createBlog_typed] and [updateBlog_typed]. *)
Record blog_body : Type := mkBody {
  body_title : option string;
  body_description : option string;
  body_tags : option (list string);
  body_body : option string;
  body_state : option string
}.

Definition blog_req (body : blog_body) : blog_request :=
  mkBlogRequest
    (option_map JsString (body_title body))
    (option_map JsString (body_description body))
    (option_map (fun t => JsArray (map JsString t)) (body_tags body))
    (option_map JsString (body_body body))
    (option_map JsString (body_state body)).

Definition createBlog_typed (fresh : ObjectId) (now : Z) (user : User.t)
  (body : blog_body) (db : list Blog.t) : list Blog.t * response :=
  let title := body_title body in
  let description := body_description body in
  let tags := body_tags body in
  let body := body_body body in
  if negb (truthy (js title)) || negb (truthy (js body)) then
    (db, failure 400 "Title and body are required")
  else
    let reading_time := calculateReadingTime (js body) in
    let blog :=
      new_Blog fresh now title description
               (match tags with Some t => t | None => [] end)
               body (User._id user) reading_time Blog.draft in
    match save_new now blog db with
    | Throw error => (db, errorHandler error)
    | Ok (db', blog) =>
        (db', mkResponse 201 true (Some "Blog created successfully") (BlogData blog))
    end.

Definition updateBlog_typed (castObjectId : string -> option ObjectId)
  (now : Z) (user : User.t) (id : string)
  (body : blog_body) (db : list Blog.t) : list Blog.t * response :=
  let title := body_title body in
  let description := body_description body in
  let tags := body_tags body in
  let state := body_state body in
  let body := body_body body in
  match castObjectId id with
  | None => (db, errorHandler (CastError id))
  | Some i =>
      match Blog_findById i db with
      | None => (db, failure 404 "Blog not found")
      | Some original =>
          if negb (Blog.author original =? User._id user)%string then
            (db, failure 403 "You are not authorized to update this blog")
          else
            let blog := original in
            let blog := if truthy (js title) then set_title (the title) blog else blog in
            let blog :=
              match description with
              | Some d => set_description d blog
              | None => blog
              end in
            let blog :=
              match tags with
              | Some t => set_tags t blog
              | None => blog
              end in
            let blog :=
              if truthy (js body)
              then set_reading_time (calculateReadingTime (js body))
                     (set_body (the body) blog)
              else blog in
            let blog :=
              if truthy (js state)
                 && existsb (String.eqb (the state)) ["draft"; "published"]
              then set_state (if (the state =? "draft")%string
                              then Blog.draft else Blog.published) blog
              else blog in
            match save_existing now original blog db with
            | Throw error => (db, errorHandler error)
            | Ok (db', blog) =>
                (db', mkResponse 200 true (Some "Blog updated successfully")
                                 (BlogData blog))
            end
      end
  end.

(* ================================================================= *)
(** ** The token library and the password hash

    A token carries the claims [{ userId, iat, exp }], the two dates in
    seconds.  How claims are serialised and signed, and how a password is
    hashed and compared with its hash, is left to the libraries:
    [jwt_encode], [jwt_decode], [bcrypt_hash] and [bcrypt_compare] are
    parameters.  [jwt_decode] yields the claims of a token that is well
    formed and carries a signature made with the given secret, and nothing
    otherwise.  The clock [now] is [Date.now()], in milliseconds. *)

Record claims : Type := mkClaims {
  userId : ObjectId;
  iat : Z;
  exp : Z
}.

(** The span ["1h"] in seconds. *)
Definition one_hour : Z := 60 * 60.

Definition JsonWebTokenError : js_error :=
  mkError "JsonWebTokenError" "invalid token" None None [] [].

Definition TokenExpiredError : js_error :=
  mkError "TokenExpiredError" "jwt expired" None None [] [].

(** What [toJSON] and [select("-password")] leave of a user. *)
Record user_json : Type := mkUserJson {
  json_id : ObjectId;
  json_first_name : string;
  json_last_name : string;
  json_email : string;
  json_createdAt : Z
}.

Definition toJSON (u : User.t) : user_json :=
  mkUserJson (User._id u) (User.first_name u) (User.last_name u)
             (User.email u) (User.createdAt u).

(** Responses of the authentication routes carry a user and a token.  The
    member [error] that the middleware adds to its 500 answer is left
    out. *)
Record auth_response : Type := mkAuthResponse {
  auth_status : Z;
  auth_success : bool;
  auth_message : string;
  auth_data : option (user_json * string)
}.

Definition auth_failure (code : Z) (msg : string) : auth_response :=
  mkAuthResponse code false msg None.

(** An answer of [errorHandler] on an authentication route. *)
Definition auth_error (e : js_error) : auth_response :=
  let r := errorHandler e in
  mkAuthResponse (status r) (success r) (the (message r)) None.

(** [req.body] of the login route. *)
Record login_request : Type := mkLoginRequest {
  req_email : option json;
  req_password : option json
}.

(** [req.body] of the signup route. *)
Record signup_request : Type := mkSignupRequest {
  req_signup_first_name : option json;
  req_signup_last_name : option json;
  req_signup_email : option json;
  req_signup_password : option json
}.

(** The answer of [getCurrentUser]: [{ success, data: { user } }]. *)
Record user_response : Type := mkUserResponse {
  user_status : Z;
  user_success : bool;
  user_data : user_json
}.

(** What the middleware does with a request: answer it, or attach the
    user and call [next]. *)
Inductive auth_outcome : Type :=
  | Respond (r : auth_response)
  | Next (user : user_json).

(** [User.findOne({ email })]: the mapper casts the filter as it casts
    the path, so the setters [trim] and [lowercase] of the path are
    applied to the value looked for. *)
Definition User_findOne_email (e : string) (users : list User.t) : option User.t :=
  find (fun u => (User.email u =? toLowerCase (trim_string e))%string) users.

Definition User_findById (i : ObjectId) (users : list User.t) : option User.t :=
  find (fun u => (User._id u =? i)%string) users.

(** [/^\S+@\S+\.\S+$/.test(s)], as a backtracking matcher: each piece of
    the pattern takes the rest of the pattern as its continuation.  [\S+]
    takes one character outside the white-space class and then either goes
    on (it is greedy) or hands over; [$] accepts the end of the input
    only. *)
Fixpoint match_plus (p : ascii -> bool) (k : list ascii -> bool)
  (s : list ascii) : bool :=
  match s with
  | [] => false
  | c :: s' => p c && (match_plus p k s' || k s')
  end.

Definition match_char (c : ascii) (k : list ascii -> bool) (s : list ascii)
  : bool :=
  match s with
  | [] => false
  | x :: s' => Ascii.eqb x c && k s'
  end.

Definition match_end (s : list ascii) : bool :=
  match s with
  | [] => true
  | _ :: _ => false
  end.

Definition nonWhiteSpace (c : ascii) : bool := negb (isWhiteSpace c).

Definition emailRegex_test (s : string) : bool :=
  match_plus nonWhiteSpace
    (match_char "@"
       (match_plus nonWhiteSpace
          (match_char "."
             (match_plus nonWhiteSpace match_end))))
    (chars s).

(** models/User.js.  [new User({ first_name, last_name, email, password })]
    on strings: the names are trimmed, the email is trimmed and put in
    lower case, [createdAt] defaults to [Date.now]. *)
Definition new_User (fresh : ObjectId) (now : Z)
  (first_name last_name email password : string) : User.t :=
  User.mk fresh (trim_string first_name) (trim_string last_name)
          (toLowerCase (trim_string email)) password now.

(** The same on members as they come, [email] being a string: a member
    that is not a string is cast, and the document comes with the casts
    that failed, each under its path. *)
Definition new_User_from (L : library) (fresh : ObjectId) (now : Z)
  (first_name last_name : json) (email : string) (password : json)
  : User.t * list (string * string) :=
  let cast (path : string) (v : json) : string * list (string * string) :=
    match cast_String L v with
    | Some s => (s, [])
    | None => ("", [(path, cast_message L path v)])
    end in
  let fn := cast "first_name" first_name in
  let ln := cast "last_name" last_name in
  let pw := cast "password" password in
  (new_User fresh now (fst fn) (fst ln) email (fst pw),
   (snd fn ++ snd ln ++ snd pw)%list).

(** The validators of the user schema, with their messages. *)
Definition validate_user (doc : User.t) : list string :=
  ((if (User.first_name doc =? "")%string then ["First name is required"] else []) ++
   (if (User.last_name doc =? "")%string then ["Last name is required"] else []) ++
   (if (User.email doc =? "")%string then ["Email is required"]
    else if emailRegex_test (User.email doc) then []
         else ["Please provide a valid email"]) ++
   (if (User.password doc =? "")%string then ["Password is required"]
    else if (String.length (User.password doc) <? 6)%nat
         then ["Password must be at least 6 characters long"] else []))%list.

(** What validation reports at [save]: the casts that failed, then the
    validators of the paths whose cast did not fail. *)
Definition user_failures (casts : list (string * string)) (doc : User.t)
  : list string :=
  (map snd casts ++
   ((if failed "first_name" casts then []
     else if (User.first_name doc =? "")%string
          then ["First name is required"] else []) ++
    (if failed "last_name" casts then []
     else if (User.last_name doc =? "")%string
          then ["Last name is required"] else []) ++
    (if (User.email doc =? "")%string then ["Email is required"]
     else if emailRegex_test (User.email doc) then []
          else ["Please provide a valid email"]) ++
    (if failed "password" casts then []
     else if (User.password doc =? "")%string then ["Password is required"]
          else if (String.length (User.password doc) <? 6)%nat
               then ["Password must be at least 6 characters long"] else [])))%list.

Definition UserValidationError (messages : list string) : js_error :=
  mkError "ValidationError"
          ("User validation failed: " ++ String.concat ", " messages)
          None None messages [].

(** The present value of a member that has passed a truthiness test. *)
Definition value (v : option json) : json :=
  match v with
  | Some w => w
  | None => JsNull
  end.

Section Auth.

Variable L : library.
Variable bcrypt_hash : string -> string -> string.
Variable bcrypt_compare : string -> string -> bool.
Variable jwt_encode : claims -> string -> string.
Variable jwt_decode : string -> string -> option claims.
Variable JWT_SECRET : string.

(** [jwt.sign(payload, secret, { expiresIn })]. *)
Definition jwt_sign (user : ObjectId) (secret : string) (expiresIn : Z)
  (now : Z) : string :=
  let timestamp := now / 1000 in
  jwt_encode (mkClaims user timestamp (timestamp + expiresIn)) secret.

(** [jwt.verify(token, secret)]. *)
Definition jwt_verify (token secret : string) (now : Z) : result claims :=
  match jwt_decode token secret with
  | None => Throw JsonWebTokenError
  | Some payload =>
      let clockTimestamp := now / 1000 in
      if exp payload <=? clockTimestamp then Throw TokenExpiredError
      else Ok payload
  end.

(** controllers/authController.js *)
Definition generateToken (user : ObjectId) (now : Z) : string :=
  jwt_sign user JWT_SECRET one_hour now.

(** [userSchema.methods.comparePassword]: [bcrypt.compare] rejects a
    candidate that is not a string. *)
Definition comparePassword (this : User.t) (candidatePassword : option json)
  : result bool :=
  match candidatePassword with
  | Some (JsString s) => Ok (bcrypt_compare s (User.password this))
  | _ => Throw (IllegalArguments (typeof (jsv candidatePassword)) "string")
  end.

(** [user.save()] for a new user, [casts] being the casts that failed in
    its making: validation of the document as it was built, the pre-save
    hook that replaces the password by its hash under a fresh salt, then
    the insertion, which the unique indexes on [_id] and [email] may
    refuse. *)
Definition save_new_user_with (casts : list (string * string))
  (salt : string) (doc : User.t) (users : list User.t)
  : result (list User.t * User.t) :=
  match user_failures casts doc with
  | (_ :: _) as messages => Throw (UserValidationError messages)
  | [] =>
      let doc :=
        User.mk (User._id doc) (User.first_name doc) (User.last_name doc)
                (User.email doc) (bcrypt_hash (User.password doc) salt)
                (User.createdAt doc) in
      if existsb (fun u => (User._id u =? User._id doc)%string) users
      then Throw (DuplicateKeyError "_id")
      else if existsb (fun u => (User.email u =? User.email doc)%string) users
      then Throw (DuplicateKeyError "email")
      else Ok ((users ++ [doc])%list, doc)
  end.

Definition save_new_user (salt : string) (doc : User.t) (users : list User.t)
  : result (list User.t * User.t) :=
  save_new_user_with [] salt doc users.

Definition signup (fresh : ObjectId) (salt : string) (now : Z)
  (req : signup_request) (users : list User.t) : list User.t * auth_response :=
  let first_name := req_signup_first_name req in
  let last_name := req_signup_last_name req in
  let email := req_signup_email req in
  let password := req_signup_password req in
  if negb (truthy (jsv first_name)) || negb (truthy (jsv last_name))
     || negb (truthy (jsv email)) || negb (truthy (jsv password)) then
    (users, auth_failure 400 "All fields are required")
  else
    match ToString L (value email) with
    | Throw error => (users, auth_error error)
    | Ok text =>
        if negb (emailRegex_test text) then
          (users, auth_failure 400 "Please provide a valid email")
        else if length_below L (value password) 6 then
          (users, auth_failure 400 "Password must be at least 6 characters")
        else
          match email with
          | Some (JsString e) =>
              match User_findOne_email (toLowerCase e) users with
              | Some existingUser =>
                  (users, auth_failure 400 "Email already registered")
              | None =>
                  let user :=
                    new_User_from L fresh now (value first_name)
                                  (value last_name) (toLowerCase e)
                                  (value password) in
                  match save_new_user_with (snd user) salt (fst user) users with
                  | Throw error => (users, auth_error error)
                  | Ok (users', user) =>
                      let token := generateToken (User._id user) now in
                      (users',
                       mkAuthResponse 201 true "User registered successfully"
                                      (Some (toJSON user, token)))
                  end
              end
          | _ =>
              (users,
               auth_error (TypeError "email.toLowerCase is not a function"))
          end
    end.

Definition login (now : Z) (req : login_request) (users : list User.t)
  : auth_response :=
  let email := req_email req in
  let password := req_password req in
  if negb (truthy (jsv email)) || negb (truthy (jsv password)) then
    auth_failure 400 "Email and password are required"
  else
    match email with
    | Some (JsString e) =>
        match User_findOne_email (toLowerCase e) users with
        | None => auth_failure 401 "Invalid email or password"
        | Some user =>
            match comparePassword user password with
            | Throw error => auth_error error
            | Ok isMatch =>
                if negb isMatch then auth_failure 401 "Invalid email or password"
                else
                  let token := generateToken (User._id user) now in
                  mkAuthResponse 200 true "Login successful"
                                 (Some (toJSON user, token))
            end
        end
    | _ => auth_error (TypeError "email.toLowerCase is not a function")
    end.

(** [getCurrentUser]: the user attached by [authenticate] is returned. *)
Definition getCurrentUser (req_user : user_json) : user_response :=
  mkUserResponse 200 true req_user.

(** middleware/auth.js *)
Definition authenticate (now : Z) (authorization : option string)
  (users : list User.t) : auth_outcome :=
  let authHeader := authorization in
  if negb (truthy (js authHeader)) then
    Respond (auth_failure 401 "Access denied. No token provided.")
  else
    let token := nth_error (split_on " " (the authHeader)) 1 in
    if negb (truthy (js token)) then
      Respond (auth_failure 401 "Access denied. Invalid token format.")
    else
      match jwt_verify (the token) JWT_SECRET now with
      | Throw error =>
          if (err_name error =? "TokenExpiredError")%string then
            Respond (auth_failure 401 "Token expired. Please login again.")
          else if (err_name error =? "JsonWebTokenError")%string then
            Respond (auth_failure 401 "Invalid token.")
          else Respond (auth_failure 500 "Authentication failed.")
      | Ok decoded =>
          match User_findById (userId decoded) users with
          | None => Respond (auth_failure 401 "User not found. Token invalid.")
          | Some user => Next (toJSON user)
          end
      end.

(** [optionalAuth]: [req.user] is the user or [null], and the request
    always goes on. *)
Definition optionalAuth (now : Z) (authorization : option string)
  (users : list User.t) : option user_json :=
  let authHeader := authorization in
  if negb (truthy (js authHeader)) then None
  else
    let token := nth_error (split_on " " (the authHeader)) 1 in
    if negb (truthy (js token)) then None
    else
      match jwt_verify (the token) JWT_SECRET now with
      | Throw error => None
      | Ok decoded =>
          match User_findById (userId decoded) users with
          | Some user => Some (toJSON user)
          | None => None
          end
      end.

(** *** Requests whose members have their documented types

    On a body whose members are strings, each possibly absent, no cast is
    involved and no operation meets a value of another type: [login] and
    [signup] compute [login_typed] and [signup_typed]. *)
Record login_body : Type := mkLogin {
  login_email : option string;
  login_password : option string
}.

Definition login_req (body : login_body) : login_request :=
  mkLoginRequest (option_map JsString (login_email body))
                 (option_map JsString (login_password body)).

Record signup_body : Type := mkSignup {
  signup_first_name : option string;
  signup_last_name : option string;
  signup_email : option string;
  signup_password : option string
}.

Definition signup_req (body : signup_body) : signup_request :=
  mkSignupRequest (option_map JsString (signup_first_name body))
                  (option_map JsString (signup_last_name body))
                  (option_map JsString (signup_email body))
                  (option_map JsString (signup_password body)).

Definition login_typed (now : Z) (body : login_body) (users : list User.t)
  : auth_response :=
  let email := login_email body in
  let password := login_password body in
  if negb (truthy (js email)) || negb (truthy (js password)) then
    auth_failure 400 "Email and password are required"
  else
    match User_findOne_email (toLowerCase (the email)) users with
    | None => auth_failure 401 "Invalid email or password"
    | Some user =>
        let isMatch := bcrypt_compare (the password) (User.password user) in
        if negb isMatch then auth_failure 401 "Invalid email or password"
        else
          let token := generateToken (User._id user) now in
          mkAuthResponse 200 true "Login successful"
                         (Some (toJSON user, token))
    end.

Definition signup_typed (fresh : ObjectId) (salt : string) (now : Z)
  (body : signup_body) (users : list User.t) : list User.t * auth_response :=
  let first_name := signup_first_name body in
  let last_name := signup_last_name body in
  let email := signup_email body in
  let password := signup_password body in
  if negb (truthy (js first_name)) || negb (truthy (js last_name))
     || negb (truthy (js email)) || negb (truthy (js password)) then
    (users, auth_failure 400 "All fields are required")
  else if negb (emailRegex_test (the email)) then
    (users, auth_failure 400 "Please provide a valid email")
  else if (String.length (the password) <? 6)%nat then
    (users, auth_failure 400 "Password must be at least 6 characters")
  else
    match User_findOne_email (toLowerCase (the email)) users with
    | Some existingUser => (users, auth_failure 400 "Email already registered")
    | None =>
        let user :=
          new_User fresh now (the first_name) (the last_name)
                   (toLowerCase (the email)) (the password) in
        match save_new_user salt user users with
        | Throw error => (users, auth_error error)
        | Ok (users', user) =>
            let token := generateToken (User._id user) now in
            (users',
             mkAuthResponse 201 true "User registered successfully"
                            (Some (toJSON user, token)))
        end
    end.

End Auth.

(** A token is accepted by [authenticate] when the request is handed on. *)
Definition accepted (o : auth_outcome) : bool :=
  match o with
  | Next _ => true
  | Respond _ => false
  end.

Definition minutes (n : Z) : Z := n * 60 * 1000.

(** Successive fetches of the same blog, one at each time of [nows]. *)
Fixpoint fetch_each (castObjectId : string -> option ObjectId)
  (nows : list Z) (id : string) (db : list Blog.t)
  : list Blog.t * list response :=
  match nows with
  | [] => (db, [])
  | now :: nows' =>
      let '(db1, r) := getBlogById castObjectId now id db in
      let '(db2, rs) := fetch_each castObjectId nows' id db1 in
      (db2, r :: rs)
  end.

(* ================================================================= *)
(** ** Notions of the specification *)

(** [needle] occurs in [hay] as a substring, letter case aside. *)
Definition ci_substring (S : server) (needle hay : string) : Prop :=
  exists pre post : list ascii,
    map (fold_case S) (chars hay)
    = (pre ++ map (fold_case S) (chars needle) ++ post)%list.

(** The title or one of the tags of [b] contains [search]. *)
Definition mentions (S : server) (search : string) (b : Blog.t) : Prop :=
  ci_substring S search (Blog.title b)
  \/ exists t, In t (Blog.tags b) /\ ci_substring S search t.

(** A search string without characters that the pattern language treats
    specially. *)
Definition plain (search : string) : bool := forallb is_plain (chars search).

(** The users of a collection have distinct emails, each in lower case. *)
Definition emails_ok (users : list User.t) : Prop :=
  NoDup (map User.email users)
  /\ Forall (fun u => toLowerCase (User.email u) = User.email u) users.

(** The document that an accepted update writes, before the pre-save hook,
    given member by member. *)
Definition updated_blog (body : blog_body) (original : Blog.t) : Blog.t :=
  Blog.mk
    (Blog._id original)
    (match body_title body with
     | Some t => if (t =? "")%string then Blog.title original else trim_string t
     | None => Blog.title original
     end)
    (match body_description body with
     | Some d => Some (trim_string d)
     | None => Blog.description original
     end)
    (Blog.author original)
    (match body_state body with
     | Some s => if (s =? "draft")%string then Blog.draft
                 else if (s =? "published")%string then Blog.published
                 else Blog.state original
     | None => Blog.state original
     end)
    (Blog.read_count original)
    (match body_body body with
     | Some b => if (b =? "")%string then Blog.reading_time original
                 else calculateReadingTime (JStr b)
     | None => Blog.reading_time original
     end)
    (match body_tags body with
     | Some t => t
     | None => Blog.tags original
     end)
    (match body_body body with
     | Some b => if (b =? "")%string then Blog.body original else b
     | None => Blog.body original
     end)
    (Blog.timestamp original)
    (Blog.updatedAt original).

(** The document that a successful create stores. *)
Definition created_blog (fresh : ObjectId) (now : Z) (user : User.t)
  (body : blog_body) : Blog.t :=
  Blog.mk fresh (trim_string (the (body_title body)))
          (match body_description body with
           | Some d => Some (trim_string d)
           | None => None
           end)
          (User._id user) Blog.draft 0
          (calculateReadingTime (js (body_body body)))
          (match body_tags body with Some t => t | None => [] end)
          (the (body_body body)) now now.

(** Every blog holds the reading time of its body. *)
Definition reading_times_ok (db : list Blog.t) : Prop :=
  Forall (fun b => Blog.reading_time b = calculateReadingTime (JStr (Blog.body b))) db.

(** Identifiers and titles are unique in the collection. *)
Definition keys_ok (db : list Blog.t) : Prop :=
  NoDup (map Blog._id db) /\ NoDup (map Blog.title db).

(** What the assignment of a member of a request leaves alone in a
    document. *)
Definition kept (a b : Blog.t) : Prop :=
  Blog._id b = Blog._id a /\ Blog.author b = Blog.author a
  /\ Blog.state b = Blog.state a /\ Blog.read_count b = Blog.read_count a
  /\ Blog.reading_time b = Blog.reading_time a
  /\ Blog.timestamp b = Blog.timestamp a
  /\ Blog.updatedAt b = Blog.updatedAt a.

(** The blogs carried by the answer of a listing. *)
Definition blogs_of (r : response) : list Blog.t :=
  match data r with
  | BlogsData blogs _ => blogs
  | _ => []
  end.

(** Every blog has a title and a body. *)
Definition documents_ok (db : list Blog.t) : Prop :=
  Forall (fun b => validate b = []) db.

(* ================================================================= *)
(** ** Sample data *)

Definition alice : User.t :=
  User.mk "650000000000000000000001" "Alice" "Ames" "alice@test.com"
          "hash-of-alice-password" 0.

Definition bob : User.t :=
  User.mk "650000000000000000000002" "Bob" "Byrd" "bob@test.com"
          "hash-of-bob-password" 0.

(** A blog of [alice] with the given identifier, title and state. *)
Definition sample_blog (i : ObjectId) (title : string) (state : Blog.State)
  : Blog.t :=
  Blog.mk i title (Some "about") (User._id alice) state 0 1 ["news"]
          "some words" 1000 1000.

(** The identifier whose last two digits are those of [n], below 100. *)
Definition sample_id (n : nat) : ObjectId :=
  "6600000000000000000000"
  ++ String (ascii_of_nat (48 + n / 10)) (String (ascii_of_nat (48 + n mod 10)) "").

(** Published blogs numbered from [n] down to 1. *)
Fixpoint sample_blogs (n : nat) : list Blog.t :=
  match n with
  | O => []
  | S n' =>
      sample_blog (sample_id n) ("Post " ++ sample_id n) Blog.published
      :: sample_blogs n'
  end.

(** A published blog numbered [n] that has been read [reads] times. *)
Definition sample_read (n : nat) (reads : Z) : Blog.t :=
  set_read_count reads
    (sample_blog (sample_id n) ("Post " ++ sample_id n) Blog.published).

(** A server whose engine knows no pattern beyond the two kinds of atoms,
    folds the case of the letters of Latin-1, keeps the insertion order
    among equal keys and refuses what is beyond its integers. *)
Definition sample_server : server :=
  mkServer (fun _ => None) lower_char
           (fun _ _ => Throw (ServerError "Value out of range")).

Definition insertion_order (b : Blog.t) : Z := 0.

(** A library that renders and casts nothing but strings. *)
Definition sample_library : library :=
  mkLibrary (fun _ => "0") (fun _ _ => false) (fun _ => None) (fun _ => None)
            (fun path _ => "Cast failed at path " ++ path).

(** A library that, besides, casts the number 12345 to a string as the
    object mapper does. *)
Definition number_library : library :=
  mkLibrary (fun _ => "12345") (fun _ _ => false)
            (fun v => match v with
                      | JsNumber q =>
                          if Qeq_bool q (inject_Z 12345) then Some "12345"
                          else None
                      | _ => None
                      end)
            (fun _ => None)
            (fun path _ => "Cast failed at path " ++ path).

(** A stand-in for the token library that knows the tokens issued at time
    5000 only: the token of a user is the secret followed by the user. *)
Definition sample_jwt_encode (c : claims) (secret : string) : string :=
  secret ++ "." ++ userId c.

Definition sample_jwt_decode (token secret : string) : option claims :=
  match index 0 "." token with
  | Some n =>
      if (substring 0 n token =? secret)%string
      then Some (mkClaims (substring (S n) (String.length token) token)
                          5 (5 + one_hour))
      else None
  | None => None
  end.

(* ================================================================= *)
(** * Properties *)

(** ** The reading-time estimator *)

Lemma trimEnd_nil_head (s : list ascii) :
  trimEnd s = [] -> startsWord s = false.
Proof.
  destruct s as [|c s']; simpl; [reflexivity|].
  destruct (trimEnd s'); destruct (isWhiteSpace c); simpl; congruence.
Qed.

Lemma trimEnd_head (s : list ascii) :
  trimEnd s <> [] -> startsWord (trimEnd s) = startsWord s.
Proof.
  destruct s as [|c s']; simpl; [reflexivity|].
  destruct (trimEnd s'); destruct (isWhiteSpace c) eqn:E; simpl; rewrite ?E;
    intros H; try reflexivity; now elim H.
Qed.

Lemma trimEnd_fixed_tail (c : ascii) (s : list ascii) :
  trimEnd (c :: s) = c :: s -> trimEnd s = s.
Proof.
  simpl. destruct (trimEnd s) eqn:E.
  - destruct (isWhiteSpace c); intros H; inversion H; reflexivity.
  - intros H; inversion H; reflexivity.
Qed.

Lemma trimEnd_idempotent (s : list ascii) : trimEnd (trimEnd s) = trimEnd s.
Proof.
  induction s as [|c s' IH]; simpl; [reflexivity|].
  destruct (trimEnd s') as [|d t] eqn:E.
  - destruct (isWhiteSpace c) eqn:W; simpl; [reflexivity|]. now rewrite W.
  - simpl in *. rewrite IH. reflexivity.
Qed.

Lemma words_trimStart (s : list ascii) : words (trimStart s) = words s.
Proof.
  induction s as [|c s' IH]; simpl; [reflexivity|].
  destruct (isWhiteSpace c) eqn:W; [exact IH|]. simpl. now rewrite W.
Qed.

Lemma words_trimEnd (s : list ascii) : words (trimEnd s) = words s.
Proof.
  induction s as [|c s' IH]; [reflexivity|].
  cbn [trimEnd]. destruct (trimEnd s') as [|d t] eqn:E.
  - pose proof (trimEnd_nil_head s' E) as Hh.
    cbn [words] in *. rewrite Hh, <- IH.
    destruct (isWhiteSpace c) eqn:W; simpl; rewrite ?W; reflexivity.
  - assert (Hne : trimEnd s' <> []) by (rewrite E; discriminate).
    pose proof (trimEnd_head s' Hne) as Hh.
    rewrite <- E in IH. rewrite <- E. cbn [words]. rewrite IH, Hh. reflexivity.
Qed.

Lemma words_trim (s : list ascii) : words (trim s) = words s.
Proof. unfold trim. now rewrite words_trimEnd, words_trimStart. Qed.

Lemma trimStart_head (s : list ascii) :
  trimStart s = [] \/ startsWord (trimStart s) = true.
Proof.
  induction s as [|c s' IH]; simpl; [now left|].
  destruct (isWhiteSpace c) eqn:W; [exact IH|]. right. simpl. now rewrite W.
Qed.

Lemma trim_head (s : list ascii) : trim s = [] \/ startsWord (trim s) = true.
Proof.
  unfold trim. destruct (trimEnd (trimStart s)) eqn:E; [now left|]. right.
  rewrite <- E. rewrite trimEnd_head by (rewrite E; discriminate).
  destruct (trimStart_head s) as [H|H]; [|exact H].
  rewrite H in E. discriminate.
Qed.

Lemma words_nonempty (s : list ascii) :
  trimEnd s = s -> s <> [] -> (1 <= List.length (words s))%nat.
Proof.
  induction s as [|c s' IH]; intros Hfix Hne; [congruence|].
  pose proof (trimEnd_fixed_tail _ _ Hfix) as Htail.
  cbn [words]. destruct (isWhiteSpace c) eqn:W.
  - apply IH; [exact Htail|]. intros ->. simpl in Hfix. rewrite W in Hfix. discriminate.
  - destruct (startsWord s'); [destruct (words s')|]; simpl; lia.
Qed.

Lemma split_ws_from_length (rest : list ascii) :
  trimEnd rest = rest ->
  forall cur,
    List.length (split_ws_from cur true rest) = Nat.max 1 (List.length (words rest))
    /\ List.length (split_ws_from cur false rest) =
       (if startsWord rest || match rest with [] => true | _ => false end
        then Nat.max 1 (List.length (words rest))
        else S (List.length (words rest))).
Proof.
  induction rest as [|c rest' IH]; intros Hfix cur; [split; reflexivity|].
  pose proof (trimEnd_fixed_tail _ _ Hfix) as Htail.
  specialize (IH Htail).
  cbn [split_ws_from words startsWord]. destruct (isWhiteSpace c) eqn:W.
  - assert (Hne : rest' <> []).
    { intros ->. simpl in Hfix. rewrite W in Hfix. discriminate. }
    pose proof (words_nonempty rest' Htail Hne) as Hw.
    split.
    + apply IH.
    + simpl. destruct (IH []) as [-> _]. lia.
  - simpl negb. cbn [orb].
    destruct (IH (c :: cur)) as [_ ->].
    assert (Hgoal : (if startsWord rest' || match rest' with [] => true | _ :: _ => false end
       then Nat.max 1 (List.length (words rest')) else S (List.length (words rest')))
       = Nat.max 1 (List.length (if startsWord rest' then match words rest' with
            | [] => [[c]] | w :: ws => (c :: w) :: ws end else [c] :: words rest'))).
    { destruct rest' as [|d r]; [reflexivity|].
      cbn [startsWord orb]. destruct (negb (isWhiteSpace d)) eqn:D.
      - cbn [orb]. destruct (words (d :: r)); simpl; lia.
      - cbn [orb]. simpl List.length. lia. }
    split; exact Hgoal.
Qed.

Lemma split_trim_length (s : list ascii) :
  List.length (split_ws (trim s)) = Nat.max 1 (List.length (words s)).
Proof.
  unfold split_ws.
  assert (Hfix : trimEnd (trim s) = trim s) by apply trimEnd_idempotent.
  destruct (split_ws_from_length (trim s) Hfix []) as [_ ->].
  rewrite words_trim.
  destruct (trim_head s) as [-> | ->]; reflexivity.
Qed.

Lemma Math_ceil_div (a b : Z) :
  0 < b -> Math_ceil (js_div a b) = (a + b - 1) / b.
Proof.
  intros Hb. unfold Math_ceil, js_div, Qceiling.
  destruct b as [|p|p]; try lia.
  unfold Qdiv, Qinv, Qmult, Qopp, Qfloor, inject_Z. simpl Qnum. simpl Qden.
  rewrite ?Z.mul_1_r, ?Pos.mul_1_l.
  pose proof (Z.div_mod (- a) (Z.pos p) ltac:(lia)) as H1.
  pose proof (Z.mod_pos_bound (- a) (Z.pos p) ltac:(lia)) as H2.
  pose proof (Z.div_mod (a + Z.pos p - 1) (Z.pos p) ltac:(lia)) as H3.
  pose proof (Z.mod_pos_bound (a + Z.pos p - 1) (Z.pos p) ltac:(lia)) as H4.
  nia.
Qed.

(** C1.  For every input [text], [calculateReadingTime text] is 0 when
    [text] is not a string or is the empty string, and otherwise is
    [max 1 (ceil (wordCount text / 200))], the words of a text being its
    maximal runs of non-white-space characters.  In particular one word
    gives 1 minute, 200 words give 1, 201 words give 2 and 400 words
    give 2. *)
Theorem calculateReadingTime_spec :
  (forall text : jsval,
      calculateReadingTime text =
      match text with
      | JStr s => if (s =? "")%string then 0 else spec_reading_time s
      | _ => 0
      end)
  /\ calculateReadingTime (JStr "word") = 1
  /\ (wordCount (join_copies 200 "word") = 200
      /\ calculateReadingTime (JStr (join_copies 200 "word")) = 1)
  /\ (wordCount (join_copies 201 "word") = 201
      /\ calculateReadingTime (JStr (join_copies 201 "word")) = 2)
  /\ (wordCount (join_copies 400 "word") = 400
      /\ calculateReadingTime (JStr (join_copies 400 "word")) = 2).
Proof.
  split.
  - intros [ | | b | n | | s | ]; try reflexivity.
    { unfold calculateReadingTime. cbn [truthy typeof]. now destruct b. }
    { unfold calculateReadingTime. cbn [truthy typeof]. now destruct (n =? 0). }
    unfold calculateReadingTime. cbn [truthy typeof].
    destruct (s =? "")%string eqn:E; [reflexivity|].
    simpl negb. cbn [orb]. cbv zeta.
    rewrite split_trim_length.
    unfold wordsPerMinute. rewrite Math_ceil_div by lia.
    unfold spec_reading_time, wordCount, num_or.
    set (n := List.length (words (chars s))).
    rewrite Nat2Z.inj_max. change (Z.of_nat 1) with 1.
    destruct (Z.max_spec 1 (Z.of_nat n)) as [[H ->] | [H ->]].
    + assert (H1 : 1 <= (Z.of_nat n + 200 - 1) / 200)
        by (apply Z.div_le_lower_bound; lia).
      replace (Z.of_nat n + 200 - 1) with (Z.of_nat n + 199) in * by lia.
      destruct ((Z.of_nat n + 199) / 200 =? 0) eqn:E0; lia.
    + assert (Hn : Z.of_nat n = 0 \/ Z.of_nat n = 1) by lia.
      destruct Hn as [-> | ->]; reflexivity.
  - repeat split; vm_compute; reflexivity.
Qed.

(** The case of the test-suite: ['word '.repeat(400)] reads in 2 minutes. *)
Lemma reading_time_of_test_body :
  calculateReadingTime (JStr (repeat_string 400 "word ")) = 2.
Proof. vm_compute. reflexivity. Qed.
(** ** Requests whose members have their documented types *)

Lemma strings_of_strings (l : list string) : strings_of (map JsString l) = Some l.
Proof. induction l as [|s l IH]; cbn; [reflexivity|]. now rewrite IH. Qed.

Lemma createBlog_on_typed (L : library) (fresh : ObjectId) (now : Z)
  (user : User.t) (body : blog_body) (db : list Blog.t) :
  createBlog L fresh now user (blog_req body) db
  = createBlog_typed fresh now user body db.
Proof.
  destruct body as [[t|] [d|] [g|] [b|] s]; try reflexivity;
    unfold createBlog, createBlog_typed, new_Blog_from, save_new;
    cbn [blog_req req_title req_description req_tags req_body option_map
         body_title body_description body_tags body_body jsv js truthy
         when_given assign_title assign_description assign_tags assign_body
         cast_String cast_Strings fst snd];
    rewrite ?strings_of_strings; reflexivity.
Qed.

Lemma updateBlog_on_typed (L : library)
  (castObjectId : string -> option ObjectId) (now : Z) (user : User.t)
  (id : string) (body : blog_body) (db : list Blog.t) :
  updateBlog castObjectId L now user id (blog_req body) db
  = updateBlog_typed castObjectId now user id body db.
Proof.
  unfold updateBlog, updateBlog_typed, save_existing.
  destruct (castObjectId id) as [i|]; [|reflexivity].
  destruct (Blog_findById i db) as [original|]; [|reflexivity].
  destruct (negb _); [reflexivity|].
  destruct body as [[t|] [d|] [g|] [b|] [s|]];
    cbn [blog_req req_title req_description req_tags req_body req_state
         option_map body_title body_description body_tags body_body
         body_state jsv js truthy the
         when_given assign_title assign_description assign_tags assign_body
         cast_String cast_Strings fst snd];
    rewrite ?strings_of_strings;
    repeat match goal with
           | |- context [if negb (?x =? "")%string then _ else _] =>
               destruct (x =? "")%string; cbn [negb andb fst snd]
           end;
    try reflexivity;
    repeat match goal with
           | |- context [if ?c then _ else _] => destruct c; cbn [fst snd]
           end; reflexivity.
Qed.

Lemma login_on_typed
  (bcrypt_compare : string -> string -> bool)
  (jwt_encode : claims -> string -> string) (JWT_SECRET : string)
  (now : Z) (body : login_body) (users : list User.t) :
  login bcrypt_compare jwt_encode JWT_SECRET now (login_req body) users
  = login_typed bcrypt_compare jwt_encode JWT_SECRET now body users.
Proof.
  destruct body as [[e|] [p|]]; unfold login, login_typed;
    cbn [login_req req_email req_password option_map login_email
         login_password jsv js truthy the comparePassword];
    rewrite ?orb_true_r; try reflexivity.
Qed.

Lemma signup_on_typed (L : library)
  (bcrypt_hash : string -> string -> string)
  (jwt_encode : claims -> string -> string) (JWT_SECRET : string)
  (fresh : ObjectId) (salt : string) (now : Z) (body : signup_body)
  (users : list User.t) :
  signup L bcrypt_hash jwt_encode JWT_SECRET fresh salt now
         (signup_req body) users
  = signup_typed bcrypt_hash jwt_encode JWT_SECRET fresh salt now body users.
Proof.
  destruct body as [[f|] [l|] [e|] [p|]]; unfold signup, signup_typed;
    cbn [signup_req req_signup_first_name req_signup_last_name
         req_signup_email req_signup_password option_map signup_first_name
         signup_last_name signup_email signup_password jsv js truthy the
         value ToString length_below];
    try reflexivity;
    try (destruct (negb _); [reflexivity|]);
    try (now rewrite ?orb_true_r).
  destruct (_ || _); [reflexivity|].
  destruct (negb (emailRegex_test e)); [reflexivity|].
  replace (Z.of_nat (String.length p) <? 6)
    with (String.length p <? 6)%nat
    by (destruct (Nat.ltb_spec (String.length p) 6);
        destruct (Z.ltb_spec (Z.of_nat (String.length p)) 6); lia).
  destruct (_ <? _)%nat; [reflexivity|].
  destruct (User_findOne_email _ _); reflexivity.
Qed.

(** [save] when no cast has failed: validation is that of the validators. *)
Lemma save_new_unfold (now : Z) (doc : Blog.t) (db : list Blog.t) :
  save_new now doc db
  = match validate doc with
    | (_ :: _) as messages => Throw (ValidationError messages)
    | [] =>
        let doc := set_updatedAt now doc in
        if existsb (has_id (Blog._id doc)) db then Throw (DuplicateKeyError "_id")
        else if existsb (same_title doc) db then Throw (DuplicateKeyError "title")
        else Ok ((db ++ [doc])%list, doc)
    end.
Proof. reflexivity. Qed.

Lemma save_existing_unfold (now : Z) (original doc : Blog.t) (db : list Blog.t) :
  save_existing now original doc db
  = match validate doc with
    | (_ :: _) as messages => Throw (ValidationError messages)
    | [] =>
        let doc := set_updatedAt now doc in
        if negb (Blog.title doc =? Blog.title original)%string
           && existsb (fun b => negb (has_id (Blog._id doc) b) && same_title doc b) db
        then Throw (DuplicateKeyError "title")
        else Ok (map (fun b => if has_id (Blog._id doc) b then doc else b) db, doc)
    end.
Proof. reflexivity. Qed.

Lemma save_new_user_unfold (bcrypt_hash : string -> string -> string)
  (salt : string) (doc : User.t) (users : list User.t) :
  save_new_user bcrypt_hash salt doc users
  = match validate_user doc with
    | (_ :: _) as messages => Throw (UserValidationError messages)
    | [] =>
        let doc :=
          User.mk (User._id doc) (User.first_name doc) (User.last_name doc)
                  (User.email doc) (bcrypt_hash (User.password doc) salt)
                  (User.createdAt doc) in
        if existsb (fun u => (User._id u =? User._id doc)%string) users
        then Throw (DuplicateKeyError "_id")
        else if existsb (fun u => (User.email u =? User.email doc)%string) users
        then Throw (DuplicateKeyError "email")
        else Ok ((users ++ [doc])%list, doc)
    end.
Proof. reflexivity. Qed.
(** ** Plain patterns are substring searches *)

Lemma is_plain_not_dot (c : ascii) : is_plain c = true -> Ascii.eqb c "."%char = false.
Proof.
  destruct (Ascii.eqb c "."%char) eqn:E; [|reflexivity].
  apply Ascii.eqb_eq in E. subst c. vm_compute. discriminate.
Qed.

Lemma simple_pattern_plain (p : list ascii) :
  forallb is_plain p = true -> simple_pattern p = Some (map Lit p).
Proof.
  induction p as [|c p IH]; simpl; [reflexivity|].
  intros H. apply andb_true_iff in H as [Hc Hp].
  unfold atom_of. rewrite (is_plain_not_dot c Hc), Hc, (IH Hp). reflexivity.
Qed.

Lemma matches_here_prefix (S : server) (p s : list ascii) :
  matches_here S (map Lit p) s = true <->
  exists post, map (fold_case S) s = (map (fold_case S) p ++ post)%list.
Proof.
  revert s. induction p as [|c p IH]; intros s; simpl.
  - split; [intros _; now exists (map (fold_case S) s)|reflexivity].
  - destruct s as [|d s]; simpl.
    + split; [discriminate|]. intros [post H]. discriminate.
    + rewrite andb_true_iff, Ascii.eqb_eq, IH. split.
      * intros [-> [post ->]]. now exists post.
      * intros [post H]. inversion H; subst. split; [reflexivity|now exists post].
Qed.

Lemma matches_somewhere_infix (S : server) (p s : list ascii) :
  matches_somewhere S (map Lit p) s = true <->
  exists pre post,
    map (fold_case S) s = (pre ++ map (fold_case S) p ++ post)%list.
Proof.
  induction s as [|d s IH].
  - cbn [matches_somewhere]. rewrite orb_false_r, matches_here_prefix. split.
    + intros [post H]. now exists [], post.
    + intros [pre [post H]]. destruct pre; simpl in H; [now exists post|discriminate].
  - cbn [matches_somewhere]. rewrite orb_true_iff, matches_here_prefix, IH. split.
    + intros [[post H] | [pre [post H]]].
      * now exists [], post.
      * exists (fold_case S d :: pre), post. simpl. now rewrite H.
    + intros [[|x pre] [post H]].
      * left. now exists post.
      * right. simpl in H. inversion H. now exists pre, post.
Qed.

Lemma regex_i_plain (S : server) (search : string) :
  plain search = true ->
  exists re, regex_i S search = Some re
             /\ forall subject, re subject = true <-> ci_substring S search subject.
Proof.
  intros H. unfold regex_i. rewrite (simple_pattern_plain _ H).
  eexists. split; [reflexivity|]. intros subject. apply matches_somewhere_infix.
Qed.

(** A subject that holds the search string as it is written is a subject
    that holds it letter case aside, however the engine folds. *)
Lemma ci_substring_verbatim (S : server) (needle pre post : string) :
  ci_substring S needle (pre ++ needle ++ post).
Proof.
  exists (map (fold_case S) (chars pre)), (map (fold_case S) (chars post)).
  unfold chars.
  assert (Happ : forall a b : string,
            list_ascii_of_string (a ++ b)
            = (list_ascii_of_string a ++ list_ascii_of_string b)%list).
  { intros a b. induction a as [|c a IH]; cbn; [reflexivity|]. now rewrite IH. }
  now rewrite !Happ, !map_app.
Qed.

Lemma In_page (A : Type) (n k : nat) (b : A) (l : list A) :
  In b (firstn n (skipn k l)) -> In b l.
Proof.
  intros H.
  rewrite <- (firstn_skipn k l). apply in_or_app. right.
  rewrite <- (firstn_skipn n (skipn k l)). apply in_or_app. now left.
Qed.

Lemma In_skipn (A : Type) (k : nat) (b : A) (l : list A) :
  In b (skipn k l) -> In b l.
Proof.
  intros H. rewrite <- (firstn_skipn k l). apply in_or_app. now right.
Qed.

Lemma existsb_true_iff (re : string -> bool) (l : list string) :
  existsb re l = true <-> exists t, In t l /\ re t = true.
Proof. apply existsb_exists. Qed.

(** ** Numbers *)

Lemma to_Number_exact (n : Z) : Z.abs n < 2 ^ 53 -> to_Number n = Num n.
Proof.
  intros H. unfold to_Number. cbv zeta.
  destruct (Z.ltb_spec (Z.abs n) (2 ^ 53)); [reflexivity|lia].
Qed.

Lemma number_or_given (x : number) (d : Z) :
  d <> 0 -> number_or x d <> NaN /\ number_or x d <> Num 0.
Proof.
  intros Hd. destruct x as [|[|p|p]|s]; cbn; split; congruence.
Qed.

(** ** The window of a query *)

Lemma window_in_range (S : server) (s l : Z) (sorted : list Blog.t) :
  0 <= s < 2 ^ 63 -> Z.abs l < 2 ^ 63 -> l <> 0 ->
  window S (Num s) (Num l) sorted
  = Ok (firstn (Z.to_nat (Z.abs l)) (skipn (Z.to_nat s) sorted)).
Proof.
  intros Hs Hl Hl0. unfold window. cbv zeta.
  destruct (Z.ltb_spec s 0); [lia|].
  destruct (Z.ltb_spec s (2 ^ 63)); [|lia].
  destruct (Z.ltb_spec (Z.abs l) (2 ^ 63)); [|lia].
  cbn [andb]. destruct (Z.eqb_spec l 0); [contradiction|reflexivity].
Qed.

Lemma window_In (S : server) (skip limit : number) (sorted blogs : list Blog.t)
  (b : Blog.t) :
  window S skip limit sorted = Ok blogs -> In b blogs -> In b sorted.
Proof.
  unfold window. cbv zeta.
  assert (Hserver :
    match beyond S skip limit with
    | Throw e => Throw e
    | Ok (s, l) => Ok (firstn l (skipn s sorted))
    end = Ok blogs -> In b blogs -> In b sorted).
  { destruct (beyond S skip limit) as [[s l]|e]; [|discriminate].
    intros H. injection H as <-. apply In_page. }
  destruct skip as [|s|?]; try exact Hserver.
  destruct limit as [|l|?]; try exact Hserver.
  destruct (s <? 0); [discriminate|].
  destruct (_ && _); [|exact Hserver].
  intros H. injection H as <-.
  destruct (l =? 0); [apply In_skipn|apply In_page].
Qed.
(** ** The public listing *)

Section Sorting.

Variable le : Blog.t -> Blog.t -> bool.

Lemma insert_sorted_perm (x : Blog.t) (l : list Blog.t) :
  Permutation (insert_sorted le x l) (x :: l).
Proof.
  induction l as [|y l IH]; simpl; [reflexivity|].
  destruct (le x y); [reflexivity|].
  rewrite IH. apply perm_swap.
Qed.

Lemma sort_blogs_perm (l : list Blog.t) : Permutation (sort_blogs le l) l.
Proof.
  induction l as [|x l IH]; simpl; [reflexivity|].
  rewrite insert_sorted_perm. now constructor.
Qed.

Lemma sort_blogs_length (l : list Blog.t) :
  List.length (sort_blogs le l) = List.length l.
Proof. apply Permutation_length, sort_blogs_perm. Qed.

Lemma sort_blogs_In (b : Blog.t) (l : list Blog.t) :
  In b (sort_blogs le l) <-> In b l.
Proof.
  split; apply Permutation_in; [|symmetry]; apply sort_blogs_perm.
Qed.

Hypothesis le_total : forall a b, le a b = false -> le b a = true.

Lemma insert_sorted_sorted (x : Blog.t) (l : list Blog.t) :
  Sorted (fun a b => le a b = true) l ->
  Sorted (fun a b => le a b = true) (insert_sorted le x l).
Proof.
  induction l as [|y l IH]; intros Hs; simpl.
  - repeat constructor.
  - destruct (le x y) eqn:E.
    + constructor; [exact Hs|]. now constructor.
    + inversion Hs as [|? ? Hs' Hhd]; subst.
      constructor; [now apply IH|].
      destruct l as [|z l]; simpl.
      * constructor. now apply le_total.
      * destruct (le x z); constructor.
        -- now apply le_total.
        -- now inversion Hhd.
Qed.

Lemma sort_blogs_sorted (l : list Blog.t) :
  Sorted (fun a b => le a b = true) (sort_blogs le l).
Proof.
  induction l as [|x l IH]; simpl; [constructor|].
  now apply insert_sorted_sorted.
Qed.

End Sorting.

Lemma Sorted_weaken (A : Type) (R R' : A -> A -> Prop) (l : list A) :
  (forall a b, R a b -> R' a b) -> Sorted R l -> Sorted R' l.
Proof.
  intros HR H. induction H as [|a l Hs IH Hhd]; constructor; [exact IH|].
  destruct Hhd; constructor. now apply HR.
Qed.

Lemma key_leb_total (a b : sort_key) : key_leb a b = false -> key_leb b a = true.
Proof.
  destruct a, b; simpl; intros H; try reflexivity; try discriminate; try lia;
    match goal with
    | H : String.leb ?x ?y = false |- _ =>
        destruct (String.leb_total x y) as [H'|H']; [congruence|exact H']
    end.
Qed.

Lemma in_order_total (ties : Blog.t -> Z) (field : string) (direction : Z)
  (a b : Blog.t) :
  in_order ties field direction a b = false ->
  in_order ties field direction b a = true.
Proof.
  unfold in_order. cbv zeta.
  rewrite (andb_comm (key_leb (field_key field direction b) _)).
  destruct (_ && _) eqn:E.
  - intros H. apply Z.leb_gt in H. apply Z.leb_le. lia.
  - destruct (direction =? 1); apply key_leb_total.
Qed.

(** The order that [in_order] keeps, read on the documents: whatever the
    server does with ties, two documents in order have their keys in the
    order asked for. *)
Lemma in_order_keys (ties : Blog.t -> Z) (field : string) (direction : Z)
  (a b : Blog.t) :
  in_order ties field direction a b = true ->
  if direction =? 1
  then key_leb (field_key field direction a) (field_key field direction b) = true
  else key_leb (field_key field direction b) (field_key field direction a) = true.
Proof.
  unfold in_order. cbv zeta. destruct (_ && _) eqn:E.
  - apply andb_true_iff in E as [E1 E2]. intros _.
    destruct (direction =? 1); assumption.
  - destruct (direction =? 1); intros H; exact H.
Qed.

Lemma sorted_on_number (ties : Blog.t -> Z) (field : string) (direction : Z)
  (get : Blog.t -> Z) (l : list Blog.t) :
  (forall b, field_key field direction b = KNum (get b)
             \/ field_key field direction b = KDate (get b)) ->
  (forall b b', field_key field direction b = KNum (get b)
                -> field_key field direction b' = KNum (get b')) ->
  Sorted (fun a b => in_order ties field direction a b = true) l ->
  Sorted (fun a b => if direction =? 1 then get a <= get b else get b <= get a) l.
Proof.
  intros Hkey Hsame. apply Sorted_weaken. intros a b H.
  apply in_order_keys in H.
  destruct (Hkey a) as [Ka|Ka].
  - rewrite Ka, (Hsame a b Ka) in H. cbn [key_leb] in H.
    destruct (direction =? 1); now apply Z.leb_le.
  - destruct (Hkey b) as [Kb|Kb].
    + rewrite (Hsame b a Kb) in Ka. discriminate.
    + rewrite Ka, Kb in H. cbn [key_leb] in H.
      destruct (direction =? 1); now apply Z.leb_le.
Qed.

Lemma sorted_on_title (ties : Blog.t -> Z) (direction : Z) (l : list Blog.t) :
  Sorted (fun a b => in_order ties "title" direction a b = true) l ->
  Sorted (fun a b => if direction =? 1
                     then String.leb (Blog.title a) (Blog.title b) = true
                     else String.leb (Blog.title b) (Blog.title a) = true) l.
Proof.
  apply Sorted_weaken. intros a b H. apply in_order_keys in H. exact H.
Qed.

(** The listing, with the two queries it sends folded into one case
    analysis. *)
Lemma getAllPublishedBlogs_unfold
  (S : server) (ties : Blog.t -> Z) (query : list_query) (db : list Blog.t) :
  let page := parseInt_or (query_page query) 1 in
  let limit := parseInt_or (query_limit query) 20 in
  let search := str_or (query_search query) "" in
  let orderBy := str_or (query_orderBy query) "timestamp" in
  let order :=
    match query_order query with
    | Some o => if (o =? "asc")%string then 1 else -1
    | None => -1
    end in
  let skip := js_mul (js_sub page (Num 1)) limit in
  getAllPublishedBlogs S ties query db =
  match compile_filter S
          (mkQuery (Some Blog.published)
                   (if truthy (JStr search) then Some search else None)) with
  | Throw e => errorHandler e
  | Ok keep =>
      let matching := filter keep db in
      let total := Z.of_nat (List.length matching) in
      match window S skip limit
              (sort_blogs (in_order ties orderBy order) matching) with
      | Throw e => errorHandler e
      | Ok blogs =>
          mkResponse 200 true None
            (BlogsData blogs
               (mkPagination page (ceil_div total limit) total limit))
      end
  end.
Proof.
  intros page limit search orderBy order skip.
  unfold getAllPublishedBlogs, Blog_find, Blog_countDocuments.
  fold page limit search orderBy order. fold skip.
  destruct (compile_filter S _) as [keep|e]; reflexivity.
Qed.

Lemma errorHandler_failure (e : js_error) : success (errorHandler e) = false.
Proof.
  unfold errorHandler.
  repeat match goal with
         | |- context [let '(_, _) := ?x in _] => destruct x
         | |- context [if ?c then _ else _] => destruct c
         | |- context [match ?c with _ => _ end] => destruct c
         end; reflexivity.
Qed.

Lemma page_length (A : Type) (n k : nat) (l : list A) :
  List.length (firstn n (skipn k l)) = Nat.min n (List.length l - k).
Proof. now rewrite length_firstn, length_skipn. Qed.

Lemma ceil_div_Num (total l : Z) :
  l <> 0 -> ceil_div total (Num l) = Num (Math_ceil (js_div total l)).
Proof. intros H. destruct l; [contradiction|reflexivity|reflexivity]. Qed.
(** C2 (as amended).  Whatever the parameters, every blog returned by the
    public listing is a published blog of the collection.  When [search] is
    not empty it is used as a case-insensitive regular expression: the
    result set, of which the response holds a part and the count, is
    exactly the published blogs whose title or one of whose tags matches
    it; when [search] has no character that is special in a pattern (and
    no NUL), whatever its other characters, these are exactly the
    published blogs whose title or tags contain [search] as a
    case-insensitive substring, the letters of ASCII being folded and the
    other characters as the engine folds them; in particular they include
    every published blog whose title holds [search] as it is written.
    With an offset and a limit among the server's integers the response
    holds the page cut out of the result set in some order.  The listing
    answers whenever [search] is empty or has no special character and the
    offset and the limit are in that range. *)
Theorem listing_published_search
  (S : server) (ties : Blog.t -> Z) (query : list_query) (db : list Blog.t) :
  let page := parseInt_or (query_page query) 1 in
  let limit := parseInt_or (query_limit query) 20 in
  let skip := js_mul (js_sub page (Num 1)) limit in
  let search := str_or (query_search query) "" in
  (forall blogs pages,
      getAllPublishedBlogs S ties query db
      = mkResponse 200 true None (BlogsData blogs pages) ->
      (forall b, In b blogs -> In b db /\ Blog.state b = Blog.published)
      /\ (search <> "" ->
          exists re matching,
            regex_i S search = Some re
            /\ (forall b, In b matching <->
                          In b db /\ Blog.state b = Blog.published
                          /\ (re (Blog.title b) = true
                              \/ exists t, In t (Blog.tags b) /\ re t = true))
            /\ (plain search = true ->
                (forall b, In b matching <->
                           In b db /\ Blog.state b = Blog.published
                           /\ mentions S search b)
                /\ (forall b pre post,
                       In b db -> Blog.state b = Blog.published ->
                       Blog.title b = pre ++ search ++ post ->
                       In b matching))
            /\ (forall b, In b blogs -> In b matching)
            /\ totalBlogs pages = Z.of_nat (List.length matching)
            /\ (forall s l,
                   skip = Num s -> limit = Num l ->
                   0 <= s < 2 ^ 63 -> Z.abs l < 2 ^ 63 ->
                   exists sorted,
                     Permutation sorted matching
                     /\ blogs = firstn (Z.to_nat (Z.abs l))
                                  (skipn (Z.to_nat s) sorted))))
  /\ (search = "" \/ plain search = true ->
      forall s l,
        skip = Num s -> limit = Num l ->
        0 <= s < 2 ^ 63 -> Z.abs l < 2 ^ 63 ->
        exists blogs pages,
          getAllPublishedBlogs S ties query db
          = mkResponse 200 true None (BlogsData blogs pages)).
Proof.
  intros page limit skip search.
  pose proof (getAllPublishedBlogs_unfold S ties query db) as U.
  cbv zeta in U. fold page limit search in U. fold skip in U.
  set (orderBy := str_or (query_orderBy query) "timestamp") in U.
  set (order := match query_order query with
                | Some o => if (o =? "asc")%string then 1 else -1
                | None => -1 end) in U.
  assert (Hl0 : forall l, limit = Num l -> l <> 0).
  { intros l Hl ->. now apply (number_or_given (parseInt (query_limit query)) 20). }
  split.
  - intros blogs pages H. rewrite U in H. clear U.
    unfold compile_filter in H. cbn [q_state q_or_regex truthy] in H.
    assert (Hfail : forall e, errorHandler e
                              <> mkResponse 200 true None (BlogsData blogs pages)).
    { intros e He. pose proof (errorHandler_failure e) as F.
      rewrite He in F. discriminate. }
    destruct (search =? "")%string eqn:Es; cbn [negb] in H.
    + destruct (window S skip limit _) as [page_blogs|e] eqn:Hw;
        [|now apply Hfail in H].
      injection H as Hb Hp. split.
      * intros b Hin. rewrite <- Hb in Hin.
        apply (window_In _ _ _ _ _ _ Hw) in Hin.
        apply sort_blogs_In in Hin. apply filter_In in Hin as [Hin Hk].
        split; [exact Hin|]. destruct (Blog.state b); [discriminate|reflexivity].
      * intros Hne. apply String.eqb_eq in Es. contradiction.
    + destruct (regex_i S search) as [re|] eqn:Ere; [|now apply Hfail in H].
      set (keep := fun b : Blog.t =>
                     Blog.state_eqb (Blog.state b) Blog.published
                     && (re (Blog.title b) || existsb re (Blog.tags b))) in *.
      destruct (window S skip limit _) as [page_blogs|e] eqn:Hw;
        [|now apply Hfail in H].
      injection H as Hb Hp.
      assert (Hkeep : forall b, In b (filter keep db) <->
                In b db /\ Blog.state b = Blog.published
                /\ (re (Blog.title b) = true
                    \/ exists t, In t (Blog.tags b) /\ re t = true)).
      { intros b. rewrite filter_In. unfold keep.
        rewrite andb_true_iff, orb_true_iff, existsb_true_iff.
        destruct (Blog.state b); simpl; intuition congruence. }
      assert (Hin_page : forall b, In b blogs -> In b (filter keep db)).
      { intros b Hin. rewrite <- Hb in Hin.
        apply (window_In _ _ _ _ _ _ Hw) in Hin.
        now apply sort_blogs_In in Hin. }
      split.
      * intros b Hin. apply Hin_page, Hkeep in Hin. tauto.
      * intros _. exists re, (filter keep db).
        split; [reflexivity|]. split; [exact Hkeep|]. split.
        { intros Hplain.
          destruct (regex_i_plain S search Hplain) as [re' [Hre' Hspec]].
          rewrite Ere in Hre'. injection Hre' as <-.
          assert (Hm : forall b, In b (filter keep db) <->
                    In b db /\ Blog.state b = Blog.published
                    /\ mentions S search b).
          { intros b. rewrite Hkeep. unfold mentions. rewrite Hspec.
            split; intros (? & ? & [?|[t [? Ht]]]); repeat split; auto;
              right; exists t; (split; [assumption|]); now apply Hspec. }
          split; [exact Hm|].
          intros b pre post Hin Hst Ht. apply Hm.
          split; [exact Hin|]. split; [exact Hst|]. left. rewrite Ht.
          apply ci_substring_verbatim. }
        split; [exact Hin_page|]. split; [now rewrite <- Hp|].
        intros s l Hs Hl Hsr Hlr. rewrite Hs, Hl in Hw.
        rewrite window_in_range in Hw by (auto; lia).
        injection Hw as Hw.
        exists (sort_blogs (in_order ties orderBy order) (filter keep db)).
        split; [apply sort_blogs_perm|]. now rewrite <- Hb, <- Hw.
  - intros Hs s l Hskip Hlimit Hsr Hlr. rewrite U. clear U.
    unfold compile_filter. cbn [q_state q_or_regex truthy].
    rewrite Hskip, Hlimit.
    destruct (search =? "")%string eqn:Es; cbn [negb].
    + rewrite window_in_range by (auto; lia). eauto.
    + destruct Hs as [Hs|Hs]; [apply String.eqb_neq in Es; contradiction|].
      destruct (regex_i_plain S search Hs) as [re [-> _]].
      rewrite window_in_range by (auto; lia). eauto.
Qed.
Lemma not_mentions_dot (S : server) :
  ~ mentions S "." (sample_blog (sample_id 1) "abc" Blog.published).
Proof.
  assert (Hno : forall hay, ~ In "."%char (map (fold_case S) (chars hay)) ->
                            ~ ci_substring S "." hay).
  { intros hay Hno [pre [post H]]. apply Hno. rewrite H.
    apply in_or_app. right. now left. }
  intros [H | [t [[<- | []] H]]]; revert H; apply Hno; simpl;
    intros H; repeat (destruct H as [H|H]; [discriminate|]); exact H.
Qed.

(** C2, counterexample.  With the search string ["."] the listing returns
    a published blog titled "abc" with the single tag "news": neither
    contains a dot. *)
Lemma listing_search_dot_counterexample :
  getAllPublishedBlogs sample_server insertion_order
    (mkListQuery None None (Some ".") None None)
    [sample_blog (sample_id 1) "abc" Blog.published]
  = mkResponse 200 true None
      (BlogsData [sample_blog (sample_id 1) "abc" Blog.published]
                 (mkPagination (Num 1) (Num 1) 1 (Num 20)))
  /\ ~ mentions sample_server "."
         (sample_blog (sample_id 1) "abc" Blog.published).
Proof. split; [vm_compute; reflexivity | apply not_mentions_dot]. Qed.

(** A search for "caf" followed by the code unit 233, e acute, finds
    the title "Le CAF" followed by the code unit 201, its capital, on a
    server that folds the case of Latin-1, in a collection that also
    holds a draft. *)
Lemma listing_published_search_witness :
  let cafe := "caf" ++ String "233"%char "" in
  let db := [sample_blog (sample_id 1) "Draft" Blog.draft;
             sample_blog (sample_id 2) ("Le CAF" ++ String "201"%char "")
                         Blog.published] in
  (forall b,
      In b [sample_blog (sample_id 2) ("Le CAF" ++ String "201"%char "")
                        Blog.published] ->
      In b db /\ Blog.state b = Blog.published)
  /\ exists blogs pages,
      getAllPublishedBlogs sample_server insertion_order
        (mkListQuery None None (Some cafe) None None) db
      = mkResponse 200 true None (BlogsData blogs pages).
Proof.
  intros cafe db.
  destruct (listing_published_search sample_server insertion_order
              (mkListQuery None None (Some cafe) None None) db)
    as [A B].
  split.
  - apply (A [sample_blog (sample_id 2) ("Le CAF" ++ String "201"%char "")
                          Blog.published]
             (mkPagination (Num 1) (Num 1) 1 (Num 20))).
    vm_compute. reflexivity.
  - apply (B (or_intror eq_refl) 0 20); [reflexivity|reflexivity|
      vm_compute; split; [discriminate|reflexivity]|vm_compute; reflexivity].
Defined.
Lemma firstn_skipn_length_12_5 (A : Type) (l : list A) :
  List.length l = 12%nat -> List.length (firstn 5 (skipn 10 l)) = 2%nat.
Proof. intros H. rewrite page_length, H. reflexivity. Qed.

(** C3.  Let [page] and [limit] be the numbers that the listing reads in
    its parameters, 1 and 20 by default, and let the offset
    [(page - 1) * limit], computed on these numbers, and [limit] be among
    the integers that the server takes.  The listing skips that offset in
    the matching blogs put in some order and returns at most [limit] of
    them, together with [currentPage = page],
    [totalPages = ceil (totalMatches / limit)], the number of matches and
    [limit].  The order is that of the field asked for, [timestamp] by
    default, descending unless [order] is exactly ["asc"]: written out for
    [timestamp], [read_count], [reading_time] and [title].  The numbers
    are exact up to 2^53: a page written with fewer than 16 digits is
    echoed as written, and the offset is the product of the integers.
    With [limit = 5] and 12 matches, [totalPages] is 3 and page 3 holds 2
    records. *)
Theorem listing_pagination
  (S : server) (ties : Blog.t -> Z) (query : list_query)
  (db : list Blog.t) (keep : Blog.t -> bool) (s l : Z) :
  let page := parseInt_or (query_page query) 1 in
  let limit := parseInt_or (query_limit query) 20 in
  let search := str_or (query_search query) "" in
  let orderBy := str_or (query_orderBy query) "timestamp" in
  let skip := js_mul (js_sub page (Num 1)) limit in
  let matching := filter keep db in
  let total := Z.of_nat (List.length matching) in
  let pages := Math_ceil (js_div total l) in
  compile_filter S
    (mkQuery (Some Blog.published)
             (if truthy (JStr search) then Some search else None)) = Ok keep ->
  skip = Num s -> limit = Num l ->
  0 <= s < 2 ^ 63 -> Z.abs l < 2 ^ 63 ->
  exists sorted,
    let blogs := firstn (Z.to_nat (Z.abs l)) (skipn (Z.to_nat s) sorted) in
    getAllPublishedBlogs S ties query db
    = mkResponse 200 true None
        (BlogsData blogs (mkPagination page (Num pages) total limit))
    /\ Permutation sorted matching
    /\ (query_order query <> Some "asc" ->
        (orderBy = "timestamp" ->
         Sorted (fun a b => Blog.timestamp b <= Blog.timestamp a) sorted)
        /\ (orderBy = "read_count" ->
            Sorted (fun a b => Blog.read_count b <= Blog.read_count a) sorted)
        /\ (orderBy = "reading_time" ->
            Sorted (fun a b => Blog.reading_time b <= Blog.reading_time a) sorted)
        /\ (orderBy = "title" ->
            Sorted (fun a b => String.leb (Blog.title b) (Blog.title a) = true)
                   sorted))
    /\ (query_order query = Some "asc" ->
        (orderBy = "timestamp" ->
         Sorted (fun a b => Blog.timestamp a <= Blog.timestamp b) sorted)
        /\ (orderBy = "read_count" ->
            Sorted (fun a b => Blog.read_count a <= Blog.read_count b) sorted)
        /\ (orderBy = "reading_time" ->
            Sorted (fun a b => Blog.reading_time a <= Blog.reading_time b) sorted)
        /\ (orderBy = "title" ->
            Sorted (fun a b => String.leb (Blog.title a) (Blog.title b) = true)
                   sorted))
    /\ (forall p, mathInt (query_page query) = Some p -> p <> 0 ->
                  Z.abs p < 2 ^ 53 -> page = Num p)
    /\ (forall p, page = Num p -> Z.abs (p - 1) < 2 ^ 53 ->
                  Z.abs ((p - 1) * l) < 2 ^ 53 -> s = (p - 1) * l)
    /\ (0 < l -> (pages - 1) * l < total <= pages * l)
    /\ (l = 5 -> total = 12 ->
        pages = 3 /\ (page = Num 3 -> List.length blogs = 2%nat)).
Proof.
  intros page limit search orderBy skip matching total pages Hq Hskip Hlimit
         Hsr Hlr.
  set (direction := match query_order query with
                    | Some o => if (o =? "asc")%string then 1 else -1
                    | None => -1
                    end).
  assert (Hl0 : l <> 0).
  { intros ->. now apply (number_or_given (parseInt (query_limit query)) 20). }
  exists (sort_blogs (in_order ties orderBy direction) matching).
  cbv zeta.
  assert (Hsorted : Sorted (fun a b => in_order ties orderBy direction a b = true)
                           (sort_blogs (in_order ties orderBy direction) matching))
    by apply sort_blogs_sorted, in_order_total.
  assert (Hdesc : query_order query <> Some "asc" -> direction = -1).
  { intros Hne. unfold direction. destruct (query_order query) as [o|]; [|reflexivity].
    destruct (o =? "asc")%string eqn:E; [|reflexivity].
    apply String.eqb_eq in E. congruence. }
  assert (Hasc : query_order query = Some "asc" -> direction = 1).
  { intros He. unfold direction. now rewrite He. }
  assert (Hs_exact : forall p, page = Num p -> Z.abs (p - 1) < 2 ^ 53 ->
                               Z.abs ((p - 1) * l) < 2 ^ 53 -> s = (p - 1) * l).
  { intros p Hp H1 H2. unfold skip in Hskip. rewrite Hp, Hlimit in Hskip.
    cbn [js_sub js_mul] in Hskip. rewrite (to_Number_exact (p - 1) H1) in Hskip.
    cbn [js_mul] in Hskip. rewrite (to_Number_exact _ H2) in Hskip.
    now injection Hskip as <-. }
  split.
  { rewrite getAllPublishedBlogs_unfold. cbv zeta.
    fold page limit search orderBy direction. fold skip. rewrite Hq.
    fold matching. rewrite Hskip, Hlimit.
    rewrite window_in_range by assumption.
    rewrite ceil_div_Num by exact Hl0. reflexivity. }
  split; [apply sort_blogs_perm|].
  split; [|split].
  - intros Hd. apply Hdesc in Hd. rewrite Hd in Hsorted |- *.
    repeat split; intros Hf; rewrite Hf in Hsorted |- *.
    + apply (sorted_on_number ties "timestamp" (-1) Blog.timestamp) in Hsorted;
        [exact Hsorted|now right|discriminate].
    + apply (sorted_on_number ties "read_count" (-1) Blog.read_count) in Hsorted;
        [exact Hsorted|now left|reflexivity].
    + apply (sorted_on_number ties "reading_time" (-1) Blog.reading_time) in Hsorted;
        [exact Hsorted|now left|reflexivity].
    + apply sorted_on_title in Hsorted. exact Hsorted.
  - intros Hd. apply Hasc in Hd. rewrite Hd in Hsorted |- *.
    repeat split; intros Hf; rewrite Hf in Hsorted |- *.
    + apply (sorted_on_number ties "timestamp" 1 Blog.timestamp) in Hsorted;
        [exact Hsorted|now right|discriminate].
    + apply (sorted_on_number ties "read_count" 1 Blog.read_count) in Hsorted;
        [exact Hsorted|now left|reflexivity].
    + apply (sorted_on_number ties "reading_time" 1 Blog.reading_time) in Hsorted;
        [exact Hsorted|now left|reflexivity].
    + apply sorted_on_title in Hsorted. exact Hsorted.
  - split.
    { intros p Hp Hp0 Hpr. unfold page, parseInt_or, parseInt. rewrite Hp.
      rewrite to_Number_exact by exact Hpr.
      destruct p; [contradiction|reflexivity|reflexivity]. }
    split; [exact Hs_exact|].
    split.
    + intros Hl. unfold pages. rewrite Math_ceil_div by exact Hl.
      pose proof (Z.div_mod (total + l - 1) l ltac:(lia)) as H1.
      pose proof (Z.mod_pos_bound (total + l - 1) l Hl) as H2.
      nia.
    + intros Hl Ht. subst l. unfold pages. rewrite Ht. split; [reflexivity|].
      intros Hp.
      assert (Hs10 : s = 10).
      { rewrite (Hs_exact 3 Hp); [reflexivity| |]; vm_compute; reflexivity. }
      rewrite Hs10. apply firstn_skipn_length_12_5.
      rewrite sort_blogs_length. unfold total in Ht. lia.
Qed.

(** Three blogs read 1, 3 and 2 times, listed on [read_count] two to a
    page. *)
Lemma listing_pagination_witness :
  exists sorted,
    getAllPublishedBlogs sample_server insertion_order
      (mkListQuery (Some "1") (Some "2") None (Some "read_count") None)
      [sample_read 1 1; sample_read 2 3; sample_read 3 2]
    = mkResponse 200 true None
        (BlogsData (firstn 2 sorted) (mkPagination (Num 1) (Num 2) 3 (Num 2)))
    /\ Sorted (fun a b => Blog.read_count b <= Blog.read_count a) sorted.
Proof.
  destruct (listing_pagination sample_server insertion_order
              (mkListQuery (Some "1") (Some "2") None (Some "read_count") None)
              [sample_read 1 1; sample_read 2 3; sample_read 3 2]
              (fun b => Blog.state_eqb (Blog.state b) Blog.published) 0 2
              eq_refl eq_refl eq_refl
              ltac:(vm_compute; split; [discriminate|reflexivity])
              ltac:(vm_compute; reflexivity))
    as (sorted & Hr & _ & Hdesc & _).
  exists sorted. split; [exact Hr|].
  apply (proj1 (proj2 (Hdesc ltac:(discriminate)))). reflexivity.
Defined.

(** The same request, computed: the blog read 3 times comes first, then
    the one read twice. *)
Lemma listing_by_read_count :
  getAllPublishedBlogs sample_server insertion_order
    (mkListQuery (Some "1") (Some "2") None (Some "read_count") None)
    [sample_read 1 1; sample_read 2 3; sample_read 3 2]
  = mkResponse 200 true None
      (BlogsData [sample_read 2 3; sample_read 3 2]
                 (mkPagination (Num 1) (Num 2) 3 (Num 2)))
  /\ getAllPublishedBlogs sample_server insertion_order
       (mkListQuery (Some "1") (Some "2") None (Some "read_count") (Some "asc"))
       [sample_read 1 1; sample_read 2 3; sample_read 3 2]
     = mkResponse 200 true None
         (BlogsData [sample_read 1 1; sample_read 3 2]
                    (mkPagination (Num 1) (Num 2) 3 (Num 2))).
Proof. split; vm_compute; reflexivity. Qed.

(** Above 2^53 the numbers are no longer the integers written: the page
    9007199254740993 is echoed as 9007199254740992. *)
Lemma listing_page_beyond_2_53 :
  getAllPublishedBlogs sample_server insertion_order
    (mkListQuery (Some "9007199254740993") None None None None)
    [sample_read 1 1]
  = mkResponse 200 true None
      (BlogsData [] (mkPagination (Num 9007199254740992) (Num 1) 1 (Num 20))).
Proof.
  rewrite getAllPublishedBlogs_unfold. cbv zeta.
  cbn [query_page query_limit query_search query_orderBy query_order].
  assert (Hp : parseInt_or (Some "9007199254740993") 1 = Num 9007199254740992)
    by (vm_compute; reflexivity).
  assert (Hl : parseInt_or None 20 = Num 20) by reflexivity.
  rewrite Hp, Hl.
  assert (Hs : js_mul (js_sub (Num 9007199254740992) (Num 1)) (Num 20)
               = Num 180143985094819808) by (vm_compute; reflexivity).
  rewrite Hs.
  change (compile_filter sample_server
            (mkQuery (Some Blog.published)
               (if truthy (JStr (str_or None "")) then Some (str_or None "")
                else None)))
    with (Ok (fun b : Blog.t => Blog.state_eqb (Blog.state b) Blog.published)).
  cbv iota beta.
  rewrite window_in_range
    by (try (vm_compute; split; [discriminate|reflexivity]);
        try (vm_compute; reflexivity); discriminate).
  rewrite skipn_all2; [reflexivity|].
  rewrite sort_blogs_length.
  match goal with
  | |- (List.length (filter ?f ?l) <= _)%nat =>
      pose proof (filter_length_le f l) as Hle
  end.
  cbn [List.length] in Hle. lia.
Qed.

(** ** Fetching one published blog *)

Lemma has_id_eq (i : ObjectId) (b : Blog.t) : has_id i b = true <-> Blog._id b = i.
Proof. apply String.eqb_eq. Qed.

Lemma findOne_published_some (i : ObjectId) (db : list Blog.t) (b : Blog.t) :
  Blog_findOne_published i db = Some b ->
  In b db /\ Blog._id b = i /\ Blog.state b = Blog.published.
Proof.
  intros H. apply find_some in H as [Hin H].
  apply andb_true_iff in H as [Hid Hst]. apply has_id_eq in Hid.
  repeat split; try assumption. now destruct (Blog.state b).
Qed.

Lemma findOne_published_none (i : ObjectId) (db : list Blog.t) :
  (forall b, In b db -> Blog._id b = i -> Blog.state b = Blog.draft) ->
  Blog_findOne_published i db = None.
Proof.
  intros H. destruct (Blog_findOne_published i db) as [b|] eqn:E; [|reflexivity].
  apply findOne_published_some in E as (Hin & Hid & Hst).
  rewrite (H b Hin Hid) in Hst. discriminate.
Qed.

(** The document written by [incrementReadCount]. *)
Lemma incrementReadCount_ok (now : Z) (b : Blog.t) (db : list Blog.t) :
  validate b = [] ->
  incrementReadCount now b db
  = Ok (map (fun x => if has_id (Blog._id b) x
                      then set_updatedAt now (set_read_count (Blog.read_count b + 1) b)
                      else x) db,
        set_updatedAt now (set_read_count (Blog.read_count b + 1) b)).
Proof.
  intros Hv. unfold incrementReadCount. rewrite save_existing_unfold; cbv zeta.
  change (validate (set_read_count (Blog.read_count b + 1) b)) with (validate b).
  rewrite Hv. cbn [Blog.title set_updatedAt set_read_count Blog._id].
  rewrite String.eqb_refl. reflexivity.
Qed.

Lemma incrementReadCount_throw (now : Z) (b : Blog.t) (db : list Blog.t) :
  validate b <> [] ->
  exists e, incrementReadCount now b db = Throw e /\ status (errorHandler e) = 400.
Proof.
  intros Hv. unfold incrementReadCount. rewrite save_existing_unfold; cbv zeta.
  change (validate (set_read_count (Blog.read_count b + 1) b)) with (validate b).
  destruct (validate b) as [|m ms]; [congruence|].
  eexists. split; reflexivity.
Qed.

Lemma findOne_published_replaced (i : ObjectId) (b b' : Blog.t) (db : list Blog.t) :
  Blog_findOne_published i db = Some b ->
  Blog._id b' = i -> Blog.state b' = Blog.published ->
  Blog_findOne_published i (map (fun x => if has_id i x then b' else x) db)
  = Some b'.
Proof.
  intros Hf Hid Hst. unfold Blog_findOne_published in *.
  induction db as [|x db IH]; [discriminate|].
  cbn [map find] in *. destruct (has_id i x) eqn:Hx.
  - assert (Hb : has_id i b' = true) by now apply has_id_eq.
    rewrite Hb, Hst. reflexivity.
  - rewrite Hx. cbn [andb] in *. now apply IH.
Qed.

Lemma getBlogById_found
  (castObjectId : string -> option ObjectId) (now : Z) (id : string)
  (i : ObjectId) (original : Blog.t) (db : list Blog.t) :
  castObjectId id = Some i ->
  Blog_findOne_published i db = Some original ->
  validate original = [] ->
  let blog := set_updatedAt now
                (set_read_count (Blog.read_count original + 1) original) in
  getBlogById castObjectId now id db
  = (map (fun x => if has_id i x then blog else x) db,
     mkResponse 200 true None (BlogData blog))
  /\ Blog_findOne_published i (map (fun x => if has_id i x then blog else x) db)
     = Some blog.
Proof.
  intros Hc Hf Hv blog. unfold getBlogById. rewrite Hc, Hf.
  rewrite (incrementReadCount_ok now original db Hv). fold blog.
  apply findOne_published_some in Hf as Hf'. destruct Hf' as (_ & Hid & Hst).
  rewrite Hid. split; [reflexivity|].
  now apply (findOne_published_replaced i original).
Qed.

(** C4 (as amended).  For every [id] that is a well-formed identifier:
    the fetch answers 404 "Blog not found" and changes nothing when no
    published blog has that identifier, so that an identifier of draft
    blogs only and an identifier of no blog get the same response; a fetch
    that succeeds returns and stores the blog with [read_count] increased
    by exactly 1 (and [updatedAt] refreshed); and fetching a valid
    published blog N times in a row succeeds N times and leaves its
    [read_count] at the initial value plus N. *)
Theorem getBlogById_published_only
  (castObjectId : string -> option ObjectId) (id : string) (i : ObjectId)
  (db : list Blog.t) :
  castObjectId id = Some i ->
  (forall now,
      Blog_findOne_published i db = None ->
      getBlogById castObjectId now id db = (db, failure 404 "Blog not found"))
  /\ (forall now id' i',
         castObjectId id' = Some i' ->
         (forall b, In b db -> Blog._id b = i -> Blog.state b = Blog.draft) ->
         (forall b, In b db -> Blog._id b <> i') ->
         getBlogById castObjectId now id db
         = getBlogById castObjectId now id' db)
  /\ (forall now db' r,
         getBlogById castObjectId now id db = (db', r) ->
         status r = 200 ->
         exists original,
           Blog_findOne_published i db = Some original
           /\ r = mkResponse 200 true None
                    (BlogData (set_updatedAt now
                       (set_read_count (Blog.read_count original + 1) original)))
           /\ Blog_findOne_published i db'
              = Some (set_updatedAt now
                        (set_read_count (Blog.read_count original + 1) original)))
  /\ (forall nows original,
         Blog_findOne_published i db = Some original ->
         validate original = [] ->
         exists final,
           Forall (fun r => status r = 200)
                  (snd (fetch_each castObjectId nows id db))
           /\ List.length (snd (fetch_each castObjectId nows id db))
              = List.length nows
           /\ Blog_findOne_published i (fst (fetch_each castObjectId nows id db))
              = Some final
           /\ Blog.read_count final
              = Blog.read_count original + Z.of_nat (List.length nows)).
Proof.
  intros Hc. split; [|split; [|split]].
  - intros now Hnone. unfold getBlogById. now rewrite Hc, Hnone.
  - intros now id' i' Hc' Hdraft Hnone. unfold getBlogById. rewrite Hc, Hc'.
    rewrite (findOne_published_none i db Hdraft).
    rewrite (findOne_published_none i' db); [reflexivity|].
    intros b Hin Hid. now apply Hnone in Hin.
  - intros now db' r H Hs.
    destruct (Blog_findOne_published i db) as [original|] eqn:Hf.
    + exists original. split; [reflexivity|].
      destruct (list_eq_dec string_dec (validate original) []) as [Hv|Hv].
      * destruct (getBlogById_found castObjectId now id i original db Hc Hf Hv)
          as [Hg Hstored].
        rewrite Hg in H. injection H as <- <-. now split.
      * destruct (incrementReadCount_throw now original db Hv) as [e [He H400]].
        unfold getBlogById in H. rewrite Hc, Hf, He in H.
        injection H as _ <-. rewrite H400 in Hs. discriminate.
    + unfold getBlogById in H. rewrite Hc, Hf in H. injection H as _ <-.
      discriminate.
  - intros nows. revert db.
    induction nows as [|now nows IH]; intros db original Hf Hv.
    + exists original. cbn. repeat split; [constructor|assumption|lia].
    + destruct (getBlogById_found castObjectId now id i original db Hc Hf Hv)
        as [Hg Hstored].
      cbv zeta in Hg, Hstored.
      set (blog := set_updatedAt now
                     (set_read_count (Blog.read_count original + 1) original)) in *.
      destruct (IH _ blog Hstored Hv) as (final & Hall & Hlen & Hfind & Hcount).
      exists final. cbn [fetch_each]. rewrite Hg.
      destruct (fetch_each castObjectId nows id _) as [db2 rs].
      cbn [fst snd] in *. repeat split.
      * constructor; [reflexivity|exact Hall].
      * cbn. now rewrite Hlen.
      * exact Hfind.
      * rewrite Hcount. cbn [Blog.read_count blog set_updatedAt set_read_count].
        cbn [List.length]. lia.
Qed.

(** C4, counterexample.  The string ["abc"] is the identifier of no
    published blog, yet the fetch does not answer 404: the cast fails and
    the answer is 400 "Invalid ID format". *)
Lemma getBlogById_malformed_counterexample :
  Blog_findOne_published "abc"
    [sample_blog (sample_id 1) "Draft" Blog.draft] = None
  /\ getBlogById castObjectId_hex 5000 "abc"
       [sample_blog (sample_id 1) "Draft" Blog.draft]
     = ([sample_blog (sample_id 1) "Draft" Blog.draft],
        failure 400 "Invalid ID format")
  /\ getBlogById castObjectId_hex 5000 (sample_id 1)
       [sample_blog (sample_id 1) "Draft" Blog.draft]
     = ([sample_blog (sample_id 1) "Draft" Blog.draft],
        failure 404 "Blog not found").
Proof. repeat split; vm_compute; reflexivity. Qed.

Lemma getBlogById_published_only_witness :
  getBlogById castObjectId_hex 5000 (sample_id 1)
    [sample_blog (sample_id 1) "Draft" Blog.draft]
  = ([sample_blog (sample_id 1) "Draft" Blog.draft],
     failure 404 "Blog not found").
Proof.
  apply (getBlogById_published_only castObjectId_hex (sample_id 1) (sample_id 1)
           [sample_blog (sample_id 1) "Draft" Blog.draft]);
    vm_compute; reflexivity.
Defined.

(** ** Update and delete: existence before ownership *)

(** C5 (as amended).  For update and for delete, with [id] a well-formed
    identifier: when no blog has that identifier the answer is 404 "Blog
    not found" for every caller, owner of anything or not; when a blog has
    it and the caller is not its author the answer is 403.  The lookup is
    made first, so 404 takes precedence over 403.  Nothing is changed in
    either case. *)
Theorem update_delete_not_found_before_forbidden
  (castObjectId : string -> option ObjectId) (id : string) (i : ObjectId)
  (db : list Blog.t) :
  castObjectId id = Some i ->
  (Blog_findById i db = None ->
   forall L now user req,
     updateBlog castObjectId L now user id req db
     = (db, failure 404 "Blog not found")
     /\ deleteBlog castObjectId user id db
        = (db, failure 404 "Blog not found"))
  /\ (forall blog,
         Blog_findById i db = Some blog ->
         forall L now user req,
           Blog.author blog <> User._id user ->
           updateBlog castObjectId L now user id req db
           = (db, failure 403 "You are not authorized to update this blog")
           /\ deleteBlog castObjectId user id db
              = (db, failure 403 "You are not authorized to delete this blog")).
Proof.
  intros Hc. split.
  - intros Hnone L now user req. unfold updateBlog, deleteBlog.
    rewrite Hc, Hnone. split; reflexivity.
  - intros blog Hf L now user req Hauthor. unfold updateBlog, deleteBlog.
    rewrite Hc, Hf. apply String.eqb_neq in Hauthor. rewrite Hauthor.
    split; reflexivity.
Qed.

(** C5, counterexample.  No blog has the identifier ["abc"], and a request
    of [bob] to update or delete it is answered 400 "Invalid ID format",
    not 404. *)
Lemma update_delete_malformed_counterexample :
  Blog_findById "abc" [sample_blog (sample_id 1) "Hello" Blog.published] = None
  /\ updateBlog castObjectId_hex sample_library 5000 bob "abc"
       (blog_req (mkBody (Some "Mine") None None None None))
       [sample_blog (sample_id 1) "Hello" Blog.published]
     = ([sample_blog (sample_id 1) "Hello" Blog.published],
        failure 400 "Invalid ID format")
  /\ deleteBlog castObjectId_hex bob "abc"
       [sample_blog (sample_id 1) "Hello" Blog.published]
     = ([sample_blog (sample_id 1) "Hello" Blog.published],
        failure 400 "Invalid ID format").
Proof. repeat split; vm_compute; reflexivity. Qed.

Lemma update_delete_not_found_before_forbidden_witness :
  (updateBlog castObjectId_hex sample_library 5000 bob (sample_id 2)
     (blog_req (mkBody (Some "Mine") None None None None))
     [sample_blog (sample_id 1) "Hello" Blog.published]
   = ([sample_blog (sample_id 1) "Hello" Blog.published],
      failure 404 "Blog not found")
   /\ deleteBlog castObjectId_hex bob (sample_id 2)
        [sample_blog (sample_id 1) "Hello" Blog.published]
      = ([sample_blog (sample_id 1) "Hello" Blog.published],
         failure 404 "Blog not found"))
  /\ (updateBlog castObjectId_hex sample_library 5000 bob (sample_id 1)
        (blog_req (mkBody (Some "Mine") None None None None))
        [sample_blog (sample_id 1) "Hello" Blog.published]
      = ([sample_blog (sample_id 1) "Hello" Blog.published],
         failure 403 "You are not authorized to update this blog")
      /\ deleteBlog castObjectId_hex bob (sample_id 1)
           [sample_blog (sample_id 1) "Hello" Blog.published]
         = ([sample_blog (sample_id 1) "Hello" Blog.published],
            failure 403 "You are not authorized to delete this blog")).
Proof.
  split.
  - apply (update_delete_not_found_before_forbidden castObjectId_hex
             (sample_id 2) (sample_id 2)
             [sample_blog (sample_id 1) "Hello" Blog.published]);
      vm_compute; reflexivity.
  - apply (proj2 (update_delete_not_found_before_forbidden castObjectId_hex
                      (sample_id 1) (sample_id 1)
                      [sample_blog (sample_id 1) "Hello" Blog.published] eq_refl)
                   (sample_blog (sample_id 1) "Hello" Blog.published) eq_refl).
    vm_compute. discriminate.
Defined.

(** ** Malformed identifiers *)

Lemma errorHandler_CastError (value : string) :
  errorHandler (CastError value) = failure 400 "Invalid ID format".
Proof. reflexivity. Qed.

(** C10.  When the route parameter is not a well-formed identifier, the
    fetch and, for an authenticated caller, the update and the delete all
    answer 400 with the message "Invalid ID format", which is not the 404
    of a missing blog, and change nothing. *)
Theorem malformed_id_is_validation_failure
  (castObjectId : string -> option ObjectId) (id : string) :
  castObjectId id = None ->
  forall L now user req db,
    getBlogById castObjectId now id db = (db, failure 400 "Invalid ID format")
    /\ updateBlog castObjectId L now user id req db
       = (db, failure 400 "Invalid ID format")
    /\ deleteBlog castObjectId user id db
       = (db, failure 400 "Invalid ID format")
    /\ failure 400 "Invalid ID format" <> failure 404 "Blog not found".
Proof.
  intros Hc L now user req db. unfold getBlogById, updateBlog, deleteBlog.
  rewrite Hc, errorHandler_CastError. repeat split. discriminate.
Qed.

Lemma malformed_id_is_validation_failure_witness :
  getBlogById castObjectId_hex 5000 "not-an-id"
    [sample_blog (sample_id 1) "Hello" Blog.published]
  = ([sample_blog (sample_id 1) "Hello" Blog.published],
     failure 400 "Invalid ID format").
Proof.
  apply (malformed_id_is_validation_failure castObjectId_hex "not-an-id"
           eq_refl sample_library 5000 alice
           (blog_req (mkBody None None None None None))).
Defined.

(** ** The cases of the controllers on typed requests *)

Lemma findById_some (i : ObjectId) (db : list Blog.t) (b : Blog.t) :
  Blog_findById i db = Some b -> In b db /\ Blog._id b = i.
Proof.
  intros H. apply find_some in H as [Hin H]. now apply has_id_eq in H.
Qed.

Lemma findById_replaced (i : ObjectId) (b b' : Blog.t) (db : list Blog.t) :
  Blog_findById i db = Some b ->
  Blog._id b' = i ->
  Blog_findById i (map (fun x => if has_id i x then b' else x) db) = Some b'.
Proof.
  intros Hf Hid. unfold Blog_findById in *.
  induction db as [|x db IH]; [discriminate|].
  cbn [map find] in *. destruct (has_id i x) eqn:Hx.
  - assert (Hb : has_id i b' = true) by now apply has_id_eq.
    now rewrite Hb.
  - rewrite Hx. now apply IH.
Qed.

(** What [save_existing] returns when it returns. *)
Lemma save_existing_ok (now : Z) (original doc : Blog.t) (db db' : list Blog.t)
  (saved : Blog.t) :
  save_existing now original doc db = Ok (db', saved) ->
  saved = set_updatedAt now doc
  /\ db' = map (fun b => if has_id (Blog._id doc) b then saved else b) db.
Proof.
  rewrite save_existing_unfold; cbv zeta. destruct (validate doc); [|discriminate].
  destruct (_ && _); [discriminate|].
  intros H. injection H as <- <-. split; reflexivity.
Qed.

Lemma save_existing_throw (now : Z) (original doc : Blog.t) (db : list Blog.t)
  (e : js_error) :
  save_existing now original doc db = Throw e -> status (errorHandler e) = 400.
Proof.
  rewrite save_existing_unfold; cbv zeta. destruct (validate doc).
  - destruct (_ && _); [|discriminate]. intros H. injection H as <-. reflexivity.
  - intros H. injection H as <-. reflexivity.
Qed.

Lemma truthy_js (v : option string) : truthy (js v) = negb (the v =? "")%string.
Proof. destruct v; reflexivity. Qed.



(** ** The outcomes of the controllers that write *)

Lemma createBlog_cases
  (fresh : ObjectId) (now : Z) (user : User.t) (body : blog_body)
  (db : list Blog.t) :
  let blog := created_blog fresh now user body in
  (fst (createBlog_typed fresh now user body db) = db
   /\ success (snd (createBlog_typed fresh now user body db)) = false
   /\ status (snd (createBlog_typed fresh now user body db)) = 400)
  \/ (createBlog_typed fresh now user body db
      = ((db ++ [blog])%list,
         mkResponse 201 true (Some "Blog created successfully") (BlogData blog))
      /\ the (body_body body) <> ""
      /\ Blog.title blog <> ""
      /\ (forall b, In b db -> Blog._id b <> fresh)
      /\ (forall b, In b db -> Blog.title b <> Blog.title blog)).
Proof.
  intros blog. unfold createBlog_typed. cbv zeta. rewrite !truthy_js.
  destruct (the (body_title body) =? "")%string eqn:Et; cbn [negb orb];
    [left; now repeat split|].
  destruct (the (body_body body) =? "")%string eqn:Eb; cbn [negb orb];
    [left; now repeat split|].
  rewrite save_new_unfold; cbv zeta.
  change (validate (new_Blog _ _ _ _ _ _ _ _ _)) with (validate blog).
  unfold validate. cbn [Blog.body blog created_blog]. rewrite Eb.
  destruct (Blog.title blog =? "")%string eqn:Etb; cbn [app];
    [left; now repeat split|].
  change (set_updatedAt now (new_Blog _ _ _ _ _ _ _ _ _)) with blog.
  destruct (existsb (has_id (Blog._id blog)) db) eqn:E1;
    [left; now repeat split|].
  destruct (existsb (same_title blog) db) eqn:E2; [left; now repeat split|].
  right. split; [reflexivity|]. apply String.eqb_neq in Eb, Etb.
  repeat split; try assumption.
  - intros b Hin Hid.
    assert (existsb (has_id (Blog._id blog)) db = true); [|congruence].
    apply existsb_exists. exists b. split; [exact Hin|]. now apply has_id_eq.
  - intros b Hin Ht.
    assert (existsb (same_title blog) db = true); [|congruence].
    apply existsb_exists. exists b. split; [exact Hin|]. now apply String.eqb_eq.
Qed.

(** The document built by the assignments of [updateBlog_typed], and what the
    controller does with it. *)
Lemma updateBlog_owner
  (castObjectId : string -> option ObjectId) (now : Z) (user : User.t)
  (id : string) (i : ObjectId) (body : blog_body) (db : list Blog.t)
  (original : Blog.t) :
  castObjectId id = Some i ->
  Blog_findById i db = Some original ->
  Blog.author original = User._id user ->
  updateBlog_typed castObjectId now user id body db
  = match save_existing now original (updated_blog body original) db with
    | Throw error => (db, errorHandler error)
    | Ok (db', blog) =>
        (db', mkResponse 200 true (Some "Blog updated successfully")
                         (BlogData blog))
    end.
Proof.
  intros Hc Hf Ha. unfold updateBlog_typed. cbv zeta. rewrite Hc, Hf, Ha.
  rewrite String.eqb_refl. cbn [negb].
  match goal with
  | |- context [save_existing now original ?d db] =>
      assert (Hdoc : d = updated_blog body original)
  end.
  { unfold updated_blog.
    destruct original as [oi ot od oa os orc ort otg ob ots ou].
    destruct body as [[t|] [d|] [g|] [b|] [s|]];
      cbn [body_title body_description body_tags body_body body_state
           js the truthy existsb];
      try (destruct (String.eqb_spec s "draft") as [->|Hd];
           [|destruct (String.eqb_spec s "published") as [->|Hp];
             [|rewrite andb_false_r]]);
      try destruct (t =? "")%string; try destruct (b =? "")%string;
      reflexivity. }
  now rewrite Hdoc.
Qed.

Lemma updateBlog_cases
  (castObjectId : string -> option ObjectId) (now : Z) (user : User.t)
  (id : string) (body : blog_body) (db : list Blog.t) :
  (fst (updateBlog_typed castObjectId now user id body db) = db
   /\ status (snd (updateBlog_typed castObjectId now user id body db)) <> 200)
  \/ exists i original,
      castObjectId id = Some i
      /\ Blog_findById i db = Some original
      /\ Blog.author original = User._id user
      /\ validate (updated_blog body original) = []
      /\ (Blog.title (updated_blog body original) <> Blog.title original ->
          forall b, In b db -> Blog._id b <> i ->
                    Blog.title b <> Blog.title (updated_blog body original))
      /\ updateBlog_typed castObjectId now user id body db
         = (map (fun b => if has_id i b
                          then set_updatedAt now (updated_blog body original)
                          else b) db,
            mkResponse 200 true (Some "Blog updated successfully")
              (BlogData (set_updatedAt now (updated_blog body original)))).
Proof.
  destruct (castObjectId id) as [i|] eqn:Hc;
    [|left; unfold updateBlog_typed; rewrite Hc; split; [reflexivity|discriminate]].
  destruct (Blog_findById i db) as [original|] eqn:Hf;
    [|left; unfold updateBlog_typed; rewrite Hc, Hf; split; [reflexivity|discriminate]].
  destruct (negb (Blog.author original =? User._id user)%string) eqn:Ha;
    [left; unfold updateBlog_typed; rewrite Hc, Hf, Ha; split;
     [reflexivity|discriminate]|].
  apply negb_false_iff, String.eqb_eq in Ha.
  rewrite (updateBlog_owner castObjectId now user id i body db original Hc Hf Ha).
  apply findById_some in Hf as Hf'. destruct Hf' as [_ Hid].
  rewrite save_existing_unfold; cbv zeta.
  destruct (validate (updated_blog body original)) eqn:Hv;
    [|left; split; [reflexivity|discriminate]].
  cbn [set_updatedAt Blog.title Blog._id updated_blog]. rewrite Hid.
  match goal with
  | |- context [if ?c then Throw _ else _] => destruct c eqn:Hdup
  end; [left; split; [reflexivity|discriminate]|].
  right. exists i, original. repeat split; try assumption.
  intros Hne b Hin Hb Ht.
  apply andb_false_iff in Hdup as [Hdup|Hdup].
  - apply negb_false_iff, String.eqb_eq in Hdup. now apply Hne.
  - assert (existsb (fun b0 => negb (has_id i b0)
                               && same_title (set_updatedAt now
                                    (updated_blog body original)) b0) db = true);
      [|cbn [set_updatedAt] in *; congruence].
    apply existsb_exists. exists b. split; [exact Hin|].
    apply andb_true_iff. split.
    + apply negb_true_iff. destruct (has_id i b) eqn:E; [|reflexivity].
      apply has_id_eq in E. contradiction.
    + apply String.eqb_eq. exact Ht.
Qed.

Lemma getBlogById_cases
  (castObjectId : string -> option ObjectId) (now : Z) (id : string)
  (db : list Blog.t) :
  (fst (getBlogById castObjectId now id db) = db
   /\ status (snd (getBlogById castObjectId now id db)) <> 200)
  \/ exists i original,
      castObjectId id = Some i
      /\ Blog_findOne_published i db = Some original
      /\ validate original = []
      /\ getBlogById castObjectId now id db
         = (map (fun b => if has_id i b
                          then set_updatedAt now
                                 (set_read_count (Blog.read_count original + 1)
                                                 original)
                          else b) db,
            mkResponse 200 true None
              (BlogData (set_updatedAt now
                           (set_read_count (Blog.read_count original + 1)
                                           original)))).
Proof.
  destruct (castObjectId id) as [i|] eqn:Hc;
    [|left; unfold getBlogById; rewrite Hc; split; [reflexivity|discriminate]].
  destruct (Blog_findOne_published i db) as [original|] eqn:Hf;
    [|left; unfold getBlogById; rewrite Hc, Hf; split; [reflexivity|discriminate]].
  destruct (list_eq_dec string_dec (validate original) []) as [Hv|Hv].
  - right. exists i, original. repeat split; try assumption.
    now apply getBlogById_found.
  - left. destruct (incrementReadCount_throw now original db Hv) as [e [He H400]].
    unfold getBlogById. rewrite Hc, Hf, He. cbn [fst snd].
    split; [reflexivity|]. rewrite H400. discriminate.
Qed.
(** ** The cases of the controllers on any request *)

Lemma kept_refl (a : Blog.t) : kept a a.
Proof. repeat split. Qed.

Lemma kept_trans (a b c : Blog.t) : kept a b -> kept b c -> kept a c.
Proof.
  unfold kept. intros (H1 & H2 & H3 & H4 & H5 & H6 & H7)
                      (K1 & K2 & K3 & K4 & K5 & K6 & K7).
  repeat split; congruence.
Qed.

(** The assignment of a title, a description or tags changes neither the
    body nor what [kept] lists; it adds a failed cast or none. *)
Lemma assign_title_kept (L : library) (v : option json) (p : assigned) :
  let p' := when_given (assign_title L) v p in
  kept (fst p) (fst p') /\ Blog.body (fst p') = Blog.body (fst p)
  /\ (snd p' = [] -> snd p = []).
Proof.
  destruct p as [b casts].
  destruct v as [[| x | q | s | items | members]|]; cbn;
    unfold assign_title, cast_failed, cast_String; cbn;
    try destruct (cast_string L _); cbn;
    repeat split; auto; intros H; now apply app_eq_nil in H.
Qed.

Lemma assign_description_kept (L : library) (v : option json) (p : assigned) :
  let p' := when_given (assign_description L) v p in
  kept (fst p) (fst p') /\ Blog.body (fst p') = Blog.body (fst p)
  /\ Blog.title (fst p') = Blog.title (fst p)
  /\ (snd p' = [] -> snd p = []).
Proof.
  destruct p as [b casts].
  destruct v as [[| x | q | s | items | members]|]; cbn;
    unfold assign_description, cast_failed, cast_String; cbn;
    try destruct (cast_string L _); cbn;
    repeat split; auto; intros H; now apply app_eq_nil in H.
Qed.

Lemma assign_tags_kept (L : library) (v : option json) (p : assigned) :
  let p' := when_given (assign_tags L) v p in
  kept (fst p) (fst p') /\ Blog.body (fst p') = Blog.body (fst p)
  /\ Blog.title (fst p') = Blog.title (fst p)
  /\ (snd p' = [] -> snd p = []).
Proof.
  destruct p as [b casts].
  destruct v as [[| x | q | s | items | members]|]; cbn;
    unfold assign_tags, cast_failed, cast_Strings; cbn;
    try destruct (strings_of items); try destruct (cast_strings L _); cbn;
    repeat split; auto; intros H; now apply app_eq_nil in H.
Qed.

(** The assignment of a body: a string is stored as it is; a value that
    is not a string is stored as the library casts it, or fails. *)
Lemma assign_body_kept (L : library) (v : option json) (p : assigned) :
  let p' := when_given (assign_body L) v p in
  kept (fst p) (fst p') /\ Blog.title (fst p') = Blog.title (fst p)
  /\ (snd p' = [] -> snd p = [])
  /\ (forall s, v = Some (JsString s) -> Blog.body (fst p') = s).
Proof.
  destruct p as [b casts].
  destruct v as [[| x | q | s | items | members]|]; cbn;
    unfold assign_body, cast_failed, cast_String; cbn;
    try destruct (cast_string L _); cbn;
    repeat split; auto; try discriminate;
    try (intros H; now apply app_eq_nil in H).
  intros s' [= <-]. reflexivity.
Qed.

Lemma failures_nil (casts : list (string * string)) (doc : Blog.t) :
  failures casts doc = [] ->
  casts = [] /\ Blog.title doc <> "" /\ Blog.body doc <> "".
Proof.
  unfold failures. destruct casts as [|c casts]; [|discriminate].
  cbn [map app failed existsb].
  destruct (String.eqb_spec (Blog.title doc) ""); [discriminate|].
  destruct (String.eqb_spec (Blog.body doc) ""); [discriminate|].
  now repeat split.
Qed.

(** What [save_new_with] does: it throws an error that is answered 400, or
    it appends the document. *)
Lemma save_new_with_cases (casts : list (string * string)) (now : Z)
  (doc : Blog.t) (db : list Blog.t) :
  (exists e, save_new_with casts now doc db = Throw e
             /\ status (errorHandler e) = 400)
  \/ (casts = [] /\ Blog.title doc <> "" /\ Blog.body doc <> ""
      /\ (forall b, In b db -> Blog._id b <> Blog._id doc)
      /\ (forall b, In b db -> Blog.title b <> Blog.title doc)
      /\ save_new_with casts now doc db
         = Ok ((db ++ [set_updatedAt now doc])%list, set_updatedAt now doc)).
Proof.
  unfold save_new_with. destruct (failures casts doc) as [|m ms] eqn:Ef.
  2:{ left. eexists. split; reflexivity. }
  apply failures_nil in Ef as (-> & Ht & Hb). cbv zeta.
  destruct (existsb (has_id (Blog._id (set_updatedAt now doc))) db) eqn:E1;
    [left; eexists; split; reflexivity|].
  destruct (existsb (same_title (set_updatedAt now doc)) db) eqn:E2;
    [left; eexists; split; reflexivity|].
  right. repeat split; try assumption.
  - intros b Hin Hid.
    assert (existsb (has_id (Blog._id (set_updatedAt now doc))) db = true);
      [|congruence].
    apply existsb_exists. exists b. split; [exact Hin|]. now apply has_id_eq.
  - intros b Hin Hbt.
    assert (existsb (same_title (set_updatedAt now doc)) db = true);
      [|congruence].
    apply existsb_exists. exists b. split; [exact Hin|]. now apply String.eqb_eq.
Qed.

(** What [save_existing_with] does: it throws an error that is answered
    400, or it replaces the document. *)
Lemma save_existing_with_cases (casts : list (string * string)) (now : Z)
  (original doc : Blog.t) (db : list Blog.t) :
  (exists e, save_existing_with casts now original doc db = Throw e
             /\ status (errorHandler e) = 400)
  \/ (casts = [] /\ Blog.title doc <> "" /\ Blog.body doc <> ""
      /\ (Blog.title doc <> Blog.title original ->
          forall b, In b db -> Blog._id b <> Blog._id doc ->
                    Blog.title b <> Blog.title doc)
      /\ save_existing_with casts now original doc db
         = Ok (map (fun b => if has_id (Blog._id doc) b
                             then set_updatedAt now doc else b) db,
               set_updatedAt now doc)).
Proof.
  unfold save_existing_with. destruct (failures casts doc) as [|m ms] eqn:Ef.
  2:{ left. eexists. split; reflexivity. }
  apply failures_nil in Ef as (-> & Ht & Hb). cbv zeta.
  change (Blog.title (set_updatedAt now doc)) with (Blog.title doc).
  change (Blog._id (set_updatedAt now doc)) with (Blog._id doc).
  destruct (negb (Blog.title doc =? Blog.title original)%string
            && existsb _ db) eqn:E;
    [left; eexists; split; reflexivity|].
  right. repeat split; try assumption.
  intros Hne b Hin Hid Hbt.
  apply andb_false_iff in E as [E|E].
  - apply negb_false_iff, String.eqb_eq in E. contradiction.
  - assert (existsb (fun b0 => negb (has_id (Blog._id doc) b0)
                               && same_title (set_updatedAt now doc) b0) db
            = true); [|congruence].
    apply existsb_exists. exists b. split; [exact Hin|].
    apply andb_true_iff. split.
    + apply negb_true_iff. destruct (has_id (Blog._id doc) b) eqn:Eh;
        [|reflexivity].
      apply has_id_eq in Eh. contradiction.
    + now apply String.eqb_eq.
Qed.

(** A text that is not empty takes a minute at least; a value that is not
    a string takes none. *)
Lemma reading_time_positive (s : string) :
  s <> "" -> 1 <= calculateReadingTime (JStr s).
Proof.
  intros Hs. apply String.eqb_neq in Hs.
  unfold calculateReadingTime. cbn [truthy typeof]. rewrite Hs.
  simpl negb. cbn [orb]. cbv zeta.
  unfold wordsPerMinute. rewrite Math_ceil_div by lia.
  set (n := Z.of_nat _). assert (0 <= n) by (unfold n; lia).
  unfold num_or. destruct (Z.eqb_spec ((n + 200 - 1) / 200) 0); [lia|].
  assert (0 <= (n + 200 - 1) / 200) by (apply Z.div_pos; lia). lia.
Qed.

Lemma reading_time_not_string (v : jsval) :
  typeof v <> "string" -> calculateReadingTime v = 0.
Proof.
  destruct v; intros H; try reflexivity; [| |now elim H];
    unfold calculateReadingTime; cbn [typeof]; cbn [String.eqb Ascii.eqb Bool.eqb];
    now rewrite orb_true_r.
Qed.

(** The outcomes of a create, whatever the members of its body. *)
Lemma createBlog_any_cases (L : library) (fresh : ObjectId) (now : Z)
  (user : User.t) (req : blog_request) (db : list Blog.t) :
  let answer := createBlog L fresh now user req db in
  (fst answer = db /\ success (snd answer) = false
   /\ status (snd answer) = 400)
  \/ exists doc,
       answer = ((db ++ [doc])%list,
                 mkResponse 201 true (Some "Blog created successfully")
                            (BlogData doc))
       /\ kept (Blog.mk fresh "" None (User._id user) Blog.draft 0
                        (calculateReadingTime (jsv (req_body req))) [] ""
                        now now) doc
       /\ truthy (jsv (req_title req)) = true
       /\ truthy (jsv (req_body req)) = true
       /\ Blog.title doc <> "" /\ Blog.body doc <> ""
       /\ (forall s, req_body req = Some (JsString s) -> Blog.body doc = s)
       /\ (forall b, In b db -> Blog._id b <> fresh)
       /\ (forall b, In b db -> Blog.title b <> Blog.title doc).
Proof.
  intros answer. unfold answer, createBlog. cbv zeta.
  destruct (truthy (jsv (req_title req))) eqn:Tt; cbn [negb orb];
    [|left; now repeat split].
  destruct (truthy (jsv (req_body req))) eqn:Tb; cbn [negb orb];
    [|left; now repeat split].
  unfold new_Blog_from.
  set (p0 := (Blog.mk fresh "" None (User._id user) Blog.draft 0
                      (calculateReadingTime (jsv (req_body req))) [] ""
                      now now, @nil (string * string))).
  set (p1 := when_given (assign_title L) (req_title req) p0).
  set (p2 := when_given (assign_description L) (req_description req) p1).
  set (p3 := when_given (assign_tags L) _ p2).
  set (p4 := when_given (assign_body L) (req_body req) p3).
  destruct (assign_title_kept L (req_title req) p0) as (K1 & _).
  destruct (assign_description_kept L (req_description req) p1) as (K2 & _).
  destruct (assign_tags_kept L
              (if truthy (jsv (req_tags req)) then req_tags req
               else Some (JsArray [])) p2) as (K3 & _).
  destruct (assign_body_kept L (req_body req) p3) as (K4 & _ & _ & Hbody).
  fold p1 in K1. fold p2 in K2. fold p3 in K3. fold p4 in K4, Hbody.
  assert (K : kept (fst p0) (fst p4)).
  { eapply kept_trans; [exact K1|]. eapply kept_trans; [exact K2|].
    eapply kept_trans; [exact K3|exact K4]. }
  destruct (save_new_with_cases (snd p4) now (fst p4) db)
    as [(e & -> & H400) | (_ & Ht & Hb & Hid & Htitle & ->)].
  { left. cbn [fst snd]. split; [reflexivity|].
    split; [apply errorHandler_failure|exact H400]. }
  right. exists (set_updatedAt now (fst p4)). split; [reflexivity|].
  destruct K as (Q1 & Q2 & Q3 & Q4 & Q5 & Q6 & Q7). cbn [fst p0] in *.
  cbn [Blog._id Blog.author Blog.state Blog.read_count Blog.reading_time
       Blog.timestamp Blog.updatedAt] in *.
  split.
  { unfold kept. cbn. repeat split; assumption. }
  split; [reflexivity|]. split; [reflexivity|].
  split; [exact Ht|]. split; [exact Hb|].
  split; [exact Hbody|]. split.
  - intros b Hin. rewrite <- Q1. now apply Hid.
  - exact Htitle.
Qed.

(** The outcomes of an update, whatever the members of its body. *)
Lemma updateBlog_any_cases
  (castObjectId : string -> option ObjectId) (L : library) (now : Z)
  (user : User.t) (id : string) (req : blog_request) (db : list Blog.t) :
  let answer := updateBlog castObjectId L now user id req db in
  (fst answer = db /\ status (snd answer) <> 200)
  \/ exists i original doc,
       castObjectId id = Some i
       /\ Blog_findById i db = Some original
       /\ Blog.author original = User._id user
       /\ answer = (map (fun b => if has_id i b then doc else b) db,
                    mkResponse 200 true (Some "Blog updated successfully")
                               (BlogData doc))
       /\ Blog._id doc = i
       /\ Blog.author doc = Blog.author original
       /\ Blog.read_count doc = Blog.read_count original
       /\ Blog.timestamp doc = Blog.timestamp original
       /\ Blog.updatedAt doc = now
       /\ Blog.title doc <> "" /\ Blog.body doc <> ""
       /\ (Blog.title doc <> Blog.title original ->
           forall b, In b db -> Blog._id b <> i -> Blog.title b <> Blog.title doc)
       /\ Blog.reading_time doc
          = (if truthy (jsv (req_body req))
             then calculateReadingTime (jsv (req_body req))
             else Blog.reading_time original)
       /\ (truthy (jsv (req_body req)) = false ->
           Blog.body doc = Blog.body original)
       /\ (forall s, req_body req = Some (JsString s) -> s <> "" ->
                     Blog.body doc = s).
Proof.
  intros answer. unfold answer, updateBlog. cbv zeta.
  destruct (castObjectId id) as [i|] eqn:Hc;
    [|left; split; [reflexivity|discriminate]].
  destruct (Blog_findById i db) as [original|] eqn:Hf;
    [|left; split; [reflexivity|discriminate]].
  destruct (negb (Blog.author original =? User._id user)%string) eqn:Ha;
    [left; split; [reflexivity|discriminate]|].
  apply negb_false_iff, String.eqb_eq in Ha.
  pose proof (findById_some _ _ _ Hf) as [Hin Hid].
  set (p0 := (original, @nil (string * string))).
  set (p1 := if truthy (jsv (req_title req))
             then when_given (assign_title L) (req_title req) p0 else p0).
  set (p2 := when_given (assign_description L) (req_description req) p1).
  set (p3 := if truthy (jsv (req_tags req))
             then when_given (assign_tags L) (req_tags req) p2 else p2).
  set (p4 := if truthy (jsv (req_body req))
             then (set_reading_time (calculateReadingTime (jsv (req_body req)))
                     (fst (when_given (assign_body L) (req_body req) p3)),
                   snd (when_given (assign_body L) (req_body req) p3))
             else p3).
  set (p5 := match req_state req with
             | Some (JsString s) =>
                 if truthy (JStr s) && existsb (String.eqb s) ["draft"; "published"]
                 then (set_state (if (s =? "draft")%string
                                  then Blog.draft else Blog.published)
                                 (fst p4), snd p4)
                 else p4
             | _ => p4
             end).
  assert (F1 : Blog._id (fst p1) = i /\ Blog.author (fst p1) = Blog.author original
               /\ Blog.read_count (fst p1) = Blog.read_count original
               /\ Blog.timestamp (fst p1) = Blog.timestamp original
               /\ Blog.reading_time (fst p1) = Blog.reading_time original
               /\ Blog.body (fst p1) = Blog.body original).
  { unfold p1. destruct (truthy (jsv (req_title req)));
      [|cbn; now repeat split].
    destruct (assign_title_kept L (req_title req) p0)
      as ((Q1 & Q2 & Q3 & Q4 & Q5 & Q6 & Q7) & Qb & _).
    cbn [fst p0] in *. repeat split; congruence. }
  assert (F2 : Blog._id (fst p2) = i /\ Blog.author (fst p2) = Blog.author original
               /\ Blog.read_count (fst p2) = Blog.read_count original
               /\ Blog.timestamp (fst p2) = Blog.timestamp original
               /\ Blog.reading_time (fst p2) = Blog.reading_time original
               /\ Blog.body (fst p2) = Blog.body original).
  { destruct (assign_description_kept L (req_description req) p1)
      as ((Q1 & Q2 & Q3 & Q4 & Q5 & Q6 & Q7) & Qb & _).
    fold p2 in Q1, Q2, Q3, Q4, Q5, Q6, Q7, Qb.
    destruct F1 as (A1 & A2 & A3 & A4 & A5 & A6). repeat split; congruence. }
  assert (F3 : Blog._id (fst p3) = i /\ Blog.author (fst p3) = Blog.author original
               /\ Blog.read_count (fst p3) = Blog.read_count original
               /\ Blog.timestamp (fst p3) = Blog.timestamp original
               /\ Blog.reading_time (fst p3) = Blog.reading_time original
               /\ Blog.body (fst p3) = Blog.body original).
  { unfold p3. destruct (truthy (jsv (req_tags req))); [|exact F2].
    destruct (assign_tags_kept L (req_tags req) p2)
      as ((Q1 & Q2 & Q3 & Q4 & Q5 & Q6 & Q7) & Qb & _).
    destruct F2 as (A1 & A2 & A3 & A4 & A5 & A6). repeat split; congruence. }
  assert (F4 : Blog._id (fst p4) = i /\ Blog.author (fst p4) = Blog.author original
               /\ Blog.read_count (fst p4) = Blog.read_count original
               /\ Blog.timestamp (fst p4) = Blog.timestamp original
               /\ Blog.reading_time (fst p4)
                  = (if truthy (jsv (req_body req))
                     then calculateReadingTime (jsv (req_body req))
                     else Blog.reading_time original)
               /\ (truthy (jsv (req_body req)) = false ->
                   Blog.body (fst p4) = Blog.body original)
               /\ (forall s, req_body req = Some (JsString s) -> s <> "" ->
                             Blog.body (fst p4) = s)).
  { unfold p4. destruct F3 as (A1 & A2 & A3 & A4 & A5 & A6).
    destruct (truthy (jsv (req_body req))) eqn:Tb.
    - destruct (assign_body_kept L (req_body req) p3)
        as ((Q1 & Q2 & Q3 & Q4 & Q5 & Q6 & Q7) & _ & _ & Qb).
      cbn [fst snd set_reading_time Blog._id Blog.author Blog.read_count
           Blog.timestamp Blog.reading_time Blog.body].
      repeat split; try congruence. intros s Hs _. now apply Qb.
    - repeat split; try assumption; [intros _; exact A6|].
      intros s Hs Hne. rewrite Hs in Tb. cbn in Tb.
      apply negb_false_iff, String.eqb_eq in Tb. contradiction. }
  assert (F5 : Blog._id (fst p5) = i /\ Blog.author (fst p5) = Blog.author original
               /\ Blog.read_count (fst p5) = Blog.read_count original
               /\ Blog.timestamp (fst p5) = Blog.timestamp original
               /\ Blog.reading_time (fst p5) = Blog.reading_time (fst p4)
               /\ Blog.body (fst p5) = Blog.body (fst p4)).
  { destruct F4 as (A1 & A2 & A3 & A4 & _).
    unfold p5. destruct (req_state req) as [[| x | q | s | items | members]|];
      try (now repeat split).
    destruct (_ && _); now repeat split. }
  fold p5.
  destruct (save_existing_with_cases (snd p5) now original (fst p5) db)
    as [(e & -> & H400) | (_ & Ht & Hb & Hfree & ->)].
  { left. cbn [fst snd]. split; [reflexivity|]. rewrite H400. discriminate. }
  right. exists i, original, (set_updatedAt now (fst p5)).
  destruct F5 as (B1 & B2 & B3 & B4 & B5 & B6).
  destruct F4 as (_ & _ & _ & _ & A5 & A6 & A7).
  rewrite B1 in *.
  cbn [set_updatedAt Blog._id Blog.author Blog.read_count Blog.timestamp
       Blog.updatedAt Blog.title Blog.body Blog.reading_time].
  repeat split; try assumption; try congruence.
  - intros Hb0. rewrite B6. now apply A6.
  - intros s Hs Hne. rewrite B6. now apply A7.
Qed.
(** ** Partial update *)

(** C6 (as amended).  The author updates a blog with a body whose members
    have their documented types.  Let the new title be the provided title,
    trimmed, when one is provided and is not empty, and the stored title
    otherwise; let the new body be the provided body when one is provided
    and is not empty, and the stored body otherwise.  The update is
    accepted exactly when the new title and the new body are not empty and
    the new title is the stored one or the title of no other blog: so a
    title of white space alone, or the title of another blog, is refused.
    A refused update is answered 400 and changes nothing.  An accepted
    update stores and returns a blog that has the new title and the new
    body and differs from the original in nothing else but this and
    [updatedAt]: a provided description, the empty string included,
    replaces the description, trimmed, while an absent one leaves it;
    provided tags replace the tags; [reading_time] is recomputed from a
    body that is provided and not empty, and left otherwise; a state that
    is exactly ["draft"] or ["published"] replaces the state, any other
    leaves it. *)
Theorem updateBlog_partial
  (L : library) (castObjectId : string -> option ObjectId) (now : Z)
  (user : User.t) (id : string) (i : ObjectId) (body : blog_body)
  (db : list Blog.t) (original : Blog.t) :
  let new_title :=
    match body_title body with
    | Some t => if (t =? "")%string then Blog.title original else trim_string t
    | None => Blog.title original
    end in
  let new_body :=
    match body_body body with
    | Some b => if (b =? "")%string then Blog.body original else b
    | None => Blog.body original
    end in
  let answer := updateBlog castObjectId L now user id (blog_req body) db in
  castObjectId id = Some i ->
  Blog_findById i db = Some original ->
  Blog.author original = User._id user ->
  (status (snd answer) = 200 <->
   new_title <> "" /\ new_body <> ""
   /\ (new_title = Blog.title original
       \/ forall b, In b db -> Blog._id b <> i -> Blog.title b <> new_title))
  /\ (status (snd answer) <> 200 ->
      fst answer = db /\ status (snd answer) = 400
      /\ success (snd answer) = false)
  /\ (status (snd answer) = 200 ->
      exists blog,
        snd answer
        = mkResponse 200 true (Some "Blog updated successfully") (BlogData blog)
        /\ fst answer = map (fun b => if has_id i b then blog else b) db
        /\ Blog_findById i (fst answer) = Some blog
        /\ Blog.title blog = new_title
        /\ Blog.description blog
           = match body_description body with
             | Some d => Some (trim_string d)
             | None => Blog.description original
             end
        /\ Blog.tags blog
           = match body_tags body with
             | Some t => t
             | None => Blog.tags original
             end
        /\ Blog.body blog = new_body
        /\ Blog.reading_time blog
           = match body_body body with
             | Some b => if (b =? "")%string then Blog.reading_time original
                         else calculateReadingTime (JStr b)
             | None => Blog.reading_time original
             end
        /\ Blog.state blog
           = match body_state body with
             | Some s => if (s =? "draft")%string then Blog.draft
                         else if (s =? "published")%string then Blog.published
                         else Blog.state original
             | None => Blog.state original
             end
        /\ Blog._id blog = Blog._id original
        /\ Blog.author blog = Blog.author original
        /\ Blog.read_count blog = Blog.read_count original
        /\ Blog.timestamp blog = Blog.timestamp original
        /\ Blog.updatedAt blog = now).
Proof.
  intros new_title new_body answer Hc Hf Hauthor.
  apply findById_some in Hf as Hf'. destruct Hf' as [Hin Hid].
  unfold answer. rewrite updateBlog_on_typed.
  rewrite (updateBlog_owner castObjectId now user id i body db original Hc Hf Hauthor).
  rewrite save_existing_unfold. cbv zeta.
  set (doc := updated_blog body original).
  assert (Ht : Blog.title doc = new_title) by reflexivity.
  assert (Hb : Blog.body doc = new_body) by reflexivity.
  assert (Hi : Blog._id doc = i) by exact Hid.
  assert (Hv : validate doc = [] <-> new_title <> "" /\ new_body <> "").
  { unfold validate. rewrite Ht, Hb.
    destruct (String.eqb_spec new_title ""), (String.eqb_spec new_body "");
      cbn; split; try discriminate; try tauto; intros [? ?]; contradiction. }
  cbn [set_updatedAt Blog.title Blog._id]. rewrite Ht, Hi.
  set (taken := negb (new_title =? Blog.title original)%string
                && existsb (fun b => negb (has_id i b)
                                     && same_title (set_updatedAt now doc) b) db).
  assert (Hsame : forall b, same_title (set_updatedAt now doc) b
                            = (Blog.title b =? new_title)%string)
    by reflexivity.
  assert (Htaken : taken = false <->
            (new_title = Blog.title original
             \/ forall b, In b db -> Blog._id b <> i -> Blog.title b <> new_title)).
  { unfold taken. split.
    - intros H. apply andb_false_iff in H as [H|H].
      + left. now apply negb_false_iff, String.eqb_eq in H.
      + right. intros b Hb' Hne Hbt.
        assert (E : existsb (fun b => negb (has_id i b)
                                      && same_title (set_updatedAt now doc) b) db
                    = true); [|congruence].
        apply existsb_exists. exists b. split; [exact Hb'|].
        apply andb_true_iff. split.
        * apply negb_true_iff. destruct (has_id i b) eqn:E; [|reflexivity].
          apply has_id_eq in E. contradiction.
        * rewrite Hsame. now apply String.eqb_eq.
    - intros [H|H].
      + rewrite H, String.eqb_refl. reflexivity.
      + apply andb_false_iff. right. apply not_true_is_false. intros E.
        apply existsb_exists in E as (b & Hb' & E).
        apply andb_true_iff in E as [E1 E2].
        apply negb_true_iff in E1. rewrite Hsame in E2.
        apply String.eqb_eq in E2. apply (H b Hb'); [|exact E2].
        intros E. apply has_id_eq in E. congruence. }
  assert (Hdup : errorHandler (DuplicateKeyError "title")
                 = failure 400 "title already exists") by reflexivity.
  assert (Hval : forall messages,
             status (errorHandler (ValidationError messages)) = 400
             /\ success (errorHandler (ValidationError messages)) = false)
    by (intros messages; split; reflexivity).
  destruct (validate doc) as [|m ms] eqn:Hvd.
  - destruct taken eqn:Et.
    + (* the title is taken *)
      cbv beta iota. rewrite Hdup. cbn [fst snd status success failure].
      split; [|split].
      * split; [discriminate|]. intros (_ & _ & Hfree).
        apply Htaken in Hfree. discriminate.
      * intros _. repeat split.
      * discriminate.
    + (* accepted *)
      cbv beta iota. cbn [fst snd status]. split; [|split].
      * split; [|reflexivity]. intros _.
        destruct (proj1 Hv eq_refl) as [H1 H2].
        split; [exact H1|]. split; [exact H2|]. now apply Htaken.
      * intros H. now elim H.
      * intros _. exists (set_updatedAt now doc).
        split; [reflexivity|]. split; [reflexivity|]. split.
        { apply (findById_replaced i original); [exact Hf|exact Hi]. }
        repeat split; try reflexivity; exact Hid.
  - cbv beta iota. cbn [fst snd]. destruct (Hval (m :: ms)) as [H400 Hfalse].
    rewrite H400, Hfalse. split; [|split].
    + split; [discriminate|]. intros (H1 & H2 & _).
      assert (E : m :: ms = []) by (apply Hv; now split). discriminate.
    + intros _. repeat split.
    + discriminate.
Qed.

(** C6, counterexample.  The author sends an update whose title is the
    empty string: the update is accepted and the stored title is still
    "Hello", so a provided field has not overwritten the stored one. *)
Lemma updateBlog_empty_title_counterexample :
  updateBlog castObjectId_hex sample_library 5000 alice (sample_id 1)
    (blog_req (mkBody (Some "") None None None None))
    [sample_blog (sample_id 1) "Hello" Blog.published]
  = ([set_updatedAt 5000 (sample_blog (sample_id 1) "Hello" Blog.published)],
     mkResponse 200 true (Some "Blog updated successfully")
       (BlogData (set_updatedAt 5000
                    (sample_blog (sample_id 1) "Hello" Blog.published))))
  /\ Blog.title (set_updatedAt 5000
                   (sample_blog (sample_id 1) "Hello" Blog.published))
     = "Hello".
Proof. split; vm_compute; reflexivity. Qed.

(** An update of the title by the author, in a collection that holds
    another blog, is accepted. *)
Lemma updateBlog_partial_witness :
  status (snd (updateBlog castObjectId_hex sample_library 5000 alice
                 (sample_id 1)
                 (blog_req (mkBody (Some "  A new title ") None None None None))
                 [sample_blog (sample_id 1) "Hello" Blog.published;
                  sample_blog (sample_id 2) "Other" Blog.published]))
  = 200.
Proof.
  apply (proj2 (proj1 (updateBlog_partial sample_library castObjectId_hex 5000
                  alice (sample_id 1) (sample_id 1)
                  (mkBody (Some "  A new title ") None None None None)
                  [sample_blog (sample_id 1) "Hello" Blog.published;
                   sample_blog (sample_id 2) "Other" Blog.published]
                  (sample_blog (sample_id 1) "Hello" Blog.published)
                  eq_refl eq_refl eq_refl))).
  split; [vm_compute; discriminate|]. split; [vm_compute; discriminate|].
  right. intros b [<- | [<- | []]] Hne; vm_compute; [|discriminate].
  intros _. apply Hne. reflexivity.
Defined.

(** The same update with a title of white space alone is refused, and the
    title stays. *)
Lemma updateBlog_blank_title :
  updateBlog castObjectId_hex sample_library 5000 alice (sample_id 1)
    (blog_req (mkBody (Some "   ") None None None None))
    [sample_blog (sample_id 1) "Hello" Blog.published]
  = ([sample_blog (sample_id 1) "Hello" Blog.published],
     failure 400 "Title is required").
Proof. vm_compute. reflexivity. Qed.
(** ** Create *)

(** C7.  On a body whose members have their documented types, create
    answers 400 when the title or the body is missing or
    empty, and every failure of create is a 400 that stores nothing.  When
    it succeeds, the blog appended to the collection has the supplied
    tags, or none when tags are absent, the reading time computed from the
    body, the caller as author and the state [draft], whatever state the
    request carried.  It succeeds when the trimmed title and the body are
    not empty and neither the fresh identifier nor the title is in use. *)
Theorem createBlog_spec
  (L : library) (fresh : ObjectId) (now : Z) (user : User.t)
  (body : blog_body) (db : list Blog.t) :
  (the (body_title body) = "" \/ the (body_body body) = "" ->
   createBlog L fresh now user (blog_req body) db
   = (db, failure 400 "Title and body are required"))
  /\ (forall db' r,
         createBlog L fresh now user (blog_req body) db = (db', r) ->
         success r = false -> status r = 400 /\ db' = db)
  /\ (forall db' r,
         createBlog L fresh now user (blog_req body) db = (db', r) ->
         success r = true ->
         exists blog,
           r = mkResponse 201 true (Some "Blog created successfully")
                 (BlogData blog)
           /\ db' = (db ++ [blog])%list
           /\ Blog.tags blog
              = match body_tags body with Some t => t | None => [] end
           /\ Blog.reading_time blog
              = calculateReadingTime (js (body_body body))
           /\ Blog.author blog = User._id user
           /\ Blog.state blog = Blog.draft
           /\ Blog.title blog = trim_string (the (body_title body))
           /\ Blog.body blog = the (body_body body)
           /\ Blog.read_count blog = 0)
  /\ (trim_string (the (body_title body)) <> "" ->
      the (body_body body) <> "" ->
      (forall b, In b db -> Blog._id b <> fresh) ->
      (forall b, In b db -> Blog.title b <> trim_string (the (body_title body))) ->
      success (snd (createBlog L fresh now user (blog_req body) db)) = true).
Proof.
  rewrite !createBlog_on_typed.
  unfold createBlog_typed. cbv zeta. rewrite !truthy_js.
  set (blog := new_Blog _ _ _ _ _ _ _ _ _).
  split; [|split; [|split]].
  - intros [-> | ->]; cbn; [reflexivity|]. now rewrite orb_true_r.
  - intros db' r H Hfail.
    destruct (negb _ || negb _).
    + injection H as <- <-. now split.
    + destruct (save_new now blog db) as [[db1 saved]|e] eqn:Hsave.
      * injection H as <- <-. discriminate.
      * injection H as <- <-. split; [|reflexivity].
        rewrite save_new_unfold in Hsave; cbv zeta in Hsave. destruct (validate blog).
        -- destruct (existsb _ db); [injection Hsave as <-; reflexivity|].
           destruct (existsb _ db); [injection Hsave as <-; reflexivity|].
           discriminate.
        -- injection Hsave as <-. reflexivity.
  - intros db' r H Hok.
    destruct (negb _ || negb _).
    + injection H as <- <-. discriminate.
    + destruct (save_new now blog db) as [[db1 saved]|e] eqn:Hsave.
      * injection H as <- <-. exists saved.
        rewrite save_new_unfold in Hsave; cbv zeta in Hsave. destruct (validate blog); [|discriminate].
        destruct (existsb _ db); [discriminate|].
        destruct (existsb _ db); [discriminate|].
        injection Hsave as <- <-. repeat split.
      * injection H as <- <-. rewrite errorHandler_failure in Hok. discriminate.
  - intros Ht Hb Hfresh Htitle.
    assert (Htne : the (body_title body) <> "").
    { intros E. apply Ht. rewrite E. reflexivity. }
    apply String.eqb_neq in Htne, Hb. rewrite Htne, Hb. cbn [negb orb].
    rewrite save_new_unfold; cbv zeta.
    assert (Hv : validate blog = []).
    { unfold validate, blog. cbn [new_Blog Blog.title Blog.body].
      apply String.eqb_neq in Ht. now rewrite Ht, Hb. }
    rewrite Hv.
    assert (H1 : existsb (has_id (Blog._id (set_updatedAt now blog))) db = false).
    { apply not_true_is_false. intros E. apply existsb_exists in E as [b [Hin E]].
      apply has_id_eq in E. now apply (Hfresh b Hin). }
    assert (H2 : existsb (same_title (set_updatedAt now blog)) db = false).
    { apply not_true_is_false. intros E. apply existsb_exists in E as [b [Hin E]].
      apply String.eqb_eq in E. now apply (Htitle b Hin). }
    rewrite H1, H2. reflexivity.
Qed.

Lemma createBlog_spec_witness :
  success (snd (createBlog sample_library (sample_id 7) 5000 alice
                  (blog_req
                     (mkBody (Some "  Hello  ") None None (Some "one two three")
                             (Some "published")))
                  [sample_blog (sample_id 1) "Other" Blog.published]))
  = true.
Proof.
  apply (createBlog_spec sample_library (sample_id 7) 5000 alice
           (mkBody (Some "  Hello  ") None None (Some "one two three")
                   (Some "published"))
           [sample_blog (sample_id 1) "Other" Blog.published]).
  - vm_compute. discriminate.
  - vm_compute. discriminate.
  - intros b [<- | []]. vm_compute. discriminate.
  - intros b [<- | []]. vm_compute. discriminate.
Defined.
(** ** Login *)




(** ** Identity tokens *)

Lemma split_on_from_no_sep (sep : ascii) (cur rest : list ascii) :
  ~ In sep rest ->
  split_on_from sep cur rest = [string_of_list_ascii (rev cur ++ rest)].
Proof.
  revert cur. induction rest as [|c rest IH]; intros cur Hno; cbn [split_on_from].
  - now rewrite app_nil_r.
  - destruct (Ascii.eqb_spec c sep) as [->|Hne].
    + exfalso. apply Hno. now left.
    + rewrite IH by (intros H; apply Hno; now right).
      cbn [rev]. now rewrite <- app_assoc.
Qed.

Lemma bearer_token (token : string) :
  ~ In " "%char (chars token) ->
  nth_error (split_on " " ("Bearer " ++ token)) 1 = Some token.
Proof.
  intros Hno. unfold split_on. cbn.
  fold (chars token). rewrite split_on_from_no_sep by exact Hno.
  cbn. unfold chars. now rewrite string_of_list_ascii_of_string.
Qed.

(** C9.  Let [token] be the token issued for a user at time [T], and
    suppose that the library, given the server's secret, recovers from it
    the claims that were signed.  The token carries the user, the issue
    date and an expiry date one hour, in seconds, after the issue date.  Presented in a [Bearer] header, the token is
    accepted exactly as long as the clock, in whole seconds, is before the
    expiry date: it is accepted 59 minutes after [T], and from 60 minutes
    after [T] on, so also at 61 minutes, it is refused with 401 "Token
    expired. Please login again.".  A token that the library cannot decode
    with the secret, malformed or wrongly signed, is refused with 401
    "Invalid token.", a different message. *)
Theorem token_expires_after_one_hour
  (jwt_encode : claims -> string -> string)
  (jwt_decode : string -> string -> option claims) (JWT_SECRET : string)
  (user : ObjectId) (T : Z) (users : list User.t) (u : User.t) :
  let token := generateToken jwt_encode JWT_SECRET user T in
  let issued := mkClaims user (T / 1000) (T / 1000 + one_hour) in
  jwt_decode token JWT_SECRET = Some issued ->
  token <> "" ->
  ~ In " "%char (chars token) ->
  User_findById user users = Some u ->
  token = jwt_encode issued JWT_SECRET
  /\ exp issued - iat issued = 3600
  /\ (forall now,
         accepted (authenticate jwt_decode JWT_SECRET now
                     (Some ("Bearer " ++ token)) users) = true
         <-> now / 1000 < T / 1000 + 3600)
  /\ authenticate jwt_decode JWT_SECRET (T + minutes 59)
       (Some ("Bearer " ++ token)) users = Next (toJSON u)
  /\ (forall now,
         T + minutes 60 <= now ->
         authenticate jwt_decode JWT_SECRET now
           (Some ("Bearer " ++ token)) users
         = Respond (auth_failure 401 "Token expired. Please login again."))
  /\ authenticate jwt_decode JWT_SECRET (T + minutes 61)
       (Some ("Bearer " ++ token)) users
     = Respond (auth_failure 401 "Token expired. Please login again.")
  /\ (forall now bad,
         bad <> "" -> ~ In " "%char (chars bad) ->
         jwt_decode bad JWT_SECRET = None ->
         authenticate jwt_decode JWT_SECRET now (Some ("Bearer " ++ bad)) users
         = Respond (auth_failure 401 "Invalid token."))
  /\ auth_failure 401 "Token expired. Please login again."
     <> auth_failure 401 "Invalid token.".
Proof.
  intros token issued Hdec Hne Hsp Hu.
  assert (Hauth : forall now,
    authenticate jwt_decode JWT_SECRET now (Some ("Bearer " ++ token)) users
    = if T / 1000 + 3600 <=? now / 1000
      then Respond (auth_failure 401 "Token expired. Please login again.")
      else Next (toJSON u)).
  { intros now. unfold authenticate. cbv zeta.
    change (truthy (js (Some ("Bearer " ++ token)))) with true.
    cbn [negb the]. rewrite (bearer_token token Hsp). cbn [js truthy the].
    apply String.eqb_neq in Hne. rewrite Hne. cbn [negb].
    unfold jwt_verify. rewrite Hdec. unfold issued. cbn [exp userId].
    change one_hour with 3600.
    destruct (T / 1000 + 3600 <=? now / 1000); [reflexivity|].
    cbn [userId]. now rewrite Hu. }
  assert (Hdiv : forall k, (T + k * 1000) / 1000 = T / 1000 + k)
    by (intros k; apply Z.div_add; lia).
  split; [reflexivity|].
  split; [cbn; change one_hour with 3600; lia|].
  split.
  { intros now. rewrite Hauth.
    destruct (T / 1000 + 3600 <=? now / 1000) eqn:E; cbn [accepted];
      split; intros H; try lia; try discriminate; reflexivity. }
  split.
  { rewrite Hauth. replace (T + minutes 59) with (T + 3540 * 1000)
      by (unfold minutes; lia).
    rewrite Hdiv. replace (T / 1000 + 3600 <=? T / 1000 + 3540) with false by lia.
    reflexivity. }
  split.
  { intros now Hnow. rewrite Hauth.
    assert (T / 1000 + 3600 <= now / 1000).
    { rewrite <- Hdiv. apply Z.div_le_mono; [lia|]. unfold minutes in Hnow. lia. }
    replace (T / 1000 + 3600 <=? now / 1000) with true by lia. reflexivity. }
  split.
  { rewrite Hauth. replace (T + minutes 61) with (T + 3660 * 1000)
      by (unfold minutes; lia).
    rewrite Hdiv. replace (T / 1000 + 3600 <=? T / 1000 + 3660) with true by lia.
    reflexivity. }
  split; [|discriminate].
  intros now bad Hbne Hbsp Hbad. unfold authenticate. cbv zeta.
  change (truthy (js (Some ("Bearer " ++ bad)))) with true.
  cbn [negb the]. rewrite (bearer_token bad Hbsp). cbn [js truthy the].
  apply String.eqb_neq in Hbne. rewrite Hbne. cbn [negb].
  unfold jwt_verify. rewrite Hbad. reflexivity.
Qed.

Lemma token_expires_after_one_hour_witness :
  authenticate sample_jwt_decode "secret" (5000 + minutes 59)
    (Some ("Bearer " ++ generateToken sample_jwt_encode "secret"
                          (User._id alice) 5000))
    [bob; alice]
  = Next (toJSON alice)
  /\ authenticate sample_jwt_decode "secret" (5000 + minutes 61)
       (Some ("Bearer " ++ generateToken sample_jwt_encode "secret"
                             (User._id alice) 5000))
       [bob; alice]
     = Respond (auth_failure 401 "Token expired. Please login again.").
Proof.
  assert (Hsp : ~ In " "%char
                  (chars (generateToken sample_jwt_encode "secret"
                            (User._id alice) 5000))).
  { vm_compute. intros H.
    repeat (destruct H as [H|H]; [discriminate H|]). exact H. }
  destruct (token_expires_after_one_hour sample_jwt_encode sample_jwt_decode
              "secret" (User._id alice) 5000 [bob; alice] alice
              eq_refl ltac:(discriminate) Hsp eq_refl)
    as (_ & _ & _ & H59 & _ & H61 & _).
  split; [exact H59 | exact H61].
Defined.


(* ================================================================= *)
(** * Further properties *)

(** ** The email pattern of signup *)

Lemma match_plus_spec (p : ascii -> bool) (k : list ascii -> bool)
  (s : list ascii) :
  match_plus p k s = true <->
  exists a b, s = (a ++ b)%list /\ a <> [] /\ forallb p a = true /\ k b = true.
Proof.
  induction s as [|c s IH]; cbn [match_plus].
  - split; [discriminate|]. intros (a & b & H & Ha & _).
    destruct a; [congruence|discriminate].
  - rewrite andb_true_iff, orb_true_iff, IH. split.
    + intros [Hc [(a & b & -> & Ha & Hp & Hk) | Hk]].
      * exists (c :: a), b. cbn. rewrite Hc, Hp. repeat split; congruence.
      * exists [c], s. cbn. rewrite Hc. repeat split; congruence.
    + intros (a & b & H & Ha & Hp & Hk).
      destruct a as [|x a]; [congruence|]. cbn in H, Hp.
      injection H as -> ->. apply andb_true_iff in Hp as [Hx Hp].
      split; [exact Hx|]. destruct a as [|y a]; [now right|].
      left. exists (y :: a), b. repeat split; [discriminate|assumption..].
Qed.

Lemma match_char_spec (c : ascii) (k : list ascii -> bool) (s : list ascii) :
  match_char c k s = true <-> exists b, s = c :: b /\ k b = true.
Proof.
  destruct s as [|x s]; cbn [match_char].
  - split; [discriminate|]. intros (b & H & _). discriminate.
  - rewrite andb_true_iff, Ascii.eqb_eq. split.
    + intros [-> Hk]. now exists s.
    + intros (b & H & Hk). injection H as -> ->. now split.
Qed.

Lemma match_end_spec (s : list ascii) : match_end s = true <-> s = [].
Proof. destruct s; cbn; split; congruence. Qed.

Lemma emailRegex_test_parts (s : string) :
  emailRegex_test s = true <->
  exists a b c : list ascii,
    chars s = (a ++ "@"%char :: b ++ "."%char :: c)%list
    /\ a <> [] /\ b <> [] /\ c <> []
    /\ forallb nonWhiteSpace a = true
    /\ forallb nonWhiteSpace b = true
    /\ forallb nonWhiteSpace c = true.
Proof.
  unfold emailRegex_test. rewrite match_plus_spec. split.
  - intros (a & r1 & Hs & Ha & Hpa & H1).
    apply match_char_spec in H1 as (r2 & -> & H2).
    apply match_plus_spec in H2 as (b & r3 & -> & Hb & Hpb & H3).
    apply match_char_spec in H3 as (r4 & -> & H4).
    apply match_plus_spec in H4 as (c & r5 & -> & Hc & Hpc & H5).
    apply match_end_spec in H5 as ->. rewrite app_nil_r in Hs.
    exists a, b, c. repeat split; assumption.
  - intros (a & b & c & Hs & Ha & Hb & Hc & Hpa & Hpb & Hpc).
    exists a, ("@"%char :: b ++ "."%char :: c)%list.
    repeat split; try assumption.
    apply match_char_spec. eexists. split; [reflexivity|].
    apply match_plus_spec. exists b, ("."%char :: c)%list.
    repeat split; try assumption.
    apply match_char_spec. eexists. split; [reflexivity|].
    apply match_plus_spec. exists c, []. rewrite app_nil_r.
    repeat split; assumption.
Qed.

(** X1.  The pattern of signup accepts exactly the strings of the form
    [a@b.c] where [a], [b] and [c] are not empty and contain no white
    space (they may contain further [@] and dots). *)
Theorem emailRegex_test_spec (s : string) :
  emailRegex_test s = true <->
  exists a b c : list ascii,
    chars s = (a ++ "@"%char :: b ++ "."%char :: c)%list
    /\ a <> [] /\ b <> [] /\ c <> []
    /\ forallb nonWhiteSpace a = true
    /\ forallb nonWhiteSpace b = true
    /\ forallb nonWhiteSpace c = true.
Proof.
  unfold emailRegex_test. rewrite match_plus_spec. split.
  - intros (a & r1 & Hs & Ha & Hpa & H1).
    apply match_char_spec in H1 as (r2 & -> & H2).
    apply match_plus_spec in H2 as (b & r3 & -> & Hb & Hpb & H3).
    apply match_char_spec in H3 as (r4 & -> & H4).
    apply match_plus_spec in H4 as (c & r5 & -> & Hc & Hpc & H5).
    apply match_end_spec in H5 as ->. rewrite app_nil_r in Hs.
    exists a, b, c. repeat split; assumption.
  - intros (a & b & c & Hs & Ha & Hb & Hc & Hpa & Hpb & Hpc).
    exists a, ("@"%char :: b ++ "."%char :: c)%list.
    repeat split; try assumption.
    apply match_char_spec. eexists. split; [reflexivity|].
    apply match_plus_spec. exists b, ("."%char :: c)%list.
    repeat split; try assumption.
    apply match_char_spec. eexists. split; [reflexivity|].
    apply match_plus_spec. exists c, []. rewrite app_nil_r.
    repeat split; assumption.
Qed.

(** Lower-casing and trimming on accepted emails. *)

Lemma lower_char_idempotent (c : ascii) : lower_char (lower_char c) = lower_char c.
Proof. destruct c as [[] [] [] [] [] [] [] []]; vm_compute; reflexivity. Qed.

Lemma lower_char_white (c : ascii) : isWhiteSpace (lower_char c) = isWhiteSpace c.
Proof. destruct c as [[] [] [] [] [] [] [] []]; vm_compute; reflexivity. Qed.

Lemma lower_char_at (c : ascii) :
  Ascii.eqb (lower_char c) "@"%char = Ascii.eqb c "@"%char
  /\ Ascii.eqb (lower_char c) "."%char = Ascii.eqb c "."%char.
Proof. destruct c as [[] [] [] [] [] [] [] []]; vm_compute; split; reflexivity. Qed.

Lemma chars_of_list (l : list ascii) : chars (string_of_list_ascii l) = l.
Proof. apply list_ascii_of_string_of_list_ascii. Qed.

Lemma string_of_chars (s : string) : string_of_list_ascii (chars s) = s.
Proof. apply string_of_list_ascii_of_string. Qed.

Lemma chars_toLowerCase (s : string) :
  chars (toLowerCase s) = map lower_char (chars s).
Proof. unfold toLowerCase. apply chars_of_list. Qed.

Lemma toLowerCase_idempotent (s : string) :
  toLowerCase (toLowerCase s) = toLowerCase s.
Proof.
  unfold toLowerCase at 1. rewrite chars_toLowerCase, map_map.
  unfold toLowerCase. f_equal. apply map_ext, lower_char_idempotent.
Qed.

Lemma toLowerCase_empty (s : string) :
  (toLowerCase s =? "")%string = (s =? "")%string.
Proof. destruct s; reflexivity. Qed.

Lemma forallb_nonWhiteSpace_lower (l : list ascii) :
  forallb nonWhiteSpace (map lower_char l) = forallb nonWhiteSpace l.
Proof.
  induction l as [|c l IH]; [reflexivity|]. cbn. unfold nonWhiteSpace at 1 3.
  now rewrite lower_char_white, IH.
Qed.

Lemma emailRegex_test_lower (s : string) :
  emailRegex_test s = true -> emailRegex_test (toLowerCase s) = true.
Proof.
  rewrite !emailRegex_test_parts.
  intros (a & b & c & Hs & Ha & Hb & Hc & Hpa & Hpb & Hpc).
  exists (map lower_char a), (map lower_char b), (map lower_char c).
  rewrite chars_toLowerCase, Hs, !forallb_nonWhiteSpace_lower.
  rewrite !map_app. cbn [map]. rewrite !map_app. cbn [map].
  repeat split; try assumption;
    try (intros E; apply map_eq_nil in E; contradiction).
Qed.

Lemma trim_no_white (l : list ascii) :
  forallb nonWhiteSpace l = true -> trim l = l.
Proof.
  intros H. unfold trim.
  assert (Hs : trimStart l = l).
  { destruct l as [|c l]; [reflexivity|]. cbn in *.
    apply andb_true_iff in H as [Hc _]. unfold nonWhiteSpace in Hc.
    now destruct (isWhiteSpace c). }
  rewrite Hs. clear Hs. induction l as [|c l IH]; [reflexivity|].
  cbn in *. apply andb_true_iff in H as [Hc H]. rewrite (IH H).
  unfold nonWhiteSpace in Hc. destruct l; [|reflexivity].
  now destruct (isWhiteSpace c).
Qed.

Lemma emailRegex_test_no_white (s : string) :
  emailRegex_test s = true -> forallb nonWhiteSpace (chars s) = true.
Proof.
  intros H. apply emailRegex_test_parts in H
    as (a & b & c & -> & _ & _ & _ & Hpa & Hpb & Hpc).
  rewrite forallb_app. cbn. rewrite forallb_app. cbn.
  now rewrite Hpa, Hpb, Hpc.
Qed.

Lemma trim_string_email (s : string) :
  emailRegex_test s = true -> trim_string s = s.
Proof.
  intros H. unfold trim_string.
  rewrite trim_no_white by now apply emailRegex_test_no_white.
  apply string_of_chars.
Qed.
(** ** Signup *)

Lemma emailRegex_test_nonempty (s : string) :
  emailRegex_test s = true -> s <> "".
Proof. intros H ->. discriminate. Qed.

Lemma findOne_email_none (e : string) (users : list User.t) :
  User_findOne_email e users = None <->
  forall u, In u users -> User.email u <> toLowerCase (trim_string e).
Proof.
  unfold User_findOne_email. split.
  - intros H u Hin. apply String.eqb_neq. exact (find_none _ _ H u Hin).
  - intros H. destruct (find _ users) as [u|] eqn:E; [|reflexivity].
    apply find_some in E as [Hin E]. apply String.eqb_eq in E.
    now apply H in Hin.
Qed.

Lemma findOne_email_some (e : string) (users : list User.t) (u : User.t) :
  User_findOne_email e users = Some u ->
  In u users /\ User.email u = toLowerCase (trim_string e).
Proof.
  intros H. apply find_some in H as [Hin H]. now apply String.eqb_eq in H.
Qed.

(** The value looked for when the email of a request has passed the
    pattern: the setters of the filter change nothing more. *)
Lemma findOne_email_key (em : string) :
  emailRegex_test em = true ->
  toLowerCase (trim_string (toLowerCase em)) = toLowerCase em.
Proof.
  intros H.
  rewrite (trim_string_email (toLowerCase em)) by now apply emailRegex_test_lower.
  apply toLowerCase_idempotent.
Qed.

Lemma auth_error_400 (e : js_error) :
  status (errorHandler e) = 400 ->
  auth_status (auth_error e) = 400 /\ auth_success (auth_error e) = false.
Proof.
  intros H. unfold auth_error. cbn. split; [exact H|apply errorHandler_failure].
Qed.

(** The user that signup hands to [save]. *)
Lemma new_User_signup (fresh : ObjectId) (now : Z) (fn ln em pw : string) :
  emailRegex_test em = true ->
  new_User fresh now fn ln (toLowerCase em) pw
  = User.mk fresh (trim_string fn) (trim_string ln) (toLowerCase em) pw now.
Proof.
  intros H. unfold new_User. now rewrite findOne_email_key.
Qed.

Lemma save_new_user_with_cases (bcrypt_hash : string -> string -> string)
  (casts : list (string * string)) (salt : string) (doc : User.t)
  (users : list User.t) :
  (exists e, save_new_user_with bcrypt_hash casts salt doc users = Throw e
             /\ status (errorHandler e) = 400)
  \/ (user_failures casts doc = []
      /\ (forall u, In u users -> User._id u <> User._id doc)
      /\ (forall u, In u users -> User.email u <> User.email doc)
      /\ save_new_user_with bcrypt_hash casts salt doc users
         = Ok ((users ++ [User.mk (User._id doc) (User.first_name doc)
                            (User.last_name doc) (User.email doc)
                            (bcrypt_hash (User.password doc) salt)
                            (User.createdAt doc)])%list,
               User.mk (User._id doc) (User.first_name doc)
                       (User.last_name doc) (User.email doc)
                       (bcrypt_hash (User.password doc) salt)
                       (User.createdAt doc))).
Proof.
  unfold save_new_user_with. destruct (user_failures casts doc) as [|m ms].
  - cbn [User._id User.email].
    destruct (existsb _ users) eqn:E1; [left; eexists; split; reflexivity|].
    destruct (existsb (fun u => (User.email u =? User.email doc)%string) users)
      eqn:E2; [left; eexists; split; reflexivity|].
    right. repeat split.
    + intros u Hin Heq.
      assert (existsb (fun u0 => (User._id u0 =? User._id doc)%string) users = true).
      { apply existsb_exists. exists u. split; [exact Hin|]. now apply String.eqb_eq. }
      congruence.
    + intros u Hin Heq.
      assert (existsb (fun u0 => (User.email u0 =? User.email doc)%string) users = true).
      { apply existsb_exists. exists u. split; [exact Hin|]. now apply String.eqb_eq. }
      congruence.
  - left. eexists. split; reflexivity.
Qed.

Lemma save_new_user_cases (bcrypt_hash : string -> string -> string)
  (salt : string) (doc : User.t) (users : list User.t) :
  (exists e, save_new_user bcrypt_hash salt doc users = Throw e
             /\ status (errorHandler e) = 400)
  \/ (validate_user doc = []
      /\ (forall u, In u users -> User._id u <> User._id doc)
      /\ (forall u, In u users -> User.email u <> User.email doc)
      /\ save_new_user bcrypt_hash salt doc users
         = Ok ((users ++ [User.mk (User._id doc) (User.first_name doc)
                            (User.last_name doc) (User.email doc)
                            (bcrypt_hash (User.password doc) salt)
                            (User.createdAt doc)])%list,
               User.mk (User._id doc) (User.first_name doc)
                       (User.last_name doc) (User.email doc)
                       (bcrypt_hash (User.password doc) salt)
                       (User.createdAt doc))).
Proof. exact (save_new_user_with_cases bcrypt_hash [] salt doc users). Qed.

(** The checks of the controller on a typed body, in the order in which
    they are made. *)
Lemma signup_checked
  (bcrypt_hash : string -> string -> string)
  (jwt_encode : claims -> string -> string) (JWT_SECRET : string)
  (fresh : ObjectId) (salt : string) (now : Z) (body : signup_body)
  (users : list User.t) :
  let fn := the (signup_first_name body) in
  let ln := the (signup_last_name body) in
  let em := the (signup_email body) in
  let pw := the (signup_password body) in
  signup_typed bcrypt_hash jwt_encode JWT_SECRET fresh salt now body users
  = if (fn =? "")%string || (ln =? "")%string || (em =? "")%string
       || (pw =? "")%string
    then (users, auth_failure 400 "All fields are required")
    else if negb (emailRegex_test em)
    then (users, auth_failure 400 "Please provide a valid email")
    else if (String.length pw <? 6)%nat
    then (users, auth_failure 400 "Password must be at least 6 characters")
    else
      match find (fun u => (User.email u =? toLowerCase em)%string) users with
      | Some _ => (users, auth_failure 400 "Email already registered")
      | None =>
          match save_new_user bcrypt_hash salt
                  (User.mk fresh (trim_string fn) (trim_string ln)
                           (toLowerCase em) pw now) users with
          | Throw error => (users, auth_error error)
          | Ok (users', user) =>
              (users',
               mkAuthResponse 201 true "User registered successfully"
                 (Some (toJSON user,
                        generateToken jwt_encode JWT_SECRET (User._id user) now)))
          end
      end.
Proof.
  intros fn ln em pw. unfold signup_typed. cbv zeta.
  rewrite !truthy_js, !negb_involutive.
  fold fn ln em pw.
  destruct (_ || _ || _ || _); [reflexivity|].
  destruct (emailRegex_test em) eqn:E; [|reflexivity]. cbn [negb].
  destruct (String.length pw <? 6)%nat; [reflexivity|].
  unfold User_findOne_email. rewrite (findOne_email_key em E).
  destruct (find _ users); [reflexivity|].
  now rewrite (new_User_signup fresh now fn ln em pw E).
Qed.

Lemma find_email_none (e : string) (users : list User.t) :
  find (fun u => (User.email u =? e)%string) users = None <->
  forall u, In u users -> User.email u <> e.
Proof.
  split.
  - intros H u Hin. apply String.eqb_neq. exact (find_none _ _ H u Hin).
  - intros H. destruct (find _ users) as [u|] eqn:E; [|reflexivity].
    apply find_some in E as [Hin E]. apply String.eqb_eq in E.
    now apply H in Hin.
Qed.

(** A signup with a typed body that fails changes nothing and answers
    400. *)
Lemma signup_failure_inv
  (bcrypt_hash : string -> string -> string)
  (jwt_encode : claims -> string -> string) (JWT_SECRET : string)
  (fresh : ObjectId) (salt : string) (now : Z) (body : signup_body)
  (users : list User.t) :
  let answer :=
    signup_typed bcrypt_hash jwt_encode JWT_SECRET fresh salt now body users in
  auth_success (snd answer) = false ->
  fst answer = users /\ auth_status (snd answer) = 400.
Proof.
  intros answer. unfold answer. rewrite signup_checked. cbv zeta.
  destruct (_ || _ || _ || _); [intros _; now split|].
  destruct (negb _); [intros _; now split|].
  destruct (String.length _ <? 6)%nat; [intros _; now split|].
  destruct (find _ users); [intros _; now split|].
  destruct (save_new_user_cases bcrypt_hash salt
              (User.mk fresh (trim_string (the (signup_first_name body)))
                       (trim_string (the (signup_last_name body)))
                       (toLowerCase (the (signup_email body)))
                       (the (signup_password body)) now) users)
    as [(e & -> & H400) | (_ & _ & _ & ->)].
  - intros _. cbn [fst snd]. split; [reflexivity|].
    now apply auth_error_400.
  - cbn. discriminate.
Qed.

(** The only error of ToString is that of an object without a primitive
    value. *)
Lemma ToString_throws (L : library) (v : json) :
  forall e, ToString L v = Throw e ->
            e = TypeError "Cannot convert object to primitive value".
Proof.
  induction v as [| b | q | s | items IH | members] using json_items_ind;
    cbn [ToString]; intros e H; try discriminate H.
  - revert H.
    match goal with
    | |- context [match ?t with Ok _ => _ | Throw _ => _ end] =>
        assert (Heach : forall err, t = Throw err ->
                  err = TypeError "Cannot convert object to primitive value")
    end.
    { induction IH as [|x items Hx _ IHitems]; intros err; [discriminate|].
      destruct (match x with JsNull => Ok "" | _ => ToString L x end)
        as [t|err0] eqn:E.
      - destruct (_ items) as [ss|err']; [discriminate|].
        intros H. injection H as <-. now apply IHitems.
      - intros H. injection H as <-. apply Hx.
        destruct x; try exact E. discriminate E. }
    destruct (_ items) as [ss|err']; [discriminate|].
    intros H. injection H as <-. now apply Heach.
  - destruct (own_member "toString" members); [|discriminate H].
    now injection H as <-.
Qed.

Lemma auth_error_TypeError (msg : string) :
  msg <> "" -> auth_error (TypeError msg) = auth_failure 500 msg.
Proof.
  intros H. unfold auth_error, errorHandler. cbn.
  apply String.eqb_neq in H. now rewrite H.
Qed.

(** A signup that fails, whatever the members of its body, changes
    nothing; it answers 400, or 500 when the email is not a string; and
    it fails when the email is not a string. *)
Lemma signup_failure_any (L : library)
  (bcrypt_hash : string -> string -> string)
  (jwt_encode : claims -> string -> string) (JWT_SECRET : string)
  (fresh : ObjectId) (salt : string) (now : Z) (req : signup_request)
  (users : list User.t) :
  let answer :=
    signup L bcrypt_hash jwt_encode JWT_SECRET fresh salt now req users in
  (auth_success (snd answer) = false ->
   fst answer = users
   /\ (auth_status (snd answer) = 400
       \/ auth_status (snd answer) = 500
          /\ typeof (jsv (req_signup_email req)) <> "string"))
  /\ (typeof (jsv (req_signup_email req)) <> "string" ->
      auth_success (snd answer) = false).
Proof.
  intros answer. unfold answer, signup. cbv zeta.
  set (leaf400 := fun msg : string => (users, auth_failure 400 msg)).
  assert (Hleaf : forall r : list User.t * auth_response,
            fst r = users -> auth_success (snd r) = false ->
            auth_status (snd r) = 400
            \/ auth_status (snd r) = 500
               /\ typeof (jsv (req_signup_email req)) <> "string" ->
            (auth_success (snd r) = false ->
             fst r = users
             /\ (auth_status (snd r) = 400
                 \/ auth_status (snd r) = 500
                    /\ typeof (jsv (req_signup_email req)) <> "string"))
            /\ (typeof (jsv (req_signup_email req)) <> "string" ->
                auth_success (snd r) = false)).
  { intros r H1 H2 H3. split; [intros _; now split|intros _; exact H2]. }
  destruct (_ || _ || _ || _); [apply Hleaf; [reflexivity..|now left]|].
  destruct (ToString L (value (req_signup_email req))) as [text|err] eqn:Htext.
  - destruct (negb _); [apply Hleaf; [reflexivity..|now left]|].
    destruct (length_below _ _ _); [apply Hleaf; [reflexivity..|now left]|].
    destruct (req_signup_email req) as [[| b | q | e | items | members]|];
      try (rewrite auth_error_TypeError by discriminate;
           apply Hleaf; [reflexivity..|right; split; [reflexivity|discriminate]]).
    split; [|intros H; now elim H].
    destruct (User_findOne_email _ users);
      [intros _; split; [reflexivity|now left]|].
    match goal with
    | |- context [save_new_user_with _ ?c _ ?d _] =>
        destruct (save_new_user_with_cases bcrypt_hash c salt d users)
          as [(err & -> & H400) | (_ & _ & _ & ->)]
    end.
    + intros _. cbn [fst snd]. split; [reflexivity|]. left.
      now apply auth_error_400.
    + cbn. discriminate.
  - apply ToString_throws in Htext as Herr. subst err.
    rewrite auth_error_TypeError by discriminate.
    apply Hleaf; [reflexivity..|]. right. split; [reflexivity|].
    destruct (req_signup_email req) as [[| b | q | e | items | members]|];
      try discriminate; cbn in Htext; discriminate.
Qed.



(** An email sent as the array [["a@b.co"]] passes the pattern as the
    string "a@b.co" and is then asked for its lower case, which it has
    not: the answer is 500. *)
Lemma signup_array_email :
  signup sample_library (fun password salt => "hash-of-" ++ password)
         sample_jwt_encode "secret" (sample_id 9) "salt" 5000
         (mkSignupRequest (Some (JsString "Al")) (Some (JsString "Ames"))
                          (Some (JsArray [JsString "a@b.co"]))
                          (Some (JsString "password123")))
         [alice]
  = ([alice], auth_failure 500 "email.toLowerCase is not a function").
Proof. vm_compute. reflexivity. Qed.


(** What a successful signup has checked and stored. *)
Lemma signup_success_inv
  (bcrypt_hash : string -> string -> string)
  (jwt_encode : claims -> string -> string) (JWT_SECRET : string)
  (fresh : ObjectId) (salt : string) (now : Z) (body : signup_body)
  (users users' : list User.t) (r : auth_response) :
  let fn := the (signup_first_name body) in
  let ln := the (signup_last_name body) in
  let em := the (signup_email body) in
  let pw := the (signup_password body) in
  let user := User.mk fresh (trim_string fn) (trim_string ln)
                      (toLowerCase em) (bcrypt_hash pw salt) now in
  signup_typed bcrypt_hash jwt_encode JWT_SECRET fresh salt now body users
  = (users', r) ->
  auth_success r = true ->
  users' = (users ++ [user])%list
  /\ r = mkAuthResponse 201 true "User registered successfully"
           (Some (toJSON user, generateToken jwt_encode JWT_SECRET fresh now))
  /\ emailRegex_test em = true
  /\ (6 <= String.length pw)%nat
  /\ trim_string fn <> "" /\ trim_string ln <> ""
  /\ (forall u, In u users -> User.email u <> toLowerCase em)
  /\ (forall u, In u users -> User._id u <> fresh).
Proof.
  intros fn ln em pw user. rewrite signup_checked. cbv zeta. fold fn ln em pw.
  destruct (_ || _ || _ || _); [intros [= <- <-]; discriminate|].
  destruct (emailRegex_test em) eqn:Ere; [|intros [= <- <-]; discriminate].
  cbn [negb].
  destruct (String.length pw <? 6)%nat eqn:Elen; [intros [= <- <-]; discriminate|].
  destruct (find _ users) eqn:Efind; [intros [= <- <-]; discriminate|].
  rewrite find_email_none in Efind.
  destruct (save_new_user_cases bcrypt_hash salt
              (User.mk fresh (trim_string fn) (trim_string ln)
                       (toLowerCase em) pw now) users)
    as [(e & -> & H400) | (Hv & Hid & Hem & ->)].
  - intros [= <- <-] H. unfold auth_error in H. cbn in H.
    rewrite errorHandler_failure in H. discriminate.
  - cbn [User._id User.first_name User.last_name User.email User.password
         User.createdAt] in *.
    intros [= <- <-] _. fold user.
    apply Nat.ltb_ge in Elen.
    repeat split; try assumption.
    + intros E. unfold validate_user in Hv. cbn [User.first_name] in Hv.
      rewrite E in Hv. discriminate.
    + intros E. unfold validate_user in Hv. cbn [User.first_name User.last_name] in Hv.
      rewrite E in Hv. destruct (trim_string fn =? "")%string; discriminate.
Qed.

(** X3.  On a body whose members are strings, a signup that succeeds
    answers 201 and appends exactly one user: its names are the trimmed
    names of the request, its email is the
    email of the request in lower case, its password is the hash of the
    password of the request (not the password), and the response carries
    this user without the password together with a token issued for the
    new identifier.  Signup succeeds whenever the trimmed names are not
    empty, the email fits the pattern, the password has at least 6
    characters and neither the email, in lower case, nor the new
    identifier is in use. *)
Theorem signup_success
  (L : library) (bcrypt_hash : string -> string -> string)
  (jwt_encode : claims -> string -> string) (JWT_SECRET : string)
  (fresh : ObjectId) (salt : string) (now : Z) (body : signup_body)
  (users : list User.t) :
  let fn := the (signup_first_name body) in
  let ln := the (signup_last_name body) in
  let em := the (signup_email body) in
  let pw := the (signup_password body) in
  let user := User.mk fresh (trim_string fn) (trim_string ln)
                      (toLowerCase em) (bcrypt_hash pw salt) now in
  let answer := signup L bcrypt_hash jwt_encode JWT_SECRET fresh salt now
                       (signup_req body) users in
  (auth_success (snd answer) = true ->
   answer = ((users ++ [user])%list,
             mkAuthResponse 201 true "User registered successfully"
               (Some (toJSON user, generateToken jwt_encode JWT_SECRET fresh now))))
  /\ (trim_string fn <> "" -> trim_string ln <> "" ->
      emailRegex_test em = true -> (6 <= String.length pw)%nat ->
      (forall u, In u users -> User.email u <> toLowerCase em) ->
      (forall u, In u users -> User._id u <> fresh) ->
      auth_success (snd answer) = true).
Proof.
  intros fn ln em pw user answer. unfold answer. rewrite signup_on_typed.
  clear answer.
  set (answer := signup_typed bcrypt_hash jwt_encode JWT_SECRET fresh salt now
                              body users).
  split.
  - intros H. destruct answer as [users' r] eqn:E. cbn [snd] in H.
    destruct (signup_success_inv _ _ _ _ _ _ _ _ _ _ E H) as (-> & -> & _).
    reflexivity.
  - intros Hfn Hln Hre Hlen Hem Hid. unfold answer.
    rewrite signup_checked. cbv zeta. fold fn ln em pw.
    assert (Efn : (fn =? "")%string = false).
    { apply String.eqb_neq. intros E. apply Hfn. now rewrite E. }
    assert (Eln : (ln =? "")%string = false).
    { apply String.eqb_neq. intros E. apply Hln. now rewrite E. }
    assert (Eem : (em =? "")%string = false)
      by (apply String.eqb_neq; now apply emailRegex_test_nonempty).
    assert (Epw : (pw =? "")%string = false).
    { apply String.eqb_neq. intros E. rewrite E in Hlen. cbn in Hlen. lia. }
    rewrite Efn, Eln, Eem, Epw, Hre. cbn [orb negb].
    apply Nat.ltb_ge in Hlen as Hlen'. rewrite Hlen'.
    apply find_email_none in Hem as Hem'. rewrite Hem'.
    destruct (save_new_user_cases bcrypt_hash salt
                (User.mk fresh (trim_string fn) (trim_string ln)
                         (toLowerCase em) pw now) users)
      as [(e & He & _) | (_ & _ & _ & ->)]; [|reflexivity].
    exfalso. revert He. rewrite save_new_user_unfold; cbv zeta. unfold validate_user.
    cbn [User.first_name User.last_name User.email User.password User._id].
    apply String.eqb_neq in Hfn, Hln. rewrite Hfn, Hln.
    rewrite toLowerCase_empty, Eem, (emailRegex_test_lower em Hre), Epw, Hlen'.
    cbn [app].
    replace (existsb (fun u => (User._id u =? fresh)%string) users) with false.
    2:{ symmetry. apply not_true_is_false. intros E.
        apply existsb_exists in E as (u & Hin & E).
        apply String.eqb_eq in E. now apply (Hid u Hin). }
    replace (existsb (fun u => (User.email u =? toLowerCase em)%string) users)
      with false.
    2:{ symmetry. apply not_true_is_false. intros E.
        apply existsb_exists in E as (u & Hin & E).
        apply String.eqb_eq in E. now apply (Hem u Hin). }
    discriminate.
Qed.

Lemma signup_success_witness :
  auth_success
    (snd (signup sample_library (fun password salt => "hash-of-" ++ password)
                 sample_jwt_encode "secret" (sample_id 9) "salt" 5000
                 (signup_req
                    (mkSignup (Some " Carol ") (Some "Cole")
                              (Some "Carol@Test.com") (Some "password123")))
                 [alice; bob]))
  = true.
Proof.
  apply (proj2 (signup_success sample_library
           (fun password salt => "hash-of-" ++ password)
           sample_jwt_encode "secret" (sample_id 9) "salt" 5000
           (mkSignup (Some " Carol ") (Some "Cole") (Some "Carol@Test.com")
                     (Some "password123"))
           [alice; bob])).
  - vm_compute. discriminate.
  - vm_compute. discriminate.
  - reflexivity.
  - cbn. lia.
  - intros u [<- | [<- | []]]; vm_compute; discriminate.
  - intros u [<- | [<- | []]]; vm_compute; discriminate.
Defined.


Lemma auth_error_fails (e : js_error) : auth_success (auth_error e) = false.
Proof. unfold auth_error. cbn. apply errorHandler_failure. Qed.

(** The outcomes of a signup, whatever the members of its body. *)
Lemma signup_any_cases (L : library)
  (bcrypt_hash : string -> string -> string)
  (jwt_encode : claims -> string -> string) (JWT_SECRET : string)
  (fresh : ObjectId) (salt : string) (now : Z) (req : signup_request)
  (users : list User.t) :
  let answer :=
    signup L bcrypt_hash jwt_encode JWT_SECRET fresh salt now req users in
  (fst answer = users /\ auth_success (snd answer) = false)
  \/ exists doc e,
       fst answer = (users ++ [doc])%list
       /\ auth_success (snd answer) = true
       /\ req_signup_email req = Some (JsString e)
       /\ User.email doc = toLowerCase (trim_string (toLowerCase e))
       /\ User._id doc = fresh
       /\ (forall u, In u users -> User.email u <> User.email doc)
       /\ (forall u, In u users -> User._id u <> fresh).
Proof.
  intros answer.
  destruct (auth_success (snd answer)) eqn:Hs.
  2:{ left. split; [|reflexivity].
      now apply (signup_failure_any L bcrypt_hash jwt_encode JWT_SECRET fresh
                   salt now req users). }
  right. revert Hs. unfold answer, signup. cbv zeta.
  destruct (_ || _ || _ || _); [discriminate|].
  destruct (ToString L _) as [text|err];
    [|cbn [snd]; now rewrite auth_error_fails].
  destruct (negb _); [discriminate|].
  destruct (length_below _ _ _); [discriminate|].
  destruct (req_signup_email req) as [[| b | q | e | items | members]|];
    cbv beta iota; try (cbn [snd]; now rewrite auth_error_fails).
  destruct (User_findOne_email _ users); [discriminate|].
  match goal with
  | |- context [save_new_user_with _ ?c _ ?d _] =>
      destruct (save_new_user_with_cases bcrypt_hash c salt d users)
        as [(err & -> & H400) | (_ & Hid & Hem & ->)]
  end; [cbn [snd]; now rewrite auth_error_fails|].
  intros _. cbn [fst snd]. eexists. exists e.
  split; [reflexivity|]. split; [reflexivity|]. split; [reflexivity|].
  cbn [User.email User._id new_User_from new_User fst] in *.
  repeat split; assumption.
Qed.

(** X4.  Signup keeps the emails of the collection distinct and in lower
    case, whatever the members of the body of the request, so that no two
    users ever have emails that differ only in the case of their
    letters. *)
Theorem signup_keeps_emails_distinct
  (L : library) (bcrypt_hash : string -> string -> string)
  (jwt_encode : claims -> string -> string) (JWT_SECRET : string)
  (fresh : ObjectId) (salt : string) (now : Z) (req : signup_request)
  (users : list User.t) :
  emails_ok users ->
  emails_ok (fst (signup L bcrypt_hash jwt_encode JWT_SECRET fresh salt now
                         req users))
  /\ forall u v,
       In u (fst (signup L bcrypt_hash jwt_encode JWT_SECRET fresh salt now
                         req users)) ->
       In v (fst (signup L bcrypt_hash jwt_encode JWT_SECRET fresh salt now
                         req users)) ->
       toLowerCase (User.email u) = toLowerCase (User.email v) ->
       User.email u = User.email v.
Proof.
  intros [Hnd Hlow].
  assert (Hok : emails_ok (fst (signup L bcrypt_hash jwt_encode JWT_SECRET fresh
                                       salt now req users))).
  { destruct (signup_any_cases L bcrypt_hash jwt_encode JWT_SECRET fresh salt
                now req users)
      as [[-> _] | (doc & e & -> & _ & _ & Hdoc & _ & Hem & _)];
      [now split|].
    split.
    - rewrite map_app. cbn [map].
      apply NoDup_app; [exact Hnd|repeat constructor; intros []|].
      intros x Hx [<- | []]. apply in_map_iff in Hx as (u & Hu & Hin).
      now apply (Hem u Hin).
    - apply Forall_app. split; [exact Hlow|]. constructor; [|constructor].
      rewrite Hdoc. apply toLowerCase_idempotent. }
  split; [exact Hok|].
  destruct Hok as [_ Hlow']. rewrite Forall_forall in Hlow'.
  intros u v Hu Hv H. now rewrite <- (Hlow' u Hu), <- (Hlow' v Hv).
Qed.

Lemma signup_keeps_emails_distinct_witness :
  emails_ok
    (fst (signup sample_library (fun password salt => "hash-of-" ++ password)
                 sample_jwt_encode "secret" (sample_id 9) "salt" 5000
                 (signup_req
                    (mkSignup (Some "Carol") (Some "Cole")
                              (Some "Carol@Test.com") (Some "password123")))
                 [alice; bob])).
Proof.
  apply (signup_keeps_emails_distinct sample_library
           (fun password salt => "hash-of-" ++ password)
           sample_jwt_encode "secret" (sample_id 9) "salt" 5000
           (signup_req
              (mkSignup (Some "Carol") (Some "Cole") (Some "Carol@Test.com")
                        (Some "password123")))
           [alice; bob]).
  split.
  - repeat constructor; cbn; intros H;
      repeat (destruct H as [H|H]; [discriminate H|]); exact H.
  - repeat constructor.
Defined.


(** ** Signup, then login *)

Lemma findOne_email_last (e : string) (users : list User.t) (user : User.t) :
  (forall u, In u users -> User.email u <> toLowerCase (trim_string e)) ->
  User.email user = toLowerCase (trim_string e) ->
  User_findOne_email e (users ++ [user]) = Some user.
Proof.
  intros Hno He. unfold User_findOne_email.
  induction users as [|x users IH]; cbn.
  - rewrite He, String.eqb_refl. reflexivity.
  - assert (Hx : (User.email x =? toLowerCase (trim_string e))%string = false)
      by (apply String.eqb_neq, Hno; now left).
    rewrite Hx. apply IH. intros u Hu. apply Hno. now right.
Qed.

(** Trimming and lower-casing commute: a letter and its lower case are
    white space together. *)
Lemma trimStart_lower (l : list ascii) :
  trimStart (map lower_char l) = map lower_char (trimStart l).
Proof.
  induction l as [|c l IH]; [reflexivity|]. cbn.
  rewrite lower_char_white. now destruct (isWhiteSpace c).
Qed.

Lemma trimEnd_lower (l : list ascii) :
  trimEnd (map lower_char l) = map lower_char (trimEnd l).
Proof.
  induction l as [|c l IH]; [reflexivity|]. cbn. rewrite IH.
  destruct (trimEnd l); cbn; [|reflexivity].
  rewrite lower_char_white. now destruct (isWhiteSpace c).
Qed.

Lemma trim_string_lower (s : string) :
  trim_string (toLowerCase s) = toLowerCase (trim_string s).
Proof.
  unfold trim_string, toLowerCase, trim. rewrite !chars_of_list.
  now rewrite trimStart_lower, trimEnd_lower.
Qed.

Lemma lower_trim_lower (s : string) :
  toLowerCase (trim_string (toLowerCase s)) = toLowerCase (trim_string s).
Proof. rewrite trim_string_lower. apply toLowerCase_idempotent. Qed.

(** X5.  After a successful signup, a login with the same password and
    with the same email, written in any letter case, succeeds and returns
    the user that signup returned, provided the hash library accepts a
    password against its own hash. *)
Theorem signup_then_login
  (L : library) (bcrypt_hash : string -> string -> string)
  (bcrypt_compare : string -> string -> bool)
  (jwt_encode : claims -> string -> string) (JWT_SECRET : string)
  (fresh : ObjectId) (salt : string) (now later : Z) (body : signup_body)
  (users users' : list User.t) (r : auth_response) (email' : string) :
  let em := the (signup_email body) in
  let pw := the (signup_password body) in
  signup L bcrypt_hash jwt_encode JWT_SECRET fresh salt now (signup_req body)
         users = (users', r) ->
  auth_success r = true ->
  bcrypt_compare pw (bcrypt_hash pw salt) = true ->
  toLowerCase email' = toLowerCase em ->
  exists user token,
    auth_data r = Some (user, token)
    /\ json_id user = fresh
    /\ login bcrypt_compare jwt_encode JWT_SECRET later
             (login_req (mkLogin (Some email') (Some pw))) users'
       = mkAuthResponse 200 true "Login successful"
           (Some (user, generateToken jwt_encode JWT_SECRET fresh later)).
Proof.
  intros em pw Hs Hok Hcmp Hlow. rewrite signup_on_typed in Hs.
  destruct (signup_success_inv _ _ _ _ _ _ _ _ _ _ Hs Hok)
    as (-> & -> & Hre & Hlen & _ & _ & Hem & _).
  fold em pw in Hre, Hlen, Hem |- *.
  eexists. eexists. split; [reflexivity|]. split; [reflexivity|].
  rewrite login_on_typed.
  unfold login_typed. cbv zeta. cbn [login_email login_password the js truthy].
  assert (Ee : (email' =? "")%string = false).
  { rewrite <- toLowerCase_empty, Hlow, toLowerCase_empty.
    apply String.eqb_neq. now apply emailRegex_test_nonempty. }
  assert (Ep : (pw =? "")%string = false).
  { apply String.eqb_neq. intros E. rewrite E in Hlen. cbn in Hlen. lia. }
  rewrite Ee, Ep. cbn [negb orb]. rewrite Hlow.
  erewrite findOne_email_last;
    [|rewrite findOne_email_key by exact Hre; exact Hem
     |rewrite findOne_email_key by exact Hre; reflexivity].
  cbn [User.password User._id]. rewrite Hcmp. reflexivity.
Qed.

Lemma signup_then_login_witness :
  exists user token,
    auth_data (snd (signup sample_library
                      (fun password salt => "hash-of-" ++ password)
                      sample_jwt_encode "secret" (sample_id 9) "salt" 5000
                      (signup_req
                         (mkSignup (Some "Carol") (Some "Cole")
                                   (Some "Carol@Test.com") (Some "password123")))
                      [alice; bob]))
    = Some (user, token)
    /\ json_id user = sample_id 9
    /\ login (fun candidate hash => (hash =? "hash-of-" ++ candidate)%string)
             sample_jwt_encode "secret" 9000
             (login_req (mkLogin (Some "CAROL@test.COM") (Some "password123")))
             (fst (signup sample_library
                     (fun password salt => "hash-of-" ++ password)
                     sample_jwt_encode "secret" (sample_id 9) "salt" 5000
                     (signup_req
                        (mkSignup (Some "Carol") (Some "Cole")
                                  (Some "Carol@Test.com") (Some "password123")))
                     [alice; bob]))
       = mkAuthResponse 200 true "Login successful"
           (Some (user, generateToken sample_jwt_encode "secret" (sample_id 9) 9000)).
Proof.
  apply (signup_then_login sample_library
           (fun password salt => "hash-of-" ++ password)
           (fun candidate hash => (hash =? "hash-of-" ++ candidate)%string)
           sample_jwt_encode "secret" (sample_id 9) "salt" 5000 9000
           (mkSignup (Some "Carol") (Some "Cole")
                     (Some "Carol@Test.com") (Some "password123"))
           [alice; bob] _ _ "CAROL@test.COM" eq_refl); reflexivity.
Defined.

(** X6.  Once a signup has succeeded, no later signup with the same
    email, in whatever letter case, succeeds: it changes nothing, and when
    its fields pass the other checks it answers 400 "Email already
    registered". *)
Theorem second_signup_is_refused
  (L : library) (bcrypt_hash : string -> string -> string)
  (jwt_encode : claims -> string -> string) (JWT_SECRET : string)
  (fresh fresh2 : ObjectId) (salt salt2 : string) (now now2 : Z)
  (body body2 : signup_body) (users users' : list User.t) (r : auth_response) :
  let answer2 := signup L bcrypt_hash jwt_encode JWT_SECRET fresh2 salt2 now2
                        (signup_req body2) users' in
  signup L bcrypt_hash jwt_encode JWT_SECRET fresh salt now (signup_req body)
         users = (users', r) ->
  auth_success r = true ->
  toLowerCase (the (signup_email body2)) = toLowerCase (the (signup_email body)) ->
  auth_success (snd answer2) = false
  /\ fst answer2 = users'
  /\ (the (signup_first_name body2) <> "" -> the (signup_last_name body2) <> "" ->
      emailRegex_test (the (signup_email body2)) = true ->
      (6 <= String.length (the (signup_password body2)))%nat ->
      answer2 = (users', auth_failure 400 "Email already registered")).
Proof.
  intros answer2 Hs Hok Hlow. subst answer2.
  rewrite signup_on_typed in Hs |- *.
  set (answer2 := signup_typed bcrypt_hash jwt_encode JWT_SECRET fresh2 salt2
                               now2 body2 users').
  destruct (signup_success_inv _ _ _ _ _ _ _ _ _ _ Hs Hok) as (Hu & _).
  assert (Hin : exists u, In u users'
                          /\ User.email u = toLowerCase (the (signup_email body2))).
  { eexists. split; [rewrite Hu; apply in_or_app; right; now left|].
    cbn. now rewrite Hlow. }
  assert (Hfail : auth_success (snd answer2) = false).
  { destruct (auth_success (snd answer2)) eqn:E; [|reflexivity].
    destruct answer2 as [u2 r2] eqn:E2. cbn [snd] in E.
    destruct (signup_success_inv _ _ _ _ _ _ _ _ _ _ E2 E)
      as (_ & _ & _ & _ & _ & _ & Hem & _).
    destruct Hin as (u & Hin & He). now apply Hem in Hin. }
  split; [exact Hfail|]. split.
  - now apply (signup_failure_inv bcrypt_hash jwt_encode JWT_SECRET fresh2
                 salt2 now2 body2 users').
  - intros Hfn Hln Hre Hlen. unfold answer2. rewrite signup_checked. cbv zeta.
    apply String.eqb_neq in Hfn, Hln. rewrite Hfn, Hln, Hre.
    assert (Ee : (the (signup_email body2) =? "")%string = false)
      by (apply String.eqb_neq; now apply emailRegex_test_nonempty).
    assert (Ep : (the (signup_password body2) =? "")%string = false).
    { apply String.eqb_neq. intros E. rewrite E in Hlen. cbn in Hlen. lia. }
    rewrite Ee, Ep. cbn [orb negb]. apply Nat.ltb_ge in Hlen. rewrite Hlen.
    destruct (find _ users') eqn:Ef; [reflexivity|].
    exfalso. rewrite find_email_none in Ef.
    destruct Hin as (u & Hin & He). now apply (Ef u Hin).
Qed.

Lemma second_signup_is_refused_witness :
  auth_success
    (snd (signup sample_library (fun password salt => "hash-of-" ++ password)
            sample_jwt_encode "secret" (sample_id 10) "pepper" 6000
            (signup_req
               (mkSignup (Some "Caro") (Some "Cole") (Some "CAROL@TEST.COM")
                         (Some "another-password")))
            (fst (signup sample_library
                    (fun password salt => "hash-of-" ++ password)
                    sample_jwt_encode "secret" (sample_id 9) "salt" 5000
                    (signup_req
                       (mkSignup (Some "Carol") (Some "Cole")
                                 (Some "Carol@Test.com") (Some "password123")))
                    [alice; bob]))))
  = false.
Proof.
  apply (second_signup_is_refused sample_library
           (fun password salt => "hash-of-" ++ password)
           sample_jwt_encode "secret" (sample_id 9) (sample_id 10)
           "salt" "pepper" 5000 6000
           (mkSignup (Some "Carol") (Some "Cole")
                     (Some "Carol@Test.com") (Some "password123"))
           (mkSignup (Some "Caro") (Some "Cole") (Some "CAROL@TEST.COM")
                     (Some "another-password"))
           [alice; bob] _ _ eq_refl); reflexivity.
Defined.

(** ** Login *)

Lemma auth_error_IllegalArguments (t hash : string) :
  auth_error (IllegalArguments t hash)
  = auth_failure 500 ("Illegal arguments: " ++ t ++ ", " ++ hash).
Proof.
  unfold auth_error, errorHandler. cbn.
  reflexivity.
Qed.

(** X7.  Login succeeds exactly when the email and the password of the
    request are non-empty strings, a user has the email of the request
    once trimmed and put in lower case, and the hash library accepts the
    password against the hash stored for the first such user; the
    response then carries that user, without the password, and a token
    issued for it.  Every other login carries no data and answers 400,
    401 or 500, and it answers 500 exactly when both members pass the
    presence check and either the email is not a string, or a user is
    found and the password is not a string. *)
Theorem login_success_iff
  (bcrypt_compare : string -> string -> bool)
  (jwt_encode : claims -> string -> string) (JWT_SECRET : string)
  (now : Z) (req : login_request) (users : list User.t) :
  let answer := login bcrypt_compare jwt_encode JWT_SECRET now req users in
  let found (e : string) :=
    find (fun u => (User.email u =? toLowerCase (trim_string e))%string) users in
  (auth_success answer = true <->
   exists e p u,
     req_email req = Some (JsString e) /\ req_password req = Some (JsString p)
     /\ e <> "" /\ p <> ""
     /\ found e = Some u
     /\ bcrypt_compare p (User.password u) = true)
  /\ (forall e u,
         auth_success answer = true ->
         req_email req = Some (JsString e) ->
         found e = Some u ->
         answer = mkAuthResponse 200 true "Login successful"
                    (Some (toJSON u,
                           generateToken jwt_encode JWT_SECRET (User._id u) now)))
  /\ (auth_success answer = false ->
      auth_data answer = None
      /\ (auth_status answer = 400 \/ auth_status answer = 401
          \/ auth_status answer = 500))
  /\ (auth_status answer = 500 <->
      truthy (jsv (req_email req)) = true
      /\ truthy (jsv (req_password req)) = true
      /\ (typeof (jsv (req_email req)) <> "string"
          \/ exists e u,
               req_email req = Some (JsString e) /\ found e = Some u
               /\ typeof (jsv (req_password req)) <> "string")).
Proof.
  intros answer found. unfold answer, login. cbv zeta.
  assert (Hkey : forall e, User_findOne_email (toLowerCase e) users = found e).
  { intros e. unfold User_findOne_email, found. now rewrite lower_trim_lower. }
  destruct (truthy (jsv (req_email req))) eqn:Te; cbn [negb orb].
  2:{ split; [split; [discriminate|]|split; [|split; [|split]]].
      - intros (e & p & u & He & _ & Hne & _). rewrite He in Te. cbn in Te.
        apply Bool.negb_false_iff, String.eqb_eq in Te. contradiction.
      - intros e u H. discriminate H.
      - intros _. split; [reflexivity|now left].
      - discriminate.
      - intros (H & _). discriminate H. }
  destruct (truthy (jsv (req_password req))) eqn:Tp; cbn [negb orb].
  2:{ split; [split; [discriminate|]|split; [|split; [|split]]].
      - intros (e & p & u & _ & Hp & _ & Hne & _). rewrite Hp in Tp. cbn in Tp.
        apply Bool.negb_false_iff, String.eqb_eq in Tp. contradiction.
      - intros e u H. discriminate H.
      - intros _. split; [reflexivity|now left].
      - discriminate.
      - intros (_ & H & _). discriminate H. }
  destruct (req_email req) as [[| b | q | e | items | members]|] eqn:Ee;
    try (rewrite auth_error_TypeError by discriminate;
         split; [split; [discriminate|intros (e & p & u & [=] & _)]
                |split; [intros e u H; discriminate H
                        |split; [intros _; split; [reflexivity|now right; right]
                                |split; [intros _; repeat split;
                                         left; cbn; discriminate
                                        |reflexivity]]]]).
  rewrite Hkey.
  assert (Hne : e <> "").
  { intros ->. discriminate Te. }
  destruct (found e) as [u|] eqn:Ef.
  2:{ split; [split; [discriminate|]|split; [|split; [|split]]].
      - intros (e' & p & u & [= <-] & _ & _ & _ & H & _). congruence.
      - intros e' u H. discriminate H.
      - intros _. split; [reflexivity|now right; left].
      - discriminate.
      - intros (_ & _ & [H | (e' & u & [= <-] & H & _)]);
          [now elim H|congruence]. }
  unfold comparePassword.
  destruct (req_password req) as [[| b | q | p | items | members]|] eqn:Ep;
    try (rewrite auth_error_IllegalArguments;
         split; [split; [discriminate|intros (e' & p & u' & _ & [=] & _)]
                |split; [intros e' u' H; discriminate H
                        |split; [intros _; split; [reflexivity|now right; right]
                                |split; [intros _; repeat split;
                                         right; exists e, u; repeat split;
                                         try exact Ef; cbn; discriminate
                                        |reflexivity]]]]).
  assert (Hnp : p <> "").
  { intros ->. discriminate Tp. }
  destruct (bcrypt_compare p (User.password u)) eqn:Ec; cbn [negb].
  - split; [split|split; [|split; [|split]]].
    + intros _. now exists e, p, u.
    + reflexivity.
    + intros e' u' _ [= <-] H. rewrite Ef in H. now injection H as <-.
    + discriminate.
    + discriminate.
    + intros (_ & _ & [H | (e' & u' & _ & _ & H)]); now elim H.
  - split; [split; [discriminate|]|split; [|split; [|split]]].
    + intros (e' & p' & u' & [= <-] & [= <-] & _ & _ & H & Hc).
      rewrite Ef in H. injection H as <-. congruence.
    + intros e' u' H. discriminate H.
    + intros _. split; [reflexivity|now right; left].
    + discriminate.
    + intros (_ & _ & [H | (e' & u' & _ & _ & H)]); now elim H.
Qed.

Lemma login_success_iff_witness :
  login (fun candidate hash => (hash =? "hash-of-" ++ candidate)%string)
        sample_jwt_encode "secret" 5000
        (mkLoginRequest (Some (JsString "  Alice@Test.com "))
                        (Some (JsString "alice-password")))
        [bob; alice]
  = mkAuthResponse 200 true "Login successful"
      (Some (toJSON alice,
             generateToken sample_jwt_encode "secret" (User._id alice) 5000)).
Proof.
  apply (proj1 (proj2 (login_success_iff
           (fun candidate hash => (hash =? "hash-of-" ++ candidate)%string)
           sample_jwt_encode "secret" 5000
           (mkLoginRequest (Some (JsString "  Alice@Test.com "))
                           (Some (JsString "alice-password")))
           [bob; alice])) "  Alice@Test.com " alice);
    reflexivity.
Defined.


(** ** The two authentication middlewares *)

(** X8.  [optionalAuth] attaches a user exactly when [authenticate] would
    let the same request through, and then the same user; where
    [authenticate] answers with an error, [optionalAuth] attaches nothing
    and lets the request go on. *)
Theorem optionalAuth_agrees_with_authenticate
  (jwt_decode : string -> string -> option claims) (JWT_SECRET : string)
  (now : Z) (authorization : option string) (users : list User.t) :
  optionalAuth jwt_decode JWT_SECRET now authorization users
  = match authenticate jwt_decode JWT_SECRET now authorization users with
    | Next user => Some user
    | Respond _ => None
    end.
Proof.
  unfold optionalAuth, authenticate. cbv zeta.
  destruct (negb (truthy (js authorization))); [reflexivity|].
  destruct (negb (truthy (js (nth_error _ 1)))); [reflexivity|].
  destruct (jwt_verify _ _ _ _) as [decoded|error].
  - destruct (User_findById _ users); reflexivity.
  - destruct (err_name error =? "TokenExpiredError")%string; [reflexivity|].
    destruct (err_name error =? "JsonWebTokenError")%string; reflexivity.
Qed.

Lemma chars_append (a b : string) : chars (a ++ b) = (chars a ++ chars b)%list.
Proof.
  unfold chars. induction a as [|c a IH]; cbn; [reflexivity|]. now rewrite IH.
Qed.

Lemma split_on_from_sep (sep : ascii) (cur a b : list ascii) :
  ~ In sep a ->
  split_on_from sep cur (a ++ sep :: b)
  = string_of_list_ascii (rev cur ++ a) :: split_on_from sep [] b.
Proof.
  revert cur. induction a as [|c a IH]; intros cur Hno; cbn [app split_on_from].
  - rewrite Ascii.eqb_refl, app_nil_r. reflexivity.
  - destruct (Ascii.eqb_spec c sep) as [->|Hne].
    + exfalso. apply Hno. now left.
    + rewrite IH by (intros H; apply Hno; now right).
      cbn [rev]. now rewrite <- app_assoc.
Qed.

(** The second piece of a header [scheme token] or [scheme token rest]. *)
Lemma header_token (scheme token : string) (rest : option string) :
  ~ In " "%char (chars scheme) ->
  ~ In " "%char (chars token) ->
  nth_error
    (split_on " " (scheme ++ " " ++ token
                   ++ match rest with Some r => " " ++ r | None => "" end)) 1
  = Some token.
Proof.
  intros Hs Ht. unfold split_on. rewrite chars_append. cbn [String.append].
  change (chars (String " " ?x)) with (" "%char :: chars x).
  rewrite split_on_from_sep by exact Hs. cbn [nth_error].
  rewrite chars_append. destruct rest as [r|].
  - cbn [String.append].
    change (chars (String " " ?x)) with (" "%char :: chars x).
    rewrite split_on_from_sep by exact Ht. cbn. now rewrite string_of_chars.
  - cbn [chars list_ascii_of_string]. rewrite app_nil_r.
    rewrite split_on_from_no_sep by exact Ht. cbn. now rewrite string_of_chars.
Qed.

Lemma header_truthy (scheme tail : string) :
  truthy (js (Some (scheme ++ " " ++ tail))) = true.
Proof. destruct scheme; reflexivity. Qed.

(** X9.  How [authenticate] reads the header.  A missing or empty header
    is answered 401 "Access denied. No token provided."; a header
    without a space, 401 "Access denied. Invalid token format.".
    Otherwise the token is what stands between the first and the second
    space: the word in front of it is not compared with [Bearer], and what
    follows a second space is ignored. *)
Theorem authenticate_header
  (jwt_decode : string -> string -> option claims) (JWT_SECRET : string)
  (now : Z) (users : list User.t) :
  authenticate jwt_decode JWT_SECRET now None users
  = Respond (auth_failure 401 "Access denied. No token provided.")
  /\ authenticate jwt_decode JWT_SECRET now (Some "") users
     = Respond (auth_failure 401 "Access denied. No token provided.")
  /\ (forall header,
         header <> "" -> ~ In " "%char (chars header) ->
         authenticate jwt_decode JWT_SECRET now (Some header) users
         = Respond (auth_failure 401 "Access denied. Invalid token format."))
  /\ (forall scheme token rest,
         ~ In " "%char (chars scheme) -> ~ In " "%char (chars token) ->
         authenticate jwt_decode JWT_SECRET now
           (Some (scheme ++ " " ++ token
                  ++ match rest with Some r => " " ++ r | None => "" end)) users
         = authenticate jwt_decode JWT_SECRET now (Some ("Bearer " ++ token)) users).
Proof.
  split; [reflexivity|]. split; [reflexivity|]. split.
  - intros header Hne Hsp. unfold authenticate. cbv zeta. cbn [js truthy the].
    apply String.eqb_neq in Hne. rewrite Hne. cbn [negb].
    unfold split_on. rewrite split_on_from_no_sep by exact Hsp. reflexivity.
  - intros scheme token rest Hs Ht. unfold authenticate. cbv zeta.
    rewrite header_truthy.
    change (truthy (js (Some ("Bearer " ++ token)))) with true.
    cbn [negb the].
    rewrite (header_token scheme token rest Hs Ht).
    rewrite (bearer_token token Ht). reflexivity.
Qed.

Lemma authenticate_header_witness :
  authenticate sample_jwt_decode "secret" 9000
    (Some ("Token " ++ "secret.650000000000000000000001" ++ " trailing")) [alice]
  = authenticate sample_jwt_decode "secret" 9000
      (Some ("Bearer " ++ "secret.650000000000000000000001")) [alice].
Proof.
  apply (proj2 (proj2 (proj2 (authenticate_header sample_jwt_decode "secret"
                                9000 [alice])))
           "Token" "secret.650000000000000000000001" (Some "trailing"));
    cbn; intros H; repeat (destruct H as [H|H]; [discriminate H|]); exact H.
Defined.


(** ** The blogs of the caller *)



(** The state that the owner's listing filters on. *)
Lemma owner_state_filter (state : option string) :
  (if truthy (js state) && existsb (String.eqb (the state)) ["draft"; "published"]
   then Some (if (the state =? "draft")%string then Blog.draft else Blog.published)
   else None)
  = match state with
    | Some s => if (s =? "draft")%string then Some Blog.draft
                else if (s =? "published")%string then Some Blog.published
                else None
    | None => None
    end.
Proof.
  destruct state as [s|]; [|reflexivity]. cbn [js truthy the existsb].
  destruct (String.eqb_spec s "draft") as [->|Hd]; [reflexivity|].
  destruct (String.eqb_spec s "published") as [->|Hp]; [reflexivity|].
  cbn. now rewrite andb_false_r.
Qed.



(** X11.  A [state] parameter other than exactly [draft] or [published]
    is ignored by the owner's listing: the answer is the one given when no
    state is named. *)
Theorem getUserBlogs_ignores_other_states
  (S : server) (ties : Blog.t -> Z)
  (user : User.t) (page limit : option string) (state : string)
  (db : list Blog.t) :
  state <> "draft" -> state <> "published" ->
  getUserBlogs S ties user (mkUserBlogsQuery page limit (Some state)) db
  = getUserBlogs S ties user (mkUserBlogsQuery page limit None) db.
Proof.
  intros Hd Hp. unfold getUserBlogs. cbv zeta. cbn [uq_page uq_limit uq_state].
  rewrite !owner_state_filter.
  apply String.eqb_neq in Hd, Hp. now rewrite Hd, Hp.
Qed.

Lemma getUserBlogs_ignores_other_states_witness :
  getUserBlogs sample_server insertion_order alice
    (mkUserBlogsQuery None None (Some "archived"))
    [sample_blog (sample_id 1) "One" Blog.draft]
  = getUserBlogs sample_server insertion_order alice
      (mkUserBlogsQuery None None None)
      [sample_blog (sample_id 1) "One" Blog.draft].
Proof.
  apply (getUserBlogs_ignores_other_states sample_server insertion_order
           alice None None "archived");
    discriminate.
Defined.


(** ** Drafts are not public *)

Lemma compile_filter_published
  (S : server) (search : option string)
  (keep : Blog.t -> bool) (b : Blog.t) :
  compile_filter S (mkQuery (Some Blog.published) search) = Ok keep ->
  Blog.state b = Blog.draft -> keep b = false.
Proof.
  unfold compile_filter. cbn [q_state q_or_regex]. intros H Hs.
  destruct search as [pattern|].
  - destruct (regex_i S pattern); [|discriminate].
    injection H as <-. now rewrite Hs.
  - injection H as <-. now rewrite Hs.
Qed.

Lemma filter_app_rejected (A : Type) (f : A -> bool) (l : list A) (x : A) :
  f x = false -> filter f (l ++ [x]) = filter f l.
Proof. intros H. rewrite filter_app. cbn. rewrite H. apply app_nil_r. Qed.

Lemma getUserBlogs_first_page (S : server) (ties : Blog.t -> Z)
  (user : User.t) (state : option string) (db : list Blog.t) :
  exists blogs,
    getUserBlogs S ties user (mkUserBlogsQuery None None state) db
    = mkResponse 200 true None
        (BlogsData blogs
           (mkPagination (Num 1)
              (Num (Math_ceil (js_div
                 (Z.of_nat (List.length
                    (filter (owner_keep
                       (mkOwnerQuery (User._id user)
                          match state with
                          | Some s => if (s =? "draft")%string then Some Blog.draft
                                      else if (s =? "published")%string
                                           then Some Blog.published else None
                          | None => None
                          end)) db))) 20)))
              (Z.of_nat (List.length
                 (filter (owner_keep
                    (mkOwnerQuery (User._id user)
                       match state with
                       | Some s => if (s =? "draft")%string then Some Blog.draft
                                   else if (s =? "published")%string
                                        then Some Blog.published else None
                       | None => None
                       end)) db)))
              (Num 20))).
Proof.
  unfold getUserBlogs. cbv zeta. cbn [uq_page uq_limit uq_state].
  rewrite owner_state_filter.
  change (parseInt_or None 1) with (Num 1).
  change (parseInt_or None 20) with (Num 20).
  change (js_mul (js_sub (Num 1) (Num 1)) (Num 20)) with (Num 0).
  unfold Blog_find_owner, Blog_countDocuments_owner.
  rewrite window_in_range by (try split; try discriminate; reflexivity).
  rewrite ceil_div_Num by discriminate.
  eexists. reflexivity.
Qed.

(** X12.  A blog that has just been created, whatever the members of the
    body of the request, is a draft and stays out of sight of the public:
    every public listing answers as it did before the creation, and the
    public fetch of the new identifier answers 404.  Its author sees it:
    the number of drafts in the author's own listing has grown by one. *)
Theorem createBlog_draft_is_not_public
  (L : library) (fresh : ObjectId) (now : Z) (user : User.t)
  (req : blog_request) (db : list Blog.t) :
  let db' := fst (createBlog L fresh now user req db) in
  success (snd (createBlog L fresh now user req db)) = true ->
  (forall S ties query,
      getAllPublishedBlogs S ties query db'
      = getAllPublishedBlogs S ties query db)
  /\ (forall castObjectId later id,
         castObjectId id = Some fresh ->
         getBlogById castObjectId later id db'
         = (db', failure 404 "Blog not found"))
  /\ forall S ties, exists blogs blogs' pages pages',
       getUserBlogs S ties user (mkUserBlogsQuery None None (Some "draft")) db
       = mkResponse 200 true None (BlogsData blogs pages)
       /\ getUserBlogs S ties user (mkUserBlogsQuery None None (Some "draft")) db'
          = mkResponse 200 true None (BlogsData blogs' pages')
       /\ totalBlogs pages' = totalBlogs pages + 1.
Proof.
  intros db' Hok. unfold db'. clear db'.
  destruct (createBlog_any_cases L fresh now user req db)
    as [(_ & Hf & _) | (doc & -> & K & _ & _ & _ & _ & _ & Hid & _)];
    [congruence|].
  destruct K as (K1 & K2 & K3 & _).
  cbn [Blog._id Blog.author Blog.state] in K1, K2, K3.
  cbn [fst]. clear Hok. split; [|split].
  - intros S ties query. rewrite !getAllPublishedBlogs_unfold. cbv zeta.
    destruct (compile_filter S _) as [keep|e] eqn:Hk; [|reflexivity].
    rewrite (filter_app_rejected _ keep db doc
               (compile_filter_published S _ keep doc Hk K3)).
    reflexivity.
  - intros castObjectId later id Hc. unfold getBlogById. rewrite Hc.
    rewrite findOne_published_none; [reflexivity|].
    intros b Hin Hb. apply in_app_or in Hin as [Hin | [<- | []]].
    + now apply Hid in Hin.
    + exact K3.
  - intros S ties.
    destruct (getUserBlogs_first_page S ties user (Some "draft") db)
      as [blogs H].
    destruct (getUserBlogs_first_page S ties user (Some "draft")
                (db ++ [doc])) as [blogs' H'].
    do 4 eexists. split; [exact H|]. split; [exact H'|].
    cbn [totalBlogs]. change ("draft" =? "draft")%string with true. cbv iota.
    assert (Hk : owner_keep (mkOwnerQuery (User._id user) (Some Blog.draft))
                   doc = true).
    { unfold owner_keep. cbn [oq_author oq_state]. rewrite K2, K3.
      now rewrite String.eqb_refl. }
    rewrite filter_app, length_app. cbn [filter]. rewrite Hk.
    cbn [List.length]. lia.
Qed.

Lemma createBlog_draft_is_not_public_witness :
  getBlogById castObjectId_hex 6000 (sample_id 7)
    (fst (createBlog sample_library (sample_id 7) 5000 alice
            (blog_req (mkBody (Some "Hello") None None (Some "one two three")
                              None))
            [sample_blog (sample_id 1) "Other" Blog.published]))
  = (fst (createBlog sample_library (sample_id 7) 5000 alice
            (blog_req (mkBody (Some "Hello") None None (Some "one two three")
                              None))
            [sample_blog (sample_id 1) "Other" Blog.published]),
     failure 404 "Blog not found").
Proof.
  apply (proj1 (proj2 (createBlog_draft_is_not_public sample_library
           (sample_id 7) 5000 alice
           (blog_req (mkBody (Some "Hello") None None (Some "one two three")
                             None))
           [sample_blog (sample_id 1) "Other" Blog.published] eq_refl)));
    reflexivity.
Defined.

(** ** Publishing and withdrawing *)

Lemma updateBlog_state_only
  (castObjectId : string -> option ObjectId) (now : Z) (user : User.t)
  (id : string) (i : ObjectId) (state : Blog.State) (db : list Blog.t)
  (original : Blog.t) :
  castObjectId id = Some i ->
  Blog_findById i db = Some original ->
  Blog.author original = User._id user ->
  validate original = [] ->
  updateBlog_typed castObjectId now user id
    (mkBody None None None None (Some (state_string state))) db
  = (map (fun b => if has_id i b
                   then set_updatedAt now (set_state state original) else b) db,
     mkResponse 200 true (Some "Blog updated successfully")
       (BlogData (set_updatedAt now (set_state state original)))).
Proof.
  intros Hc Hf Ha Hv. unfold updateBlog_typed. cbv zeta. rewrite Hc, Hf, Ha.
  rewrite String.eqb_refl. cbn [negb]. cbn [body_title body_description
    body_tags body_body body_state js truthy the].
  apply findById_some in Hf as [_ Hid].
  assert (Hs : (if negb (state_string state =? "")%string
                   && existsb (String.eqb (state_string state)) ["draft"; "published"]
                then set_state (if (state_string state =? "draft")%string
                                then Blog.draft else Blog.published) original
                else original) = set_state state original)
    by (destruct state; reflexivity).
  rewrite Hs. rewrite save_existing_unfold; cbv zeta.
  change (validate (set_state state original)) with (validate original).
  rewrite Hv. cbn [set_updatedAt set_state Blog.title Blog._id].
  rewrite String.eqb_refl, Hid. reflexivity.
Qed.

Lemma findOne_published_after_replace (i : ObjectId) (b b' : Blog.t)
  (db : list Blog.t) :
  Blog_findById i db = Some b ->
  Blog._id b' = i -> Blog.state b' = Blog.published ->
  Blog_findOne_published i (map (fun x => if has_id i x then b' else x) db)
  = Some b'.
Proof.
  intros Hf Hid Hst. unfold Blog_findOne_published, Blog_findById in *.
  induction db as [|x db IH]; [discriminate|].
  cbn [map find] in *. destruct (has_id i x) eqn:Hx.
  - assert (Hb : has_id i b' = true) by now apply has_id_eq.
    now rewrite Hb, Hst.
  - rewrite Hx. cbn [andb]. now apply IH.
Qed.

(** X13.  Visibility follows the state that the author sets.  After the
    author of a valid blog has updated its state to [published], the
    public fetch of that blog succeeds and counts one read; after the
    author has updated its state to [draft], the public fetch answers
    404. *)
Theorem publishing_controls_the_public_fetch
  (L : library)
  (castObjectId : string -> option ObjectId) (now later : Z) (user : User.t)
  (id : string) (i : ObjectId) (db : list Blog.t) (original : Blog.t) :
  castObjectId id = Some i ->
  Blog_findById i db = Some original ->
  Blog.author original = User._id user ->
  validate original = [] ->
  (exists blog,
      snd (getBlogById castObjectId later id
             (fst (updateBlog castObjectId L now user id
                     (blog_req (mkBody None None None None (Some "published")))
                     db)))
      = mkResponse 200 true None (BlogData blog)
      /\ Blog._id blog = i
      /\ Blog.state blog = Blog.published
      /\ Blog.read_count blog = Blog.read_count original + 1)
  /\ getBlogById castObjectId later id
       (fst (updateBlog castObjectId L now user id
               (blog_req (mkBody None None None None (Some "draft"))) db))
     = (fst (updateBlog castObjectId L now user id
               (blog_req (mkBody None None None None (Some "draft"))) db),
        failure 404 "Blog not found").
Proof.
  intros Hc Hf Ha Hv. rewrite !updateBlog_on_typed.
  pose proof (findById_some _ _ _ Hf) as [_ Hid]. split.
  - pose proof (updateBlog_state_only castObjectId now user id i Blog.published
                  db original Hc Hf Ha Hv) as U.
    cbn [state_string] in U. rewrite U. clear U. cbn [fst].
    set (saved := set_updatedAt now (set_state Blog.published original)).
    assert (Hfind : Blog_findOne_published i
                      (map (fun b => if has_id i b then saved else b) db)
                    = Some saved)
      by (apply (findOne_published_after_replace i original); auto).
    destruct (getBlogById_found castObjectId later id i saved _ Hc Hfind Hv)
      as [-> _].
    eexists. split; [reflexivity|]. cbn. auto.
  - pose proof (updateBlog_state_only castObjectId now user id i Blog.draft
                  db original Hc Hf Ha Hv) as U.
    cbn [state_string] in U. rewrite U. clear U. cbn [fst].
    unfold getBlogById. rewrite Hc.
    rewrite findOne_published_none; [reflexivity|].
    intros b Hin Hb. apply in_map_iff in Hin as (x & Hx & _).
    destruct (has_id i x) eqn:E; [now subst b|].
    subst b. apply has_id_eq in Hb. congruence.
Qed.

Lemma publishing_controls_the_public_fetch_witness :
  getBlogById castObjectId_hex 7000 (sample_id 1)
    (fst (updateBlog castObjectId_hex sample_library 6000 alice (sample_id 1)
            (blog_req (mkBody None None None None (Some "draft")))
            [sample_blog (sample_id 1) "Hello" Blog.published]))
  = (fst (updateBlog castObjectId_hex sample_library 6000 alice (sample_id 1)
            (blog_req (mkBody None None None None (Some "draft")))
            [sample_blog (sample_id 1) "Hello" Blog.published]),
     failure 404 "Blog not found").
Proof.
  apply (proj2 (publishing_controls_the_public_fetch sample_library
           castObjectId_hex 6000 7000
           alice (sample_id 1) (sample_id 1)
           [sample_blog (sample_id 1) "Hello" Blog.published]
           (sample_blog (sample_id 1) "Hello" Blog.published)
           eq_refl eq_refl eq_refl eq_refl)).
Defined.


(** ** Delete *)

Lemma delete_length (i : ObjectId) (db : list Blog.t) (b : Blog.t) :
  Blog_findById i db = Some b ->
  List.length db = S (List.length (Blog_findByIdAndDelete i db)).
Proof.
  unfold Blog_findById. induction db as [|x db IH]; [discriminate|].
  cbn. destruct (has_id i x); [reflexivity|]. intros H. cbn. now rewrite IH.
Qed.

Lemma delete_In (i : ObjectId) (db : list Blog.t) (b : Blog.t) :
  In b (Blog_findByIdAndDelete i db) -> In b db.
Proof.
  induction db as [|x db IH]; [contradiction|]. cbn.
  destruct (has_id i x); [now right|]. intros [H|H]; [now left|right; auto].
Qed.

Lemma delete_keeps (i : ObjectId) (db : list Blog.t) (b : Blog.t) :
  In b db -> Blog._id b <> i -> In b (Blog_findByIdAndDelete i db).
Proof.
  induction db as [|x db IH]; [contradiction|]. cbn. intros [->|Hin] Hne.
  - destruct (has_id i b) eqn:E; [apply has_id_eq in E; contradiction|now left].
  - destruct (has_id i x); [exact Hin|right; auto].
Qed.

Lemma delete_gone (i : ObjectId) (db : list Blog.t) :
  NoDup (map Blog._id db) ->
  forall b, In b (Blog_findByIdAndDelete i db) -> Blog._id b <> i.
Proof.
  induction db as [|x db IH]; [contradiction|]. cbn [map Blog_findByIdAndDelete].
  intros Hnd b. apply NoDup_cons_iff in Hnd as [Hx Hnd].
  destruct (has_id i x) eqn:E.
  - apply has_id_eq in E. intros Hin Hb. apply Hx. rewrite E, <- Hb.
    now apply in_map.
  - intros [<-|Hin].
    + intros Hb. apply has_id_eq in Hb. congruence.
    + now apply IH.
Qed.

Lemma findById_none (i : ObjectId) (db : list Blog.t) :
  (forall b, In b db -> Blog._id b <> i) -> Blog_findById i db = None.
Proof.
  intros H. destruct (Blog_findById i db) as [b|] eqn:E; [|reflexivity].
  apply findById_some in E as [Hin Hid]. now apply H in Hin.
Qed.

(** X14.  When the author deletes a blog, the answer is 200 and exactly
    one blog leaves the collection; every blog with another identifier
    stays, and nothing is added.  If identifiers are unique, the
    identifier is gone: deleting it again, by anyone, and fetching it
    answer 404. *)
Theorem deleteBlog_removes_the_blog
  (castObjectId : string -> option ObjectId) (user : User.t) (id : string)
  (i : ObjectId) (db : list Blog.t) (blog : Blog.t) :
  let db' := fst (deleteBlog castObjectId user id db) in
  castObjectId id = Some i ->
  Blog_findById i db = Some blog ->
  Blog.author blog = User._id user ->
  snd (deleteBlog castObjectId user id db)
  = mkResponse 200 true (Some "Blog deleted successfully") NoData
  /\ List.length db = S (List.length db')
  /\ (forall b, In b db' -> In b db)
  /\ (forall b, In b db -> Blog._id b <> i -> In b db')
  /\ (NoDup (map Blog._id db) ->
      (forall anyone,
          deleteBlog castObjectId anyone id db'
          = (db', failure 404 "Blog not found"))
      /\ (forall now,
             getBlogById castObjectId now id db'
             = (db', failure 404 "Blog not found"))).
Proof.
  intros db' Hc Hf Ha. unfold db', deleteBlog. rewrite Hc, Hf, Ha.
  rewrite String.eqb_refl. cbn [negb fst snd].
  split; [reflexivity|]. split; [now apply (delete_length i db blog)|].
  split; [intros b; apply delete_In|]. split; [intros b; apply delete_keeps|].
  intros Hnd. pose proof (delete_gone i db Hnd) as Hgone. split.
  - intros anyone. now rewrite (findById_none _ _ Hgone).
  - intros now. unfold getBlogById. rewrite Hc.
    rewrite findOne_published_none; [reflexivity|].
    intros b Hin Hb. now apply Hgone in Hin.
Qed.

Lemma deleteBlog_removes_the_blog_witness :
  deleteBlog castObjectId_hex bob (sample_id 1)
    (fst (deleteBlog castObjectId_hex alice (sample_id 1)
            [sample_blog (sample_id 1) "One" Blog.published;
             sample_blog (sample_id 2) "Two" Blog.published]))
  = (fst (deleteBlog castObjectId_hex alice (sample_id 1)
            [sample_blog (sample_id 1) "One" Blog.published;
             sample_blog (sample_id 2) "Two" Blog.published]),
     failure 404 "Blog not found").
Proof.
  refine (proj1 (proj2 (proj2 (proj2 (proj2
           (deleteBlog_removes_the_blog castObjectId_hex alice (sample_id 1)
              (sample_id 1)
              [sample_blog (sample_id 1) "One" Blog.published;
               sample_blog (sample_id 2) "Two" Blog.published]
              (sample_blog (sample_id 1) "One" Blog.published)
              eq_refl eq_refl eq_refl)))) _) bob).
  repeat constructor; cbn; intros H;
    repeat (destruct H as [H|H]; [discriminate H|]); exact H.
Defined.

(** ** What update and fetch leave alone *)

Lemma NoDup_map_eq (A B : Type) (f : A -> B) (l : list A) (x y : A) :
  NoDup (map f l) -> In x l -> In y l -> f x = f y -> x = y.
Proof.
  induction l as [|a l IH]; [contradiction|]. cbn [map].
  intros Hnd Hx Hy Hf. apply NoDup_cons_iff in Hnd as [Ha Hnd].
  destruct Hx as [->|Hx], Hy as [->|Hy]; auto.
  - exfalso. apply Ha. rewrite Hf. now apply in_map.
  - exfalso. apply Ha. rewrite <- Hf. now apply in_map.
Qed.

Lemma Forall2_map_In (A : Type) (R : A -> A -> Prop) (f : A -> A) (l : list A) :
  (forall x, In x l -> R x (f x)) -> Forall2 R l (map f l).
Proof.
  induction l as [|a l IH]; intros H; constructor.
  - apply H. now left.
  - apply IH. intros x Hx. apply H. now right.
Qed.

Lemma Forall2_same (A : Type) (R : A -> A -> Prop) (l : list A) :
  (forall x, R x x) -> Forall2 R l l.
Proof. intros H. induction l; constructor; auto. Qed.

(** X15.  An update, whatever the members of its body, never adds or
    removes a blog and never changes an identifier; an update that is not
    accepted changes nothing at all.  When identifiers are unique, no
    update changes the author, the read count or the creation date of any
    blog, and a blog with another identifier than the one addressed is
    left exactly as it was. *)
Theorem updateBlog_frame
  (castObjectId : string -> option ObjectId) (L : library) (now : Z)
  (user : User.t) (id : string) (req : blog_request) (db : list Blog.t) :
  let db' := fst (updateBlog castObjectId L now user id req db) in
  map Blog._id db' = map Blog._id db
  /\ (status (snd (updateBlog castObjectId L now user id req db)) <> 200 ->
      db' = db)
  /\ (NoDup (map Blog._id db) ->
      Forall2 (fun b b' =>
                 Blog.author b' = Blog.author b
                 /\ Blog.read_count b' = Blog.read_count b
                 /\ Blog.timestamp b' = Blog.timestamp b
                 /\ (castObjectId id <> Some (Blog._id b) -> b' = b))
              db db').
Proof.
  intros db'. unfold db'.
  destruct (updateBlog_any_cases castObjectId L now user id req db)
    as [[-> Hs] | (i & original & doc & Hc & Hf & Ha & -> & Hi & Hau & Hrc
                   & Hts & _)].
  - split; [reflexivity|]. split; [reflexivity|].
    intros _. apply Forall2_same. intros x. repeat split; reflexivity.
  - cbn [fst snd status]. apply findById_some in Hf as [Hin Hid].
    split; [|split].
    + rewrite map_map. apply map_ext_in. intros b Hb.
      destruct (has_id i b) eqn:E; [|reflexivity].
      apply has_id_eq in E. congruence.
    + intros H. contradiction.
    + intros Hnd. apply Forall2_map_In. intros x Hx.
      destruct (has_id i x) eqn:E.
      * apply has_id_eq in E.
        assert (x = original)
          by (apply (NoDup_map_eq _ _ Blog._id db); auto; congruence).
        subst x. repeat split; try assumption. intros H. congruence.
      * repeat split.
Qed.

Lemma updateBlog_frame_witness :
  Forall2 (fun b b' =>
             Blog.author b' = Blog.author b
             /\ Blog.read_count b' = Blog.read_count b
             /\ Blog.timestamp b' = Blog.timestamp b
             /\ (castObjectId_hex (sample_id 1) <> Some (Blog._id b) -> b' = b))
    [sample_blog (sample_id 1) "One" Blog.published;
     sample_blog (sample_id 2) "Two" Blog.published]
    (fst (updateBlog castObjectId_hex sample_library 6000 alice (sample_id 1)
            (blog_req (mkBody (Some "New") None None (Some "new body") None))
            [sample_blog (sample_id 1) "One" Blog.published;
             sample_blog (sample_id 2) "Two" Blog.published])).
Proof.
  apply (updateBlog_frame castObjectId_hex sample_library 6000 alice
           (sample_id 1)
           (blog_req (mkBody (Some "New") None None (Some "new body") None))
           [sample_blog (sample_id 1) "One" Blog.published;
            sample_blog (sample_id 2) "Two" Blog.published]).
  repeat constructor; cbn; intros H;
    repeat (destruct H as [H|H]; [discriminate H|]); exact H.
Defined.

(** X16.  A public fetch never adds or removes a blog and never changes
    an identifier; a fetch that does not succeed changes nothing.  When
    identifiers are unique, a fetch changes nothing of any blog but
    [read_count], which it never lowers and raises by at most one, and
    [updatedAt]. *)
Theorem getBlogById_frame
  (castObjectId : string -> option ObjectId) (now : Z) (id : string)
  (db : list Blog.t) :
  let db' := fst (getBlogById castObjectId now id db) in
  map Blog._id db' = map Blog._id db
  /\ (status (snd (getBlogById castObjectId now id db)) <> 200 -> db' = db)
  /\ (NoDup (map Blog._id db) ->
      Forall2 (fun b b' =>
                 set_updatedAt 0 (set_read_count 0 b')
                 = set_updatedAt 0 (set_read_count 0 b)
                 /\ Blog.read_count b <= Blog.read_count b'
                    <= Blog.read_count b + 1)
              db db').
Proof.
  intros db'. unfold db'.
  destruct (getBlogById_cases castObjectId now id db)
    as [[-> Hs] | (i & original & Hc & Hf & Hv & ->)].
  - split; [reflexivity|]. split; [reflexivity|].
    intros _. apply Forall2_same. intros x. split; [reflexivity|lia].
  - cbn [fst snd status]. apply findOne_published_some in Hf as (Hin & Hid & _).
    split; [|split].
    + rewrite map_map. apply map_ext_in. intros b Hb.
      destruct (has_id i b) eqn:E; [|reflexivity].
      apply has_id_eq in E. cbn. congruence.
    + intros H. contradiction.
    + intros Hnd. apply Forall2_map_In. intros x Hx.
      destruct (has_id i x) eqn:E.
      * apply has_id_eq in E.
        assert (x = original)
          by (apply (NoDup_map_eq _ _ Blog._id db); auto; congruence).
        subst x. cbn. split; [reflexivity|lia].
      * split; [reflexivity|lia].
Qed.

Lemma getBlogById_frame_witness :
  Forall2 (fun b b' =>
             set_updatedAt 0 (set_read_count 0 b')
             = set_updatedAt 0 (set_read_count 0 b)
             /\ Blog.read_count b <= Blog.read_count b'
                <= Blog.read_count b + 1)
    [sample_blog (sample_id 1) "One" Blog.published;
     sample_blog (sample_id 2) "Two" Blog.published]
    (fst (getBlogById castObjectId_hex 6000 (sample_id 1)
            [sample_blog (sample_id 1) "One" Blog.published;
             sample_blog (sample_id 2) "Two" Blog.published])).
Proof.
  apply (getBlogById_frame castObjectId_hex 6000 (sample_id 1)
           [sample_blog (sample_id 1) "One" Blog.published;
            sample_blog (sample_id 2) "Two" Blog.published]).
  repeat constructor; cbn; intros H;
    repeat (destruct H as [H|H]; [discriminate H|]); exact H.
Defined.


(** ** Invariants of the collection *)

Lemma Forall_map_replace (P : Blog.t -> Prop) (f : Blog.t -> bool)
  (b' : Blog.t) (db : list Blog.t) :
  Forall P db -> P b' -> Forall P (map (fun b => if f b then b' else b) db).
Proof.
  intros H Hb. induction H; cbn; constructor; auto. now destruct (f x).
Qed.

Lemma typeof_string (v : option json) :
  typeof (jsv v) = "string" -> exists s, v = Some (JsString s).
Proof.
  destruct v as [[| x | q | s | items | members]|]; try discriminate.
  intros _. now exists s.
Qed.

Lemma In_replaced (i : ObjectId) (original doc : Blog.t) (db : list Blog.t) :
  In original db -> Blog._id original = i ->
  In doc (map (fun b => if has_id i b then doc else b) db).
Proof.
  intros Hin Hid. apply in_map_iff. exists original. split; [|exact Hin].
  assert (E : has_id i original = true) by now apply has_id_eq.
  now rewrite E.
Qed.

(** X17.  If every blog of the collection holds the reading time of its
    body, this is still so after a fetch or a delete, and after a create
    or an update whose [body] member is a string or does not pass the
    presence test.  A create or an update that is accepted with a [body]
    that is not a string breaks it: the body is stored as the library
    casts it, and is not empty, while the reading time is 0. *)
Theorem reading_times_stay_in_step
  (castObjectId : string -> option ObjectId) (L : library) (fresh : ObjectId)
  (now : Z) (user : User.t) (id : string) (req : blog_request)
  (db : list Blog.t) :
  reading_times_ok db ->
  reading_times_ok (fst (getBlogById castObjectId now id db))
  /\ reading_times_ok (fst (deleteBlog castObjectId user id db))
  /\ (typeof (jsv (req_body req)) = "string"
      \/ truthy (jsv (req_body req)) = false ->
      reading_times_ok (fst (createBlog L fresh now user req db))
      /\ reading_times_ok (fst (updateBlog castObjectId L now user id req db)))
  /\ (typeof (jsv (req_body req)) <> "string" ->
      (success (snd (createBlog L fresh now user req db)) = true ->
       ~ reading_times_ok (fst (createBlog L fresh now user req db)))
      /\ (truthy (jsv (req_body req)) = true ->
          status (snd (updateBlog castObjectId L now user id req db)) = 200 ->
          ~ reading_times_ok
              (fst (updateBlog castObjectId L now user id req db)))).
Proof.
  intros Hok. unfold reading_times_ok in *. split; [|split; [|split]].
  - destruct (getBlogById_cases castObjectId now id db)
      as [[-> _] | (i & original & _ & Hf & _ & ->)]; [exact Hok|].
    cbn [fst]. apply Forall_map_replace; [exact Hok|].
    apply findOne_published_some in Hf as (Hin & _).
    rewrite Forall_forall in Hok. exact (Hok original Hin).
  - unfold deleteBlog. destruct (castObjectId id) as [i|]; [|exact Hok].
    destruct (Blog_findById i db); [|exact Hok].
    destruct (negb _); [exact Hok|]. cbn [fst].
    rewrite Forall_forall in *. intros b Hb. apply Hok.
    now apply delete_In in Hb.
  - intros Hbody. split.
    + destruct (createBlog_any_cases L fresh now user req db)
        as [(-> & _) | (doc & -> & K & _ & Tb & _ & _ & Hs & _)];
        [exact Hok|].
      cbn [fst]. apply Forall_app. split; [exact Hok|].
      constructor; [|constructor].
      destruct K as (_ & _ & _ & _ & K5 & _). cbn [Blog.reading_time] in K5.
      destruct Hbody as [Hstr | Hfalsy]; [|congruence].
      apply typeof_string in Hstr as [s Hstr].
      rewrite K5, (Hs s Hstr), Hstr. reflexivity.
    + destruct (updateBlog_any_cases castObjectId L now user id req db)
        as [[-> _] | (i & original & doc & _ & Hf & _ & -> & _ & _ & _ & _ & _
                      & _ & _ & _ & Hrt & Hsame & Hs)]; [exact Hok|].
      cbn [fst]. apply Forall_map_replace; [exact Hok|].
      apply findById_some in Hf as [Hin _].
      rewrite Forall_forall in Hok. specialize (Hok original Hin).
      destruct (truthy (jsv (req_body req))) eqn:Tb.
      * destruct Hbody as [Hstr | Hfalsy]; [|discriminate].
        apply typeof_string in Hstr as [s Hstr].
        assert (Hne : s <> "").
        { intros ->. rewrite Hstr in Tb. discriminate Tb. }
        rewrite Hrt, (Hs s Hstr Hne), Hstr. reflexivity.
      * rewrite Hrt, (Hsame eq_refl). exact Hok.
  - intros Hbody. split.
    + intros Hsucc.
      destruct (createBlog_any_cases L fresh now user req db)
        as [(_ & Hf & _) | (doc & E & K & _ & _ & _ & Hb & _)];
        [congruence|].
      rewrite E. cbn [fst]. intros H. apply Forall_app in H as [_ H].
      apply Forall_inv in H.
      destruct K as (_ & _ & _ & _ & K5 & _). cbn [Blog.reading_time] in K5.
      rewrite K5, (reading_time_not_string _ Hbody) in H.
      pose proof (reading_time_positive _ Hb). lia.
    + intros Tb Hstatus.
      destruct (updateBlog_any_cases castObjectId L now user id req db)
        as [[_ Hs] | (i & original & doc & _ & Hf & _ & E & _ & _ & _ & _ & _
                      & _ & Hb & _ & Hrt & _)]; [contradiction|].
      rewrite E. cbn [fst]. intros H. rewrite Forall_forall in H.
      apply findById_some in Hf as [Hin Hid].
      specialize (H doc (In_replaced i original doc db Hin Hid)).
      rewrite Hrt, Tb, (reading_time_not_string _ Hbody) in H.
      pose proof (reading_time_positive _ Hb). lia.
Qed.

(** A create whose body is the number 12345: the body is stored as the
    string of the number, with the reading time 0. *)
Lemma reading_times_stay_in_step_witness :
  ~ reading_times_ok
      (fst (createBlog number_library (sample_id 5) 6000 alice
              (mkBlogRequest (Some (JsString "Numbers")) None None
                             (Some (JsNumber (inject_Z 12345))) None)
              [sample_blog (sample_id 1) "One" Blog.published])).
Proof.
  apply (proj1 (proj2 (proj2 (proj2
           (reading_times_stay_in_step castObjectId_hex number_library
              (sample_id 5) 6000 alice (sample_id 1)
              (mkBlogRequest (Some (JsString "Numbers")) None None
                             (Some (JsNumber (inject_Z 12345))) None)
              [sample_blog (sample_id 1) "One" Blog.published]
              ltac:(repeat constructor))))
           ltac:(discriminate))).
  reflexivity.
Defined.

Lemma createBlog_number_body :
  createBlog number_library (sample_id 5) 6000 alice
    (mkBlogRequest (Some (JsString "Numbers")) None None
                   (Some (JsNumber (inject_Z 12345))) None) []
  = ([Blog.mk (sample_id 5) "Numbers" None (User._id alice) Blog.draft 0 0 []
              "12345" 6000 6000],
     mkResponse 201 true (Some "Blog created successfully")
       (BlogData (Blog.mk (sample_id 5) "Numbers" None (User._id alice)
                          Blog.draft 0 0 [] "12345" 6000 6000))).
Proof. reflexivity. Qed.

(** The same for an update by the author. *)
Lemma updateBlog_number_body :
  updateBlog castObjectId_hex number_library 6000 alice (sample_id 1)
    (mkBlogRequest None None None (Some (JsNumber (inject_Z 12345))) None)
    [sample_blog (sample_id 1) "One" Blog.published]
  = ([Blog.mk (sample_id 1) "One" (Some "about") (User._id alice)
              Blog.published 0 0 ["news"] "12345" 1000 6000],
     mkResponse 200 true (Some "Blog updated successfully")
       (BlogData (Blog.mk (sample_id 1) "One" (Some "about") (User._id alice)
                          Blog.published 0 0 ["news"] "12345" 1000 6000))).
Proof. reflexivity. Qed.

Lemma NoDup_snoc (A : Type) (l : list A) (x : A) :
  NoDup l -> ~ In x l -> NoDup (l ++ [x]).
Proof.
  intros Hnd Hx. apply NoDup_app; [exact Hnd|repeat constructor; intros []|].
  intros a Ha [<-|[]]. contradiction.
Qed.

Lemma NoDup_titles_replace (i : ObjectId) (saved : Blog.t) (db : list Blog.t) :
  NoDup (map Blog._id db) ->
  NoDup (map Blog.title db) ->
  (forall b, In b db -> Blog._id b <> i -> Blog.title b <> Blog.title saved) ->
  NoDup (map Blog.title (map (fun b => if has_id i b then saved else b) db)).
Proof.
  induction db as [|x db IH]; intros Hid Ht Hfree; [constructor|].
  cbn [map] in *. apply NoDup_cons_iff in Hid as [Hxi Hid].
  apply NoDup_cons_iff in Ht as [Hxt Ht].
  assert (IH' := IH Hid Ht (fun b Hb => Hfree b (or_intror Hb))).
  constructor; [|exact IH'].
  rewrite map_map, in_map_iff. intros (b & Hb & Hin).
  destruct (has_id i x) eqn:Ex.
  - apply has_id_eq in Ex. destruct (has_id i b) eqn:Eb.
    + apply has_id_eq in Eb. apply Hxi. rewrite Ex, <- Eb. now apply in_map.
    + apply (Hfree b (or_intror Hin)); [|exact Hb].
      intros E. apply has_id_eq in E. congruence.
  - destruct (has_id i b) eqn:Eb.
    + apply (Hfree x (or_introl eq_refl)); [|now symmetry].
      intros E. apply has_id_eq in E. congruence.
    + apply Hxt. rewrite <- Hb. now apply in_map.
Qed.

Lemma map_id_replace (i : ObjectId) (saved : Blog.t) (db : list Blog.t) :
  Blog._id saved = i ->
  map Blog._id (map (fun b => if has_id i b then saved else b) db)
  = map Blog._id db.
Proof.
  intros Hs. rewrite map_map. apply map_ext. intros b.
  destruct (has_id i b) eqn:E; [|reflexivity].
  apply has_id_eq in E. congruence.
Qed.

Lemma NoDup_delete (A : Type) (f : Blog.t -> A) (i : ObjectId)
  (db : list Blog.t) :
  NoDup (map f db) -> NoDup (map f (Blog_findByIdAndDelete i db)).
Proof.
  induction db as [|x db IH]; intros H; [constructor|]. cbn [map] in *.
  apply NoDup_cons_iff in H as [Hx H]. cbn [Blog_findByIdAndDelete].
  destruct (has_id i x); [exact H|]. cbn [map]. constructor; [|now apply IH].
  rewrite in_map_iff. intros (b & Hb & Hin). apply Hx. rewrite <- Hb.
  apply in_map. now apply delete_In in Hin.
Qed.

(** X18.  If identifiers and titles are unique in the collection, they
    are still unique after a create, an update, a fetch or a delete,
    whatever the members of the body of the request. *)
Theorem keys_stay_unique
  (castObjectId : string -> option ObjectId) (L : library) (fresh : ObjectId)
  (now : Z) (user : User.t) (id : string) (req : blog_request)
  (db : list Blog.t) :
  keys_ok db ->
  keys_ok (fst (createBlog L fresh now user req db))
  /\ keys_ok (fst (updateBlog castObjectId L now user id req db))
  /\ keys_ok (fst (getBlogById castObjectId now id db))
  /\ keys_ok (fst (deleteBlog castObjectId user id db)).
Proof.
  intros [Hid Ht]. split; [|split; [|split]].
  - destruct (createBlog_any_cases L fresh now user req db)
      as [(-> & _) | (doc & -> & K & _ & _ & _ & _ & _ & Hfresh & Htitle)];
      [now split|].
    destruct K as (K1 & _). cbn [Blog._id] in K1.
    cbn [fst]. unfold keys_ok. rewrite !map_app. cbn [map].
    split; apply NoDup_snoc; try assumption.
    + rewrite in_map_iff. intros (b & Hb & Hin). rewrite K1 in Hb.
      now apply (Hfresh b Hin).
    + rewrite in_map_iff. intros (b & Hb & Hin). now apply (Htitle b Hin).
  - destruct (updateBlog_any_cases castObjectId L now user id req db)
      as [[-> _] | (i & original & doc & _ & Hf & _ & E & Hdi & _ & _ & _ & _
                    & _ & _ & Hfree & _)]; [now split|].
    rewrite E. cbn [fst]. apply findById_some in Hf as [Hin Hi].
    split; [now rewrite map_id_replace|].
    apply NoDup_titles_replace; try assumption.
    intros b Hb Hne.
    destruct (string_dec (Blog.title doc) (Blog.title original)) as [Heq|Hneq].
    + rewrite Heq. intros Hbt. apply Hne.
      rewrite (NoDup_map_eq _ _ Blog.title db b original Ht Hb Hin Hbt).
      exact Hi.
    + now apply Hfree.
  - destruct (getBlogById_cases castObjectId now id db)
      as [[-> _] | (i & original & _ & Hf & _ & E)]; [now split|].
    rewrite E. cbn [fst]. apply findOne_published_some in Hf as (Hin & Hi & _).
    split; [now rewrite map_id_replace|].
    apply NoDup_titles_replace; try assumption.
    intros b Hb Hne. cbn [set_updatedAt set_read_count Blog.title].
    intros Hbt. apply Hne.
    rewrite (NoDup_map_eq _ _ Blog.title db b original Ht Hb Hin Hbt).
    exact Hi.
  - unfold deleteBlog. destruct (castObjectId id) as [i|]; [|now split].
    destruct (Blog_findById i db); [|now split].
    destruct (negb _); [now split|]. cbn [fst].
    split; now apply NoDup_delete.
Qed.

Lemma keys_stay_unique_witness :
  keys_ok
    (fst (createBlog sample_library (sample_id 5) 6000 alice
            (blog_req (mkBody (Some "Three") None None (Some "a body") None))
            [sample_blog (sample_id 1) "One" Blog.published;
             sample_blog (sample_id 2) "Two" Blog.draft])).
Proof.
  apply (keys_stay_unique castObjectId_hex sample_library (sample_id 5) 6000
           alice (sample_id 1)
           (blog_req (mkBody (Some "Three") None None (Some "a body") None))
           [sample_blog (sample_id 1) "One" Blog.published;
            sample_blog (sample_id 2) "Two" Blog.draft]).
  split; repeat constructor; cbn; intros H;
    repeat (destruct H as [H|H]; [discriminate H|]); exact H.
Defined.

(** ** Errors of the schema *)

(** X19.  A create whose trimmed title is the title of a blog of the
    collection is answered 400 "title already exists" and stores
    nothing. *)
Theorem createBlog_title_taken
  (L : library) (fresh : ObjectId) (now : Z) (user : User.t) (body : blog_body)
  (db : list Blog.t) (other : Blog.t) :
  the (body_body body) <> "" ->
  trim_string (the (body_title body)) <> "" ->
  (forall b, In b db -> Blog._id b <> fresh) ->
  In other db ->
  Blog.title other = trim_string (the (body_title body)) ->
  createBlog L fresh now user (blog_req body) db
  = (db, failure 400 "title already exists").
Proof.
  intros Hb Hne Hfresh Hin Hot. rewrite createBlog_on_typed.
  assert (Ht : the (body_title body) <> "").
  { intros E. apply Hne. now rewrite E. }
  unfold createBlog_typed. cbv zeta. rewrite !truthy_js.
  apply String.eqb_neq in Ht, Hb, Hne. rewrite Ht, Hb. cbn [negb orb].
  rewrite save_new_unfold; cbv zeta. unfold validate. cbn [new_Blog Blog.title Blog.body].
  rewrite Hb, Hne. cbn [app set_updatedAt Blog._id new_Blog].
  replace (existsb (has_id fresh) db) with false.
  2:{ symmetry. apply not_true_is_false. intros E.
      apply existsb_exists in E as (x & Hx & E). apply has_id_eq in E.
      now apply (Hfresh x Hx). }
  match goal with
  | |- context [existsb (same_title ?d) db] =>
      replace (existsb (same_title d) db) with true
  end; [reflexivity|].
  symmetry. apply existsb_exists. exists other. split; [exact Hin|].
  unfold same_title. cbn. now apply String.eqb_eq.
Qed.

Lemma createBlog_title_taken_witness :
  createBlog sample_library (sample_id 5) 6000 alice
    (blog_req (mkBody (Some " One ") None None (Some "a body") None))
    [sample_blog (sample_id 1) "One" Blog.published]
  = ([sample_blog (sample_id 1) "One" Blog.published],
     failure 400 "title already exists").
Proof.
  apply (createBlog_title_taken sample_library (sample_id 5) 6000 alice
           (mkBody (Some " One ") None None (Some "a body") None)
           [sample_blog (sample_id 1) "One" Blog.published]
           (sample_blog (sample_id 1) "One" Blog.published)).
  - discriminate.
  - vm_compute. discriminate.
  - intros b [<- | []]. vm_compute. discriminate.
  - now left.
  - reflexivity.
Defined.

(** X20.  An update by the author that would give a valid blog the title
    of another blog of the collection is answered 400 "title already
    exists" and changes nothing. *)
Theorem updateBlog_title_taken
  (castObjectId : string -> option ObjectId) (L : library) (now : Z)
  (user : User.t)
  (id : string) (i : ObjectId) (body : blog_body) (db : list Blog.t)
  (original other : Blog.t) :
  castObjectId id = Some i ->
  Blog_findById i db = Some original ->
  Blog.author original = User._id user ->
  validate original = [] ->
  the (body_title body) <> "" ->
  In other db -> Blog._id other <> i ->
  Blog.title other = trim_string (the (body_title body)) ->
  Blog.title other <> "" ->
  Blog.title other <> Blog.title original ->
  updateBlog castObjectId L now user id (blog_req body) db
  = (db, failure 400 "title already exists").
Proof.
  intros Hc Hf Ha Hv Ht Hin Hoi Hot Hoe Hne. rewrite updateBlog_on_typed.
  rewrite (updateBlog_owner castObjectId now user id i body db original Hc Hf Ha).
  assert (Htitle : Blog.title (updated_blog body original) = Blog.title other).
  { unfold updated_blog. cbn. destruct (body_title body) as [t|]; [|now elim Ht].
    cbn in Ht, Hot. apply String.eqb_neq in Ht. now rewrite Ht. }
  assert (Hbody : Blog.body (updated_blog body original) <> "").
  { unfold validate in Hv.
    destruct (Blog.title original =? "")%string; [discriminate|].
    destruct (Blog.body original =? "")%string eqn:Eb; [discriminate|].
    apply String.eqb_neq in Eb. unfold updated_blog. cbn.
    destruct (body_body body) as [b|]; [|exact Eb].
    destruct (b =? "")%string eqn:Ebb; [exact Eb|now apply String.eqb_neq]. }
  apply findById_some in Hf as [_ Hid].
  rewrite save_existing_unfold; cbv zeta. unfold validate. rewrite Htitle.
  apply String.eqb_neq in Hoe, Hbody, Hne. rewrite Hoe, Hbody. cbn [app].
  set (doc := updated_blog body original) in *.
  change (Blog.title (set_updatedAt now doc)) with (Blog.title doc).
  change (Blog._id (set_updatedAt now doc)) with (Blog._id original).
  match goal with
  | |- context [if ?c then Throw _ else _] => replace c with true
  end; [reflexivity|].
  symmetry. apply andb_true_iff. split.
  - apply negb_true_iff. rewrite Htitle. exact Hne.
  - apply existsb_exists. exists other. split; [exact Hin|].
    apply andb_true_iff. split.
    + apply negb_true_iff. rewrite Hid.
      destruct (has_id i other) eqn:E; [|reflexivity].
      apply has_id_eq in E. contradiction.
    + unfold same_title. change (Blog.title (set_updatedAt now doc))
        with (Blog.title doc).
      apply String.eqb_eq. now rewrite Htitle.
Qed.

Lemma updateBlog_title_taken_witness :
  updateBlog castObjectId_hex sample_library 6000 alice (sample_id 1)
    (blog_req (mkBody (Some "Two") None None None None))
    [sample_blog (sample_id 1) "One" Blog.published;
     sample_blog (sample_id 2) "Two" Blog.draft]
  = ([sample_blog (sample_id 1) "One" Blog.published;
      sample_blog (sample_id 2) "Two" Blog.draft],
     failure 400 "title already exists").
Proof.
  apply (updateBlog_title_taken castObjectId_hex sample_library 6000 alice
           (sample_id 1)
           (sample_id 1) (mkBody (Some "Two") None None None None)
           [sample_blog (sample_id 1) "One" Blog.published;
            sample_blog (sample_id 2) "Two" Blog.draft]
           (sample_blog (sample_id 1) "One" Blog.published)
           (sample_blog (sample_id 2) "Two" Blog.draft)
           eq_refl eq_refl eq_refl eq_refl).
  - discriminate.
  - right. now left.
  - vm_compute. discriminate.
  - reflexivity.
  - discriminate.
  - discriminate.
Defined.

(** ** The parameters of the public listing *)

(** X21.  The defaults of the public listing.  A [page] that is missing,
    is not a number or is 0 is page 1; a [limit] that is missing, is not a
    number or is 0 is 20; a missing [search] is the empty search; a
    missing or empty [orderBy] is [timestamp]; and every [order] other
    than exactly [asc], a missing one included, is [desc]. *)
Theorem listing_defaults
  (S : server) (ties : Blog.t -> Z)
  (page limit search orderBy order : option string) (db : list Blog.t) :
  (parseInt page = NaN \/ parseInt page = Num 0 ->
   getAllPublishedBlogs S ties (mkListQuery page limit search orderBy order) db
   = getAllPublishedBlogs S ties
       (mkListQuery (Some "1") limit search orderBy order) db)
  /\ (parseInt limit = NaN \/ parseInt limit = Num 0 ->
      getAllPublishedBlogs S ties
        (mkListQuery page limit search orderBy order) db
      = getAllPublishedBlogs S ties
          (mkListQuery page (Some "20") search orderBy order) db)
  /\ (search = None ->
      getAllPublishedBlogs S ties
        (mkListQuery page limit search orderBy order) db
      = getAllPublishedBlogs S ties
          (mkListQuery page limit (Some "") orderBy order) db)
  /\ (orderBy = None \/ orderBy = Some "" ->
      getAllPublishedBlogs S ties
        (mkListQuery page limit search orderBy order) db
      = getAllPublishedBlogs S ties
          (mkListQuery page limit search (Some "timestamp") order) db)
  /\ (order <> Some "asc" ->
      getAllPublishedBlogs S ties
        (mkListQuery page limit search orderBy order) db
      = getAllPublishedBlogs S ties
          (mkListQuery page limit search orderBy (Some "desc")) db).
Proof.
  unfold getAllPublishedBlogs. cbv zeta.
  cbn [query_page query_limit query_search query_orderBy query_order].
  repeat split.
  - intros H.
    assert (E : parseInt_or page 1 = parseInt_or (Some "1") 1)
      by (unfold parseInt_or at 1; destruct H as [-> | ->]; reflexivity).
    now rewrite E.
  - intros H.
    assert (E : parseInt_or limit 20 = parseInt_or (Some "20") 20)
      by (unfold parseInt_or at 1; destruct H as [-> | ->]; reflexivity).
    now rewrite E.
  - intros ->. reflexivity.
  - intros [-> | ->]; reflexivity.
  - intros H. destruct order as [o|]; [|reflexivity].
    destruct (String.eqb_spec o "asc") as [->|Hne]; [congruence|reflexivity].
Qed.

Lemma listing_defaults_witness :
  getAllPublishedBlogs sample_server insertion_order
    (mkListQuery (Some "zero") None None None (Some "ASC")) (sample_blogs 3)
  = getAllPublishedBlogs sample_server insertion_order
      (mkListQuery (Some "1") None None None (Some "ASC")) (sample_blogs 3).
Proof.
  apply (proj1 (listing_defaults sample_server insertion_order (Some "zero")
                  None None None (Some "ASC") (sample_blogs 3))).
  left. reflexivity.
Defined.

(** ** Paging through the public listing *)

Lemma firstn_add (A : Type) (a b : nat) (l : list A) :
  firstn (a + b) l = (firstn a l ++ firstn b (skipn a l))%list.
Proof.
  revert l. induction a as [|a IH]; intros l; [reflexivity|].
  destruct l as [|x l]; cbn; [now rewrite firstn_nil|]. now rewrite IH.
Qed.

Lemma concat_pages (A : Type) (L n : nat) (l : list A) :
  List.concat (map (fun k => firstn L (skipn ((k - 1) * L) l)) (seq 1 n))
  = firstn (n * L) l.
Proof.
  induction n as [|n IH]; [reflexivity|].
  rewrite seq_S, map_app, concat_app, IH. cbn [map List.concat].
  rewrite app_nil_r. replace (1 + n - 1)%nat with n by lia.
  replace (S n * L)%nat with (n * L + L)%nat by lia.
  now rewrite firstn_add.
Qed.

(** The order of a sort does not depend on the rank given to equal
    keys when no two documents have equal keys. *)
Lemma key_leb_antisym (a b : sort_key) :
  key_leb a b = true -> key_leb b a = true -> a = b.
Proof.
  destruct a, b; cbn; intros H1 H2; try reflexivity; try discriminate;
    try (f_equal; lia); f_equal; now apply String.leb_antisym.
Qed.

Lemma in_order_distinct (t1 t2 : Blog.t -> Z) (field : string) (direction : Z)
  (a b : Blog.t) :
  (field_key field direction a = field_key field direction b -> a = b) ->
  in_order t1 field direction a b = in_order t2 field direction a b.
Proof.
  intros H. unfold in_order. cbv zeta.
  destruct (_ && _) eqn:E; [|reflexivity].
  apply andb_true_iff in E as [E1 E2].
  rewrite (H (key_leb_antisym _ _ E1 E2)). now rewrite !Z.leb_refl.
Qed.

Lemma insert_sorted_ext (le1 le2 : Blog.t -> Blog.t -> bool) (x : Blog.t)
  (l : list Blog.t) :
  (forall y, In y l -> le1 x y = le2 x y) ->
  insert_sorted le1 x l = insert_sorted le2 x l.
Proof.
  induction l as [|y l IH]; intros H; [reflexivity|]. cbn.
  rewrite (H y (or_introl eq_refl)). destruct (le2 x y); [reflexivity|].
  f_equal. apply IH. intros z Hz. apply H. now right.
Qed.

Lemma sort_blogs_ext (le1 le2 : Blog.t -> Blog.t -> bool) (l : list Blog.t) :
  (forall a b, In a l -> In b l -> le1 a b = le2 a b) ->
  sort_blogs le1 l = sort_blogs le2 l.
Proof.
  induction l as [|x l IH]; intros H; [reflexivity|]. cbn.
  rewrite IH by (intros a b Ha Hb; apply H; now right).
  apply insert_sorted_ext. intros y Hy. apply H; [now left|right].
  now apply sort_blogs_In in Hy.
Qed.

(** X22.  Paging through the public listing misses nothing and repeats
    nothing when no two matching blogs have the same value in the field
    of the sort: for a positive [limit], the pages 1, 2, ..., n, each
    asked for in a request of its own, put one after the other are the
    list of all matching blogs in the order asked for, as soon as n pages
    are enough to hold them and [n * limit] stays below 2^53.  Without the
    condition on the field the server may order the blogs with equal
    values differently from one page to the next. *)
Theorem listing_pages_cover
  (S : server) (ties : string -> Blog.t -> Z)
  (limit search orderBy order : option string) (db : list Blog.t)
  (keep : Blog.t -> bool) (pages : list string) (n : nat) (l : Z) :
  let field := str_or orderBy "timestamp" in
  let direction :=
    match order with
    | Some o => if (o =? "asc")%string then 1 else -1
    | None => -1
    end in
  let matching := filter keep db in
  let answer (p : string) :=
    getAllPublishedBlogs S (ties p)
      (mkListQuery (Some p) limit search orderBy order) db in
  parseInt_or limit 20 = Num l -> 0 < l ->
  compile_filter S
    (mkQuery (Some Blog.published)
             (if truthy (JStr (str_or search "")) then Some (str_or search "")
              else None)) = Ok keep ->
  map (fun p => parseInt (Some p)) pages
  = map (fun k => Num (Z.of_nat k)) (seq 1 n) ->
  Z.of_nat (List.length matching) <= Z.of_nat n * l ->
  Z.of_nat n * l < 2 ^ 53 ->
  (field = "timestamp" /\ NoDup (map Blog.timestamp matching))
  \/ (field = "read_count" /\ NoDup (map Blog.read_count matching))
  \/ (field = "reading_time" /\ NoDup (map Blog.reading_time matching))
  \/ (field = "title" /\ NoDup (map Blog.title matching)) ->
  Permutation (List.concat (map (fun p => blogs_of (answer p)) pages)) matching
  /\ forall rank : Blog.t -> Z,
       List.concat (map (fun p => blogs_of (answer p)) pages)
       = sort_blogs (in_order rank field direction) matching.
Proof.
  intros field direction matching answer Hlimit HL Hk Hpages Hn Hexact Hkeys.
  assert (Hdistinct : forall a b, In a matching -> In b matching ->
            field_key field direction a = field_key field direction b -> a = b).
  { intros a b Ha Hb.
    destruct Hkeys as [[-> Hnd] | [[-> Hnd] | [[-> Hnd] | [-> Hnd]]]];
      cbn; intros [= E];
      eapply NoDup_map_eq; eauto. }
  assert (Hany : forall t1 t2,
            sort_blogs (in_order t1 field direction) matching
            = sort_blogs (in_order t2 field direction) matching).
  { intros t1 t2. apply sort_blogs_ext. intros a b Ha Hb.
    apply in_order_distinct. now apply Hdistinct. }
  set (sorted := sort_blogs (in_order (fun _ => 0) field direction) matching).
  assert (Hpage : forall p k,
    parseInt (Some p) = Num (Z.of_nat k) -> (1 <= k <= n)%nat ->
    blogs_of (answer p)
    = firstn (Z.to_nat l) (skipn ((k - 1) * Z.to_nat l) sorted)).
  { intros p k Hp Hk1. unfold answer.
    rewrite getAllPublishedBlogs_unfold. cbv zeta.
    cbn [query_page query_limit query_search query_orderBy query_order].
    rewrite Hk, Hlimit. fold field direction matching.
    rewrite (Hany (ties p) (fun _ => 0)). fold sorted.
    assert (Ep : parseInt_or (Some p) 1 = Num (Z.of_nat k)).
    { unfold parseInt_or. rewrite Hp.
      destruct k as [|k]; [lia|]. reflexivity. }
    rewrite Ep. cbn [js_sub js_mul].
    rewrite (to_Number_exact (Z.of_nat k - 1)) by nia.
    cbn [js_mul]. rewrite (to_Number_exact ((Z.of_nat k - 1) * l)) by nia.
    rewrite window_in_range by nia.
    unfold blogs_of. cbn [data].
    replace (Z.to_nat (Z.abs l)) with (Z.to_nat l) by lia.
    replace (Z.to_nat ((Z.of_nat k - 1) * l)) with ((k - 1) * Z.to_nat l)%nat
      by nia.
    reflexivity. }
  assert (Hgen : forall m start ps,
    (1 <= start)%nat -> (start + m <= n + 1)%nat ->
    map (fun p => parseInt (Some p)) ps
    = map (fun k => Num (Z.of_nat k)) (seq start m) ->
    map (fun p => blogs_of (answer p)) ps
    = map (fun k => firstn (Z.to_nat l) (skipn ((k - 1) * Z.to_nat l) sorted))
          (seq start m)).
  { induction m as [|m IH]; intros start ps Hstart Hend Hps.
    - destruct ps; [reflexivity|discriminate].
    - destruct ps as [|p ps]; [discriminate|].
      cbn [seq map] in *. injection Hps as Hp Hrest.
      rewrite (Hpage p start Hp ltac:(lia)). f_equal.
      apply IH; [lia|lia|exact Hrest]. }
  assert (Hall : List.concat (map (fun p => blogs_of (answer p)) pages) = sorted).
  { rewrite (Hgen n 1%nat pages (le_n 1) ltac:(lia) Hpages).
    rewrite concat_pages.
    apply firstn_all2. unfold sorted. rewrite sort_blogs_length.
    fold matching. nia. }
  rewrite Hall. split; [apply sort_blogs_perm|].
  intros rank. apply Hany.
Qed.

(** Three blogs read 10, 30 and 20 times, listed on [read_count] two to
    a page, the server ranking equal keys in a way of its own at each
    request. *)
Lemma listing_pages_cover_witness :
  List.concat
    (map (fun p =>
            blogs_of (getAllPublishedBlogs sample_server
                        (fun b => if (p =? "1")%string
                                  then Blog.timestamp b else - Blog.timestamp b)
                        (mkListQuery (Some p) (Some "2") None
                                     (Some "read_count") None)
                        [sample_read 1 10; sample_read 2 30; sample_read 3 20]))
         ["1"; "2"])
  = [sample_read 2 30; sample_read 3 20; sample_read 1 10].
Proof.
  refine (eq_trans
    (proj2 (listing_pages_cover sample_server
           (fun p b => if (p =? "1")%string
                       then Blog.timestamp b else - Blog.timestamp b)
           (Some "2") None (Some "read_count") None
           [sample_read 1 10; sample_read 2 30; sample_read 3 20]
           (fun b => Blog.state_eqb (Blog.state b) Blog.published)
           ["1"; "2"] 2 2 _ _ _ _ _ _ _) insertion_order) _).
  - reflexivity.
  - reflexivity.
  - reflexivity.
  - reflexivity.
  - vm_compute. discriminate.
  - reflexivity.
  - right. left. split; [reflexivity|].
    repeat constructor; cbn; intros H;
      repeat (destruct H as [H|H]; [discriminate H|]); exact H.
  - reflexivity.
Defined.

(** Two blogs written at the same time, one to a page: when the server
    ranks them one way for page 1 and the other way for page 2, the first
    blog comes twice and the second never. *)
Lemma listing_pages_repeat_on_ties :
  List.concat
    (map (fun p =>
            blogs_of (getAllPublishedBlogs sample_server
                        (fun b => if (p =? "1")%string
                                  then Z.of_nat (String.length (Blog.title b))
                                  else - Z.of_nat (String.length (Blog.title b)))
                        (mkListQuery (Some p) (Some "1") None None None)
                        [sample_blog (sample_id 1) "A" Blog.published;
                         sample_blog (sample_id 2) "BB" Blog.published]))
         ["1"; "2"])
  = [sample_blog (sample_id 1) "A" Blog.published;
     sample_blog (sample_id 1) "A" Blog.published].
Proof. reflexivity. Qed.

(** ** The error handler *)

Lemma match_11000 (A : Type) (c : Z) (a b : A) :
  c <> 11000 -> match c with 11000 => a | _ => b end = b.
Proof.
  intros H. destruct c as [|p|p]; try reflexivity.
  repeat (destruct p as [p|p|]; try reflexivity). congruence.
Qed.

(** X23.  What the error handler answers.  It never reports success.  The
    name [TokenExpiredError] gives 401 "Token expired" and, failing that,
    [JsonWebTokenError] gives 401 "Invalid token" and, failing that,
    [CastError] gives 400 "Invalid ID format", whatever else the error
    carries; failing these, the code 11000 gives 400 with the first key of
    the key pattern followed by " already exists"; failing that, the name
    [ValidationError] gives 400 with the messages joined by ", "; and any
    other error gives its own status code, or 500 when it has none, with
    its own message, or "Internal Server Error" when that is empty. *)
Theorem errorHandler_mapping (err : js_error) :
  let named (n : string) := err_name err = n in
  success (errorHandler err) = false
  /\ (named "TokenExpiredError" ->
      errorHandler err = failure 401 "Token expired")
  /\ (named "JsonWebTokenError" ->
      errorHandler err = failure 401 "Invalid token")
  /\ (named "CastError" ->
      errorHandler err = failure 400 "Invalid ID format")
  /\ (~ named "TokenExpiredError" -> ~ named "JsonWebTokenError" ->
      ~ named "CastError" ->
      (err_code err = Some 11000 ->
       errorHandler err
       = failure 400 (hd "undefined" (err_keyPattern err) ++ " already exists"))
      /\ (err_code err <> Some 11000 -> named "ValidationError" ->
          errorHandler err = failure 400 (String.concat ", " (err_errors err)))
      /\ (err_code err <> Some 11000 -> ~ named "ValidationError" ->
          errorHandler err
          = failure (match err_statusCode err with
                     | Some c => if c =? 0 then 500 else c
                     | None => 500
                     end)
                    (if (err_message err =? "")%string
                     then "Internal Server Error" else err_message err))).
Proof.
  intros named. unfold named. split; [apply errorHandler_failure|].
  unfold errorHandler.
  remember (if (err_name err =? "ValidationError")%string
            then (400, String.concat ", " (err_errors err))
            else (match err_statusCode err with
                  | Some c => num_or c 500
                  | None => 500
                  end,
                  if (err_message err =? "")%string
                  then "Internal Server Error" else err_message err))
    as p eqn:Hp.
  destruct p as [s m].
  assert (Hnamed : forall n : string,
            n = "TokenExpiredError" \/ n = "JsonWebTokenError"
            \/ n = "CastError" ->
            err_name err = n ->
            forall q : Z * string,
              (let '(s0, m0) := q in
               let '(s1, m1) :=
                 if (err_name err =? "CastError")%string
                 then (400, "Invalid ID format") else (s0, m0) in
               let '(s2, m2) :=
                 if (err_name err =? "JsonWebTokenError")%string
                 then (401, "Invalid token") else (s1, m1) in
               let '(s3, m3) :=
                 if (err_name err =? "TokenExpiredError")%string
                 then (401, "Token expired") else (s2, m2) in
               failure s3 m3)
              = if (n =? "CastError")%string
                then failure 400 "Invalid ID format"
                else if (n =? "JsonWebTokenError")%string
                     then failure 401 "Invalid token"
                     else failure 401 "Token expired").
  { intros n Hn -> [s0 m0].
    destruct Hn as [-> | [-> | ->]]; reflexivity. }
  split; [intros Hn; exact (Hnamed _ (or_introl eq_refl) Hn _)|].
  split; [intros Hn; exact (Hnamed _ (or_intror (or_introl eq_refl)) Hn _)|].
  split; [intros Hn; exact (Hnamed _ (or_intror (or_intror eq_refl)) Hn _)|].
  clear Hnamed.
  intros H1 H2 H3. apply String.eqb_neq in H1, H2, H3. rewrite H1, H2, H3.
  split; [|split].
  - intros ->. reflexivity.
  - intros Hc Hv. rewrite Hv in Hp. cbn [String.eqb Ascii.eqb Bool.eqb] in Hp.
    injection Hp as -> ->.
    destruct (err_code err) as [c|]; [|reflexivity].
    rewrite match_11000 by congruence. reflexivity.
  - intros Hc Hv. apply String.eqb_neq in Hv. rewrite Hv in Hp.
    injection Hp as -> ->.
    destruct (err_code err) as [c|]; [|reflexivity].
    rewrite match_11000 by congruence.
    unfold num_or. destruct (err_statusCode err); reflexivity.
Qed.

Lemma errorHandler_mapping_witness :
  errorHandler (DuplicateKeyError "title") = failure 400 "title already exists".
Proof.
  apply (proj2 (proj2 (proj2 (proj2
           (errorHandler_mapping (DuplicateKeyError "title")))))
         ltac:(discriminate) ltac:(discriminate) ltac:(discriminate)).
  reflexivity.
Defined.

(** ** The reading time as the text grows *)

Lemma startsWord_words (s : list ascii) :
  startsWord s = true -> (1 <= List.length (words s))%nat.
Proof.
  destruct s as [|c s]; [discriminate|]. cbn [startsWord words].
  intros H. apply negb_true_iff in H. rewrite H.
  destruct (startsWord s); [destruct (words s)|]; cbn; lia.
Qed.

Lemma words_cons_length (c : ascii) (s : list ascii) :
  isWhiteSpace c = false ->
  List.length (words (c :: s))
  = if startsWord s then List.length (words s) else S (List.length (words s)).
Proof.
  intros W. cbn [words]. rewrite W.
  destruct (startsWord s) eqn:E; [|reflexivity].
  apply startsWord_words in E. destruct (words s); cbn in *; lia.
Qed.

Lemma words_cons_ge (c : ascii) (s : list ascii) :
  (List.length (words s) <= List.length (words (c :: s)))%nat.
Proof.
  destruct (isWhiteSpace c) eqn:W; [cbn [words]; rewrite W; lia|].
  rewrite words_cons_length by exact W. destruct (startsWord s); lia.
Qed.

Lemma words_app_right (s t : list ascii) :
  (List.length (words t) <= List.length (words (s ++ t)))%nat.
Proof.
  induction s as [|c s IH]; [cbn; lia|]. cbn [app].
  pose proof (words_cons_ge c (s ++ t)%list). lia.
Qed.

Lemma words_app_left (s t : list ascii) :
  (List.length (words s) <= List.length (words (s ++ t)))%nat.
Proof.
  induction s as [|c s IH]; [cbn; lia|]. cbn [app].
  destruct (isWhiteSpace c) eqn:W; [cbn [words]; rewrite W; exact IH|].
  rewrite !words_cons_length by exact W.
  destruct s as [|d s].
  - cbn [app startsWord words List.length].
    destruct (startsWord t) eqn:E; [apply startsWord_words in E|]; lia.
  - change (startsWord ((d :: s) ++ t)) with (startsWord (d :: s)).
    destruct (startsWord (d :: s)); lia.
Qed.

Lemma reading_time_words (s : string) :
  s <> "" ->
  calculateReadingTime (JStr s)
  = (Z.of_nat (Nat.max 1 (List.length (words (chars s)))) + 199) / 200.
Proof.
  intros Hs. apply String.eqb_neq in Hs.
  unfold calculateReadingTime. cbn [truthy typeof]. rewrite Hs.
  simpl negb. cbn [orb]. cbv zeta. rewrite split_trim_length.
  unfold wordsPerMinute. rewrite Math_ceil_div by lia.
  set (n := Nat.max 1 (List.length (words (chars s)))).
  replace (Z.of_nat n + 200 - 1) with (Z.of_nat n + 199) by lia.
  assert (H1 : 1 <= (Z.of_nat n + 199) / 200)
    by (apply Z.div_le_lower_bound; lia).
  unfold num_or. destruct ((Z.of_nat n + 199) / 200 =? 0) eqn:E0; lia.
Qed.

Lemma reading_time_nonneg (s : string) : 0 <= calculateReadingTime (JStr s).
Proof.
  destruct (String.eqb_spec s "") as [->|Hs]; [cbv; discriminate|].
  rewrite reading_time_words by exact Hs. apply Z.div_pos; lia.
Qed.

Lemma append_nonempty (s t : string) : s <> "" \/ t <> "" -> (s ++ t)%string <> "".
Proof.
  destruct s as [|c s]; [|discriminate]. cbn. intros [H|H]; [congruence|exact H].
Qed.

(** X24.  The reading time against the text.  Adding text, in front or
    behind, never lowers the reading time; only the empty string reads in
    0 minutes; and the reading time is the least number of minutes, one
    at least, that covers the words at 200 words a minute: 200 times
    the reading time is no less than the number of words, and 200 times
    one minute less is below that number, or below 1 for a text of white
    space alone. *)
Theorem reading_time_grows_with_the_text (s t : string) :
  calculateReadingTime (JStr s) <= calculateReadingTime (JStr (s ++ t))
  /\ calculateReadingTime (JStr t) <= calculateReadingTime (JStr (s ++ t))
  /\ (calculateReadingTime (JStr s) = 0 <-> s = "")
  /\ wordCount s <= 200 * calculateReadingTime (JStr s)
  /\ (s = "" \/
      200 * (calculateReadingTime (JStr s) - 1) < Z.max 1 (wordCount s)).
Proof.
  assert (Hmono : forall a b : string,
            a <> "" -> b <> "" ->
            (List.length (words (chars a)) <= List.length (words (chars b)))%nat ->
            calculateReadingTime (JStr a) <= calculateReadingTime (JStr b)).
  { intros a b Ha Hb Hle. rewrite !reading_time_words by assumption.
    apply Z.div_le_mono; lia. }
  split; [|split; [|split; [|split]]].
  - destruct (String.eqb_spec s "") as [->|Hs]; [apply reading_time_nonneg|].
    apply Hmono; [exact Hs|apply append_nonempty; now left|].
    rewrite chars_append. apply words_app_left.
  - destruct (String.eqb_spec t "") as [->|Ht]; [apply reading_time_nonneg|].
    apply Hmono; [exact Ht|apply append_nonempty; now right|].
    rewrite chars_append. apply words_app_right.
  - split; [|intros ->; reflexivity].
    destruct (String.eqb_spec s "") as [->|Hs]; [reflexivity|].
    rewrite reading_time_words by exact Hs. intros H.
    assert (1 <= (Z.of_nat (Nat.max 1 (List.length (words (chars s)))) + 199) / 200)
      by (apply Z.div_le_lower_bound; lia).
    lia.
  - destruct (String.eqb_spec s "") as [->|Hs]; [cbv; discriminate|].
    rewrite reading_time_words by exact Hs. unfold wordCount.
    set (n := List.length (words (chars s))).
    pose proof (Z.div_mod (Z.of_nat (Nat.max 1 n) + 199) 200 ltac:(lia)).
    pose proof (Z.mod_pos_bound (Z.of_nat (Nat.max 1 n) + 199) 200 ltac:(lia)).
    lia.
  - destruct (String.eqb_spec s "") as [->|Hs]; [now left|right].
    rewrite reading_time_words by exact Hs. unfold wordCount.
    set (n := List.length (words (chars s))).
    pose proof (Z.div_mod (Z.of_nat (Nat.max 1 n) + 199) 200 ltac:(lia)).
    pose proof (Z.mod_pos_bound (Z.of_nat (Nat.max 1 n) + 199) 200 ltac:(lia)).
    lia.
Qed.

(** ** Stored blogs pass validation *)

Lemma validate_nil (doc : Blog.t) :
  Blog.title doc <> "" -> Blog.body doc <> "" -> validate doc = [].
Proof.
  intros Ht Hb. unfold validate. apply String.eqb_neq in Ht, Hb.
  now rewrite Ht, Hb.
Qed.

(** X25.  If every blog of the collection has a title and a body, this is
    still so after a create, an update, a fetch or a delete, whatever the
    members of the body of the request; and in such a collection the
    fetch of a published blog by its identifier always answers 200, the
    validation at the save of its read count having nothing to refuse. *)
Theorem documents_stay_valid
  (castObjectId : string -> option ObjectId) (L : library) (fresh : ObjectId)
  (now : Z) (user : User.t) (id : string) (req : blog_request)
  (db : list Blog.t) :
  documents_ok db ->
  documents_ok (fst (createBlog L fresh now user req db))
  /\ documents_ok (fst (updateBlog castObjectId L now user id req db))
  /\ documents_ok (fst (getBlogById castObjectId now id db))
  /\ documents_ok (fst (deleteBlog castObjectId user id db))
  /\ (forall i b,
        castObjectId id = Some i ->
        Blog_findOne_published i db = Some b ->
        status (snd (getBlogById castObjectId now id db)) = 200).
Proof.
  intros Hok. unfold documents_ok in *.
  split; [|split; [|split; [|split]]].
  - destruct (createBlog_any_cases L fresh now user req db)
      as [(-> & _) | (doc & -> & _ & _ & _ & Ht & Hb & _)]; [exact Hok|].
    cbn [fst]. apply Forall_app. split; [exact Hok|].
    constructor; [|constructor]. now apply validate_nil.
  - destruct (updateBlog_any_cases castObjectId L now user id req db)
      as [[-> _] | (i & original & doc & _ & _ & _ & -> & _ & _ & _ & _ & _
                    & Ht & Hb & _)]; [exact Hok|].
    cbn [fst]. apply Forall_map_replace; [exact Hok|]. now apply validate_nil.
  - destruct (getBlogById_cases castObjectId now id db)
      as [[-> _] | (i & original & _ & _ & Hv & ->)]; [exact Hok|].
    cbn [fst]. apply Forall_map_replace; [exact Hok|]. exact Hv.
  - unfold deleteBlog. destruct (castObjectId id) as [i|]; [|exact Hok].
    destruct (Blog_findById i db); [|exact Hok].
    destruct (negb _); [exact Hok|]. cbn [fst].
    rewrite Forall_forall in *. intros b Hb. apply Hok.
    now apply delete_In in Hb.
  - intros i b Hc Hf.
    apply findOne_published_some in Hf as Hf'. destruct Hf' as (Hin & _).
    rewrite Forall_forall in Hok.
    destruct (getBlogById_found castObjectId now id i b db Hc Hf (Hok b Hin))
      as [-> _].
    reflexivity.
Qed.

Lemma documents_stay_valid_witness :
  status (snd (getBlogById castObjectId_hex 6000 (sample_id 1)
                 [sample_blog (sample_id 1) "One" Blog.published])) = 200.
Proof.
  apply (proj2 (proj2 (proj2 (proj2
           (documents_stay_valid castObjectId_hex sample_library (sample_id 5)
              6000 alice (sample_id 1)
              (mkBlogRequest None None None None None)
              [sample_blog (sample_id 1) "One" Blog.published]
              ltac:(repeat constructor)))))
           (sample_id 1) (sample_blog (sample_id 1) "One" Blog.published)).
  - reflexivity.
  - reflexivity.
Defined.
